(** * Co-signing coordination protocol of the backgammon escrow client/server

    A shallow embedding of
    - the WebSocket relay of the off-chain server (the full relay with the
      [move_request]/[move_signed]/[finish_*] switch, and the minimal relay of
      [server/src/index.ts]),
    - the [WebSocketClient] singleton of the client,
    - the per-participant engine of [GameScreen.tsx],
    - the connection state of [WebSocketClient] (reconnection, handlers),
    - the account decoder [getGameState], the HTTP API of the full server
      and the wallet initialisation of [anchorClient.ts],
    together with the properties of the co-signing protocol. *)

From Stdlib Require Import ZArith Bool.
From stdpp Require Import gmap strings list.

Local Open Scope string_scope.

(** JavaScript truthiness of an optional string field: [undefined] and the
    empty string are falsy. *)
Definition truthy (s : option string) : bool :=
  match s with
  | Some v => negb (String.eqb v "")
  | None => false
  end.

(** ** Exceptions *)
Inductive Exn (A : Type) :=
| Ok (a : A)
| Throw (e : string).
Arguments Ok {A} a.
Arguments Throw {A} e.

Global Instance Exn_ret : MRet Exn := fun _ a => Ok a.
Global Instance Exn_bind : MBind Exn := fun _ _ f x =>
  match x with
  | Ok a => f a
  | Throw e => Throw e
  end.

(** ** The relay ([wss.on("connection")] of the full server) *)
Module Relay.

(** [ws.readyState] *)
Inductive ReadyState := CONNECTING | OPEN | CLOSING | CLOSED.

Definition is_OPEN (r : ReadyState) : bool :=
  match r with OPEN => true | _ => false end.

(** A connection is identified by its socket object. *)
Definition Socket := nat.

(** Value type of [clientSubscriptions]. *)
Record Subscription := mkSubscription {
  sub_gamePubkey : string;
  sub_playerPubkey : string
}.

(** Row of the [games] table as read by
    [SELECT player1, player2 FROM games WHERE game_pubkey = ?]. *)
Record GameRow := mkGameRow {
  player1 : string;
  player2 : string
}.

(** The parsed message object.  The relay reads [type], [gamePubkey],
    [playerPubkey] and [newTurn]; everything else travels in [body]. *)
Record Message := mkMessage {
  type : option string;
  gamePubkey : option string;
  playerPubkey : option string;
  newTurn : option Z;
  body : string
}.

(** Result of [JSON.parse] when it does not throw: [null], a value with no
    properties of its own to dispatch on (number, string, boolean, array),
    or an object. *)
Inductive JSONValue :=
| JNull
| JScalar
| JObject (m : Message).

(** What [send] is given, before [JSON.stringify]. *)
Inductive Outgoing :=
| ErrorReply (error : string)
| Subscribed (g p : string)
| Forward (m : Message)
| TurnChanged (g : option string) (nt : option Z).

Record Server := mkServer {
  clients : list (Socket * ReadyState);
  clientSubscriptions : gmap Socket Subscription;
  games : gmap string GameRow
}.

Definition Sends := list (Socket * Outgoing).

(** [gameStmt.get(message.gamePubkey)]: the row with that key, if any.
    An absent key ([undefined]) is bound as [NULL], which
    [WHERE game_pubkey = ?] matches with no row. *)
Definition gameStmt_get (srv : Server) (g : option string) : Exn (option GameRow) :=
  match g with
  | Some k => Ok (games srv !! k)
  | None => Ok None
  end.

(** The loop
    [wss.clients.forEach(client => if (client.readyState === OPEN &&
     clientSubscriptions.has(client)) if (subscription?.gamePubkey ===
     message.gamePubkey) client.send(payload))]. *)
Definition receives (srv : Server) (g : option string)
    (c : Socket * ReadyState) : bool :=
  is_OPEN c.2 &&
  match clientSubscriptions srv !! c.1 with
  | Some s => bool_decide (Some (sub_gamePubkey s) = g)
  | None => false
  end.

Definition broadcast (srv : Server) (g : option string) (payload : Outgoing)
    : Sends :=
  (fun c => (c.1, payload)) <$> filter (fun c => receives srv g c = true) (clients srv).

Definition type_is (m : Message) (t : string) : bool :=
  bool_decide (type m = Some t).

(** The branches that look the game up: an error reply to the sender when
    there is no such row, else the fan-out of [message]. *)
Definition forward_if_registered (srv : Server) (ws : Socket) (message : Message)
    : Exn (Server * Sends) :=
  game ← gameStmt_get srv (gamePubkey message);
  match game with
  | None => Ok (srv, [(ws, ErrorReply "Game not found")])
  | Some _ => Ok (srv, broadcast srv (gamePubkey message) (Forward message))
  end.

(** Body of the [try] block once [message] is an object. *)
Definition try_body (srv : Server) (ws : Socket) (message : Message)
    : Exn (Server * Sends) :=
  if type_is message "subscribe" then
    if negb (truthy (gamePubkey message)) || negb (truthy (playerPubkey message))
    then Ok (srv, [(ws, ErrorReply "Missing gamePubkey or playerPubkey")])
    else
      match gamePubkey message, playerPubkey message with
      | Some g, Some p =>
          Ok (mkServer (clients srv)
                       (<[ws := mkSubscription g p]> (clientSubscriptions srv))
                       (games srv),
              [(ws, Subscribed g p)])
      | _, _ => Ok (srv, [])
      end
  else if type_is message "chat" then
    Ok (srv, broadcast srv (gamePubkey message) (Forward message))
  else if type_is message "move_request" then
    forward_if_registered srv ws message
  else if type_is message "move_signed" then
    forward_if_registered srv ws message
  else if type_is message "turn_completed" then
    Ok (srv, broadcast srv (gamePubkey message)
               (TurnChanged (gamePubkey message) (newTurn message)))
  else if type_is message "finish_request" then
    Ok (srv, broadcast srv (gamePubkey message) (Forward message))
  else if type_is message "finish_signed" then
    forward_if_registered srv ws message
  else if type_is message "game_finished" then
    Ok (srv, broadcast srv (gamePubkey message) (Forward message))
  else if type_is message "manual_finished" then
    Ok (srv, broadcast srv (gamePubkey message) (Forward message))
  else Ok (srv, []).

(** The [catch] block. *)
Definition catch (srv : Server) (ws : Socket) : Server * Sends :=
  (srv, [(ws, ErrorReply "Failed to process message")]).

(** [try { ... } catch { ... }] once [message] is an object. *)
Definition handle (srv : Server) (ws : Socket) (message : Message)
    : Server * Sends :=
  match try_body srv ws message with
  | Ok r => r
  | Throw _ => catch srv ws
  end.

Section Parser.
(** [JSON.parse(data.toString())]; [None] stands for a thrown
    [SyntaxError]. *)
Variable JSON_parse : string -> option JSONValue.

(** [ws.on("message", data => try { ... } catch { ws.send(error) })];
    reading [message.type] of [null] throws as well. *)
Definition on_message (srv : Server) (ws : Socket) (data : string)
    : Server * Sends :=
  match JSON_parse data with
  | None => catch srv ws
  | Some JNull => catch srv ws
  | Some JScalar => (srv, [])
  | Some (JObject m) => handle srv ws m
  end.
End Parser.

(** [ws.on("close")] *)
Definition on_close (srv : Server) (ws : Socket) : Server :=
  mkServer (filter (fun c => c.1 <> ws) (clients srv))
           (delete ws (clientSubscriptions srv))
           (games srv).

(** A connection is bound to session [g]. *)
Definition bound_to (srv : Server) (c : Socket) (g : string) : Prop :=
  exists s, clientSubscriptions srv !! c = Some s /\ sub_gamePubkey s = g.

Definition open_in (srv : Server) (c : Socket) : Prop :=
  (c, OPEN) ∈ clients srv.

(** The three branches that consult the [games] table. *)
Definition looks_up_game (m : Message) : Prop :=
  type m = Some "move_request" \/ type m = Some "move_signed" \/
  type m = Some "finish_signed".

(** Some reply was sent to connection [c]. *)
Definition replied_to {A} (out : list (Socket * A)) (c : Socket) : Prop :=
  exists x, (c, x) ∈ out.

End Relay.

(** ** The minimal relay of [server/src/index.ts] *)
Module LegacyRelay.

Import Relay.

(** [type WsClient = { ws; gamePubkey?; playerPubkey? }] with the socket's
    [readyState]. *)
Record WsClient := mkWsClient {
  ws : Socket;
  readyState : ReadyState;
  client_gamePubkey : option string;
  client_playerPubkey : option string
}.

(** The payload built by the [chat] branch ([ts] left out). *)
Inductive Outgoing :=
| Chat (from : option string) (text : string).

Definition Sends := list (Socket * Outgoing).

(** [broadcastToGame(gamePubkey, payload)] *)
Definition broadcastToGame (clients : list WsClient) (g : string)
    (payload : Outgoing) : Sends :=
  (fun c => (ws c, payload)) <$>
    filter (fun c => bool_decide (client_gamePubkey c = Some g) && is_OPEN (readyState c) = true)
           clients.

(** [client.gamePubkey = msg.gamePubkey; client.playerPubkey = msg.playerPubkey]
    on the client object of this connection. *)
Definition bind (me : Socket) (g p : option string) (c : WsClient) : WsClient :=
  if bool_decide (ws c = me) then mkWsClient (ws c) (readyState c) g p else c.

Definition handle (clients : list WsClient) (me : Socket) (msg : Message)
    : list WsClient * Sends :=
  if type_is msg "subscribe" then
    (bind me (gamePubkey msg) (playerPubkey msg) <$> clients, [])
  else if type_is msg "chat" then
    match list_find (fun c => ws c = me) clients with
    | Some (_, c) =>
        if truthy (client_gamePubkey c) then
          match client_gamePubkey c with
          | Some g => (clients, broadcastToGame clients g
                                  (Chat (client_playerPubkey c) (body msg)))
          | None => (clients, [])
          end
        else (clients, [])
    | None => (clients, [])
    end
  else (clients, []).

Section Parser.
Variable JSON_parse : string -> option JSONValue.

(** [ws.on("message", data => try { ... } catch (e) { console.error(...) })] *)
Definition on_message (clients : list WsClient) (me : Socket) (data : string)
    : list WsClient * Sends :=
  match JSON_parse data with
  | None => (clients, [])
  | Some JNull => (clients, [])
  | Some JScalar => (clients, [])
  | Some (JObject m) => handle clients me m
  end.
End Parser.

End LegacyRelay.

(** ** The parts of @solana/web3.js (legacy [Transaction]) the client uses

    The library is a dependency, not part of the repository.  This module
    records its behaviour for the calls the client makes: [partialSign],
    [serialize] and [Transaction.from].  Transactions hold one instruction;
    the order of the signature slots after the fee payer plays no role
    below. *)
Module Web3.

(** Base58 form of a public key; a keypair is named by its public key. *)
Definition Pubkey := string.
Definition Keypair := Pubkey.

(** A signature, named by the key that produced it. *)
Inductive Signature := SigOf (signer : Pubkey).

(** Element of [tx.signatures]: [{ publicKey, signature: Buffer | null }]. *)
Record SignaturePubkeyPair := mkSig {
  publicKey : Pubkey;
  signature : option Signature
}.

(** Instruction payload of the two co-signed operations. *)
Inductive InstructionData :=
| MakeMove (board_points : list Z) (dice : list Z)
| FinishGame (winner : Pubkey).

(** [TransactionInstruction]: the keys flagged [isSigner: true], in order,
    and the data. *)
Record TransactionInstruction := mkIx {
  signerKeys : list Pubkey;
  data : InstructionData
}.

Record Transaction := mkTx {
  instruction : TransactionInstruction;
  feePayer : option Pubkey;
  recentBlockhash : option string;
  signatures : list SignaturePubkeyPair
}.

(** [new Transaction().add(ix)] *)
Definition new_Transaction (ix : TransactionInstruction) : Transaction :=
  mkTx ix None None [].

(** Keys in order of first occurrence. *)
Fixpoint dedup_keys (l : list Pubkey) : list Pubkey :=
  match l with
  | [] => []
  | k :: r => k :: filter (fun x => x <> k) (dedup_keys r)
  end.

(** The fee payer used when the message is compiled: [tx.feePayer], else
    the key of the first signature slot. *)
Definition effectiveFeePayer (tx : Transaction) : option Pubkey :=
  match feePayer tx with
  | Some f => Some f
  | None =>
      match signatures tx with
      | s :: _ => Some (publicKey s)
      | [] => None
      end
  end.

(** [tx._compile()]: needs a recent blockhash and a fee payer; the
    signature slots are the required signers, fee payer first, and are
    reset to [null] when they do not already have that shape. *)
Definition compile (tx : Transaction) : Exn Transaction :=
  match recentBlockhash tx with
  | None => Throw "Transaction recentBlockhash required"
  | Some _ =>
      match effectiveFeePayer tx with
      | None => Throw "Transaction fee payer required"
      | Some f =>
          let signedKeys := dedup_keys (f :: signerKeys (instruction tx)) in
          if bool_decide (publicKey <$> signatures tx = signedKeys)
          then Ok tx
          else Ok (mkTx (instruction tx) (feePayer tx) (recentBlockhash tx)
                        ((fun k => mkSig k None) <$> signedKeys))
      end
  end.

(** [tx.partialSign(keypair)] *)
Definition partialSign (kp : Keypair) (tx : Transaction) : Exn Transaction :=
  tx' ← compile tx;
  if bool_decide (kp ∈ publicKey <$> signatures tx')
  then Ok (mkTx (instruction tx') (feePayer tx') (recentBlockhash tx')
                ((fun s => if bool_decide (publicKey s = kp)
                           then mkSig kp (Some (SigOf kp)) else s)
                   <$> signatures tx'))
  else Throw "unknown signer".

(** Bytes on the wire, named by the transaction they decode to. *)
Inductive TxBytes :=
| Encoded (tx : Transaction)
| Malformed.

Record SerializeConfig := mkCfg {
  requireAllSignatures : bool;
  verifySignatures : bool
}.

Definition slot_valid (s : SignaturePubkeyPair) : bool :=
  match signature s with
  | Some (SigOf k) => bool_decide (k = publicKey s)
  | None => true
  end.

Definition slot_present (s : SignaturePubkeyPair) : bool :=
  match signature s with Some _ => true | None => false end.

(** [tx.serialize(config)]: the signatures are looked at only when
    [verifySignatures] is set; [requireAllSignatures] is an argument of
    that check.  Returns the transaction object as compilation left it,
    and the bytes. *)
Definition serialize (cfg : SerializeConfig) (tx : Transaction)
    : Exn (Transaction * TxBytes) :=
  tx' ← compile tx;
  if verifySignatures cfg &&
     negb (forallb slot_valid (signatures tx') &&
           (negb (requireAllSignatures cfg) || forallb slot_present (signatures tx')))
  then Throw "Signature verification failed"
  else Ok (tx', Encoded tx').

(** [Transaction.from(Buffer.from(bytes))] *)
Definition Transaction_from (b : TxBytes) : Exn Transaction :=
  match b with
  | Encoded tx => Ok tx
  | Malformed => Throw "Failed to deserialize transaction"
  end.

(** The transaction carries a signature of participant [p]. *)
Definition signed_by (tx : Transaction) (p : Pubkey) : bool :=
  existsb (fun s => bool_decide (publicKey s = p) && slot_present s) (signatures tx).

End Web3.

(** ** The [WebSocketClient] class and its singleton [wsClient] *)
Module WsClient.

Import Web3.

(** [interface WSMessage], with the [winnerPubkey] property the engine
    reads and writes. *)
Module Msg.
Record t := mk {
  type : string;
  gamePubkey : option string;
  playerPubkey : option string;
  moveIndex : option Z;
  player : option string;
  boardPoints : option (list Z);
  dice : option (list (option Z));
  transactionData : option TxBytes;
  newTurn : option Z;
  winnerPubkey : option string;
  message : option string
}.
End Msg.
Abbreviation WSMessage := Msg.t.

Definition empty (ty : string) : WSMessage :=
  Msg.mk ty None None None None None None None None None None.

(** Argument lists of the public methods. *)
Inductive Args :=
| NoArgs
| GameAndPlayer (gamePubkey playerPubkey : string)
| GameAndText (gamePubkey message : string)
| GameAndMessage (gamePubkey : string) (message : WSMessage)
| GameAndTurn (gamePubkey playerPubkey : string) (newTurn : Z)
| GameAndWinner (gamePubkey winnerPubkey : string).

(** A method, as far as the socket sees it: given whether
    [this.ws.readyState === WebSocket.OPEN], the messages handed to
    [this.ws.send]. *)
Definition Method := bool -> Args -> list WSMessage.

Definition no_send : Method := fun _ _ => [].

Definition subscribe : Method := fun open a =>
  match a with
  | GameAndPlayer g p =>
      if open then
        [Msg.mk "subscribe" (Some g) (Some p) None None None None None None None None]
      else []
  | _ => []
  end.

Definition sendChat : Method := fun open a =>
  match a with
  | GameAndText g text =>
      if open then
        [Msg.mk "chat" (Some g) None None None None None None None None (Some text)]
      else []
  | _ => []
  end.

Definition sendMoveRequest : Method := fun open a =>
  match a with
  | GameAndMessage _ m => if open then [m] else []
  | _ => []
  end.

Definition sendMoveSigned : Method := fun open a =>
  match a with
  | GameAndMessage _ m => if open then [m] else []
  | _ => []
  end.

Definition sendTurnCompleted : Method := fun open a =>
  match a with
  | GameAndTurn g p nt =>
      if open then
        [Msg.mk "turn_completed" (Some g) (Some p) None None None None None (Some nt) None None]
      else []
  | _ => []
  end.

(** The members of [class WebSocketClient], in source order. *)
Definition WebSocketClient : list (string * Method) :=
  [ ("connect", no_send);
    ("attemptReconnect", no_send);
    ("subscribe", subscribe);
    ("sendChat", sendChat);
    ("onMessage", no_send);
    ("offMessage", no_send);
    ("sendMoveRequest", sendMoveRequest);
    ("sendMoveSigned", sendMoveSigned);
    ("sendTurnCompleted", sendTurnCompleted);
    ("disconnect", no_send);
    ("isConnected", no_send) ].

Fixpoint lookup_method (cls : list (string * Method)) (name : string)
    : option Method :=
  match cls with
  | [] => None
  | (n, f) :: r => if String.eqb n name then Some f else lookup_method r name
  end.

(** [export const wsClient = new WebSocketClient()] *)
Definition wsClient := WebSocketClient.

(** [obj.name(args)]: calling a property that is not there throws a
    [TypeError]. *)
Definition invoke (obj : list (string * Method)) (name : string)
    (open : bool) (a : Args) : Exn (list WSMessage) :=
  match lookup_method obj name with
  | Some f => Ok (f open a)
  | None => Throw (String.append name " is not a function")
  end.

Definition has_method (obj : list (string * Method)) (name : string) : bool :=
  match lookup_method obj name with Some _ => true | None => false end.

End WsClient.

(** ** The engine: state and callbacks of [GameScreen] *)
Module Engine.

Import Web3 WsClient.

(** A pair [[d0, d1]] read from a [number[]]: an index past the end reads
    [undefined], here [None]. *)
Definition Dice := (option Z * option Z)%type.

Definition dice_of (d : list (option Z)) : Dice :=
  (mjoin (d !! 0%nat), mjoin (d !! 1%nat)).
Definition dice_values (d : Dice) : list (option Z) := [d.1; d.2].

Record PendingMove := mkPendingMove {
  pm_boardPoints : list Z;
  pm_dice : Dice;
  pm_moveIndex : Z;
  pm_transactionData : option TxBytes
}.

Record PendingFinish := mkPendingFinish {
  pf_winnerPubkey : string;
  pf_transactionData : TxBytes
}.

Record GameInfo := mkGameInfo {
  gi_player1 : string;
  gi_player2 : string
}.

(** [gamePubkey] prop and [myPubkey] of the wallet. *)
Record Props := mkProps {
  gamePubkey : string;
  myPubkey : string
}.

(** The [useState] cells. *)
Record State := mkState {
  boardPoints : list Z;
  dice : option Dice;
  currentTurn : Z;
  isMyTurn : bool;
  isRolling : bool;
  isProcessingMove : bool;
  isProcessingFinish : bool;
  selectedCell : option nat;
  pendingMove : option PendingMove;
  pendingFinish : option PendingFinish;
  winnerBanner : option string;
  gameInfo : option GameInfo
}.

Definition setBoardPoints (v : list Z) (st : State) : State :=
  mkState v (dice st) (currentTurn st) (isMyTurn st) (isRolling st)
          (isProcessingMove st) (isProcessingFinish st) (selectedCell st)
          (pendingMove st) (pendingFinish st) (winnerBanner st) (gameInfo st).
Definition setDice (v : option Dice) (st : State) : State :=
  mkState (boardPoints st) v (currentTurn st) (isMyTurn st) (isRolling st)
          (isProcessingMove st) (isProcessingFinish st) (selectedCell st)
          (pendingMove st) (pendingFinish st) (winnerBanner st) (gameInfo st).
Definition setCurrentTurn (v : Z) (st : State) : State :=
  mkState (boardPoints st) (dice st) v (isMyTurn st) (isRolling st)
          (isProcessingMove st) (isProcessingFinish st) (selectedCell st)
          (pendingMove st) (pendingFinish st) (winnerBanner st) (gameInfo st).
Definition setIsMyTurn (v : bool) (st : State) : State :=
  mkState (boardPoints st) (dice st) (currentTurn st) v (isRolling st)
          (isProcessingMove st) (isProcessingFinish st) (selectedCell st)
          (pendingMove st) (pendingFinish st) (winnerBanner st) (gameInfo st).
Definition setIsRolling (v : bool) (st : State) : State :=
  mkState (boardPoints st) (dice st) (currentTurn st) (isMyTurn st) v
          (isProcessingMove st) (isProcessingFinish st) (selectedCell st)
          (pendingMove st) (pendingFinish st) (winnerBanner st) (gameInfo st).
Definition setIsProcessingMove (v : bool) (st : State) : State :=
  mkState (boardPoints st) (dice st) (currentTurn st) (isMyTurn st)
          (isRolling st) v (isProcessingFinish st) (selectedCell st)
          (pendingMove st) (pendingFinish st) (winnerBanner st) (gameInfo st).
Definition setIsProcessingFinish (v : bool) (st : State) : State :=
  mkState (boardPoints st) (dice st) (currentTurn st) (isMyTurn st)
          (isRolling st) (isProcessingMove st) v (selectedCell st)
          (pendingMove st) (pendingFinish st) (winnerBanner st) (gameInfo st).
Definition setSelectedCell (v : option nat) (st : State) : State :=
  mkState (boardPoints st) (dice st) (currentTurn st) (isMyTurn st)
          (isRolling st) (isProcessingMove st) (isProcessingFinish st) v
          (pendingMove st) (pendingFinish st) (winnerBanner st) (gameInfo st).
Definition setPendingMove (v : option PendingMove) (st : State) : State :=
  mkState (boardPoints st) (dice st) (currentTurn st) (isMyTurn st)
          (isRolling st) (isProcessingMove st) (isProcessingFinish st)
          (selectedCell st) v (pendingFinish st) (winnerBanner st)
          (gameInfo st).
Definition setPendingFinish (v : option PendingFinish) (st : State) : State :=
  mkState (boardPoints st) (dice st) (currentTurn st) (isMyTurn st)
          (isRolling st) (isProcessingMove st) (isProcessingFinish st)
          (selectedCell st) (pendingMove st) v (winnerBanner st) (gameInfo st).
Definition setWinnerBanner (v : option string) (st : State) : State :=
  mkState (boardPoints st) (dice st) (currentTurn st) (isMyTurn st)
          (isRolling st) (isProcessingMove st) (isProcessingFinish st)
          (selectedCell st) (pendingMove st) (pendingFinish st) v
          (gameInfo st).
Definition setGameInfo (v : option GameInfo) (st : State) : State :=
  mkState (boardPoints st) (dice st) (currentTurn st) (isMyTurn st)
          (isRolling st) (isProcessingMove st) (isProcessingFinish st)
          (selectedCell st) (pendingMove st) (pendingFinish st)
          (winnerBanner st) v.

Definition INITIAL_BOARD : list Z := (-30)%Z :: replicate 22 0%Z ++ [30%Z].

Definition initialState : State :=
  mkState INITIAL_BOARD None 1 false false false false None None None None None.

(** Results of the calls that leave the component during one callback. *)
Record Env := mkEnv {
  provider : bool;
  currentKeypair : option Keypair;
  ws_open : bool;
  ledger_confirms : TxBytes -> bool;
  onchain_game : option (Pubkey * Pubkey);
  server_moves : option nat;
  latestBlockhash : string;
  logMove_ok : bool
}.

(** The same outside world with another ledger verdict. *)
Definition setLedger (f : TxBytes -> bool) (env : Env) : Env :=
  mkEnv (provider env) (currentKeypair env) (ws_open env) f (onchain_game env)
        (server_moves env) (latestBlockhash env) (logMove_ok env).

Inductive Effect :=
| SendRawTransaction (serializedTx : TxBytes)
| WsSend (m : WSMessage)
| LogMove (moveIndex : Z) (player : string) (board : list Z) (d : Dice)
| Alert (text : string)
| RefreshGameState
| ScheduleBack.

(** Callbacks: state updates so far, effects so far, and a value or a
    thrown error. *)
Definition M (A : Type) : Type := State -> State * list Effect * Exn A.

Definition ret {A} (a : A) : M A := fun s => (s, [], Ok a).

Definition bind {A B} (m : M A) (f : A -> M B) : M B := fun s =>
  match m s with
  | (s1, e1, Ok a) =>
      match f a s1 with
      | (s2, e2, r) => (s2, (e1 ++ e2)%list, r)
      end
  | (s1, e1, Throw e) => (s1, e1, Throw e)
  end.

Global Instance M_ret : MRet M := @ret.
Global Instance M_bind : MBind M := fun _ _ f m => bind m f.

Definition throw {A} (e : string) : M A := fun s => (s, [], Throw e).
Definition liftE {A} (x : Exn A) : M A := fun s => (s, [], x).
Definition emit (e : Effect) : M unit := fun s => (s, [e], Ok tt).
Definition emits (l : list Effect) : M unit := fun s => (s, l, Ok tt).
Definition update (f : State -> State) : M unit := fun s => (f s, [], Ok tt).

(** The values a callback closes over. *)
Definition snapshot : M State := fun s => (s, [], Ok s).

(** [try { m } catch (e) { h e }] *)
Definition try_catch {A} (m : M A) (h : string -> M A) : M A := fun s =>
  match m s with
  | (s1, e1, Throw e) =>
      match h e s1 with
      | (s2, e2, r) => (s2, (e1 ++ e2)%list, r)
      end
  | r => r
  end.

(** [try { m } finally { f }] *)
Definition finally {A} (m : M A) (f : M unit) : M A := fun s =>
  match m s with
  | (s1, e1, r) =>
      match f s1 with
      | (s2, e2, _) => (s2, (e1 ++ e2)%list, r)
      end
  end.

(** [promise.catch(error => logger.error(...))] *)
Definition logged (m : M unit) : M unit := try_catch m (fun _ => ret tt).

Definition require (b : bool) (e : string) : M unit :=
  if b then ret tt else throw e.

Definition from_option {A} (x : option A) (e : string) : M A :=
  match x with
  | Some a => ret a
  | None => throw e
  end.

(** [wsClient.name(args)] *)
Definition call (env : Env) (name : string) (a : Args) : M unit :=
  msgs ← liftE (invoke wsClient name (ws_open env) a);
  emits (WsSend <$> msgs).

(** [await connection.sendRawTransaction(serializedTx, ...)] followed by
    [await connection.confirmTransaction(signature, "confirmed")]. *)
Definition sendRawTransaction_confirmed (env : Env) (serializedTx : TxBytes)
    : M unit :=
  emit (SendRawTransaction serializedTx);;
  require (ledger_confirms env serializedTx) "Transaction was not confirmed".

(** [refreshGameState()]: reads the chain and only logs. *)
Definition refreshGameState : M unit := emit RefreshGameState.

(** What a callback leaves behind: the state and the effects.  An error
    that escapes it is a rejected promise, which nothing handles. *)
Definition run (m : M unit) (st : State) : State * list Effect :=
  match m st with
  | (s, e, _) => (s, e)
  end.

(** [Math.max(-128, Math.min(127, v))] *)
Definition clamp_i8 (v : Z) : Z := Z.max (-128) (Z.min 127 v).

(** The 24 bytes written by the [for (let i = 0; i < 24; i++)] loop; a
    missing cell is written as 0. *)
Definition boardPointsBuffer (b : list Z) : list Z :=
  (fun i => clamp_i8 (default 0%Z (b !! i))) <$> seq 0 24.

(** [Buffer.from(newDice)] *)
Definition diceBuffer (d : Dice) : list Z :=
  (fun x => Z.land (default 0%Z x) 255) <$> dice_values d.

(** [createMoveTransaction(newBoardPoints, newDice)] *)
Definition createMoveTransaction (env : Env) (newBoardPoints : list Z)
    (newDice : Dice) : M Transaction :=
  require (provider env) "Provider not initialized";;
  '(p1, p2) ← from_option (onchain_game env) "Game state not found";
  let ix := mkIx [p1; p2]
              (MakeMove (boardPointsBuffer newBoardPoints) (diceBuffer newDice)) in
  let tx := new_Transaction ix in
  ret (mkTx (instruction tx) (Some p1) (Some (latestBlockhash env)) (signatures tx)).

(** [createFinishTransaction(winnerPubkey)] *)
Definition createFinishTransaction (env : Env) (winnerPubkey : Pubkey)
    : M Transaction :=
  require (provider env) "Provider not initialized";;
  '(p1, p2) ← from_option (onchain_game env) "Game state not found";
  let ix := mkIx [p1; p2] (FinishGame winnerPubkey) in
  let tx := new_Transaction ix in
  ret (mkTx (instruction tx) (Some winnerPubkey) (Some (latestBlockhash env))
            (signatures tx)).

(** [submitSignedTransactionToBlockchain(signedTx, finalBoardPoints, finalDice)] *)
Definition submitSignedTransactionToBlockchain (props : Props) (env : Env)
    (signedTx : Transaction) (finalBoardPoints : list Z) (finalDice : Dice)
    : M unit :=
  cap ← snapshot;
  require (provider env) "Provider not initialized";;
  try_catch
    ('(signedTx, serializedTx) ← liftE (serialize (mkCfg true false) signedTx);
     require (negb (length (signatures signedTx) <? 2)%nat)
             "Transaction missing signatures: expected 2";;
     sendRawTransaction_confirmed env serializedTx;;
     update (setBoardPoints finalBoardPoints);;
     update (setDice (Some finalDice));;
     update (setPendingMove None);;
     update (setSelectedCell None);;
     let newTurn := if (currentTurn cap =? 1)%Z then 2%Z else 1%Z in
     call env "sendTurnCompleted"
          (GameAndTurn (gamePubkey props) (myPubkey props) newTurn);;
     refreshGameState)
    (fun e =>
       emit (Alert "Failed to submit move to blockchain. Please try again.");;
       throw e).

(** [submitFinishTransaction(signedTx, winnerPubkey)] *)
Definition submitFinishTransaction (props : Props) (env : Env)
    (signedTx : Transaction) (winnerPubkey : string) : M unit :=
  require (provider env) "Provider not initialized";;
  '(signedTx, serializedTx) ← liftE (serialize (mkCfg true false) signedTx);
  sendRawTransaction_confirmed env serializedTx;;
  call env "sendGameFinished" (GameAndWinner (gamePubkey props) winnerPubkey);;
  update (setWinnerBanner (Some winnerPubkey));;
  update (setIsMyTurn false);;
  emit ScheduleBack.

(** [submitMoveToBlockchain(finalBoardPoints, finalDice)], the fallback. *)
Definition submitMoveToBlockchain (finalBoardPoints : list Z) (finalDice : Dice)
    : M unit :=
  update (setBoardPoints finalBoardPoints);;
  update (setDice (Some finalDice));;
  update (fun st => setCurrentTurn (if (currentTurn st =? 1)%Z then 2%Z else 1%Z) st);;
  update (fun st => setIsMyTurn (negb (isMyTurn st)) st);;
  update (setPendingMove None);;
  update (setSelectedCell None);;
  refreshGameState.

(** [message.gamePubkey === gamePubkey], [message.playerPubkey === myPubkey] *)
Definition same (field : option string) (v : string) : bool :=
  bool_decide (field = Some v).

(** The [move_signed] branch of [messageHandler]. *)
Definition on_move_signed (props : Props) (pendingMove_seen : option PendingMove)
    (env : Env) (message : WSMessage) : M unit :=
  if same (Msg.playerPubkey message) (myPubkey props) then ret tt
  else
    match Msg.transactionData message, Msg.boardPoints message, Msg.dice message with
    | Some bytes, Some board, Some d =>
        tx ← liftE (Transaction_from bytes);
        if (length (signatures tx) <? 2)%nat then
          emit (Alert "Transaction is missing signatures. Please try again.")
        else
          let tx :=
            match feePayer tx, onchain_game env with
            | None, Some (p1, _) =>
                mkTx (instruction tx) (Some p1) (recentBlockhash tx) (signatures tx)
            | _, _ => tx
            end in
          logged (submitSignedTransactionToBlockchain props env tx board (dice_of d))
    | _, _, _ =>
        match pendingMove_seen with
        | Some pm => logged (submitMoveToBlockchain (pm_boardPoints pm) (pm_dice pm))
        | None => ret tt
        end
    end.

(** The [turn_changed] branch. *)
Definition on_turn_changed (props : Props) (message : WSMessage) : M unit :=
  cap ← snapshot;
  match Msg.newTurn message with
  | Some newTurn =>
      update (setCurrentTurn newTurn);;
      match gameInfo cap with
      | Some gi =>
          let isPlayer1 := String.eqb (myPubkey props) (gi_player1 gi) in
          let isMyTurnNow :=
            ((newTurn =? 1)%Z && isPlayer1) || ((newTurn =? 2)%Z && negb isPlayer1) in
          update (setIsMyTurn isMyTurnNow)
      | None => ret tt
      end;;
      update (setDice None);;
      update (setSelectedCell None);;
      update (setPendingMove None);;
      update (setIsRolling false);;
      update (setIsProcessingMove false);;
      refreshGameState
  | None => ret tt
  end.

(** The [finish_signed] branch, once the game key matched. *)
Definition on_finish_signed (props : Props) (env : Env) (message : WSMessage)
    : M unit :=
  if same (Msg.playerPubkey message) (myPubkey props) then ret tt
  else
    match Msg.transactionData message with
    | Some bytes =>
        if truthy (Msg.winnerPubkey message) then
          tx ← liftE (Transaction_from bytes);
          logged (submitFinishTransaction props env tx
                    (default "" (Msg.winnerPubkey message)))
        else ret tt
    | None => ret tt
    end.

Definition msg_is (message : WSMessage) (t : string) : bool :=
  String.eqb (Msg.type message) t.

(** [messageHandler(message)].  [pendingMove_seen] is the [pendingMove]
    the handler closed over: the effect that installs the handler does not
    list [pendingMove] among its dependencies. *)
Definition messageHandler (props : Props) (pendingMove_seen : option PendingMove)
    (env : Env) (message : WSMessage) : M unit :=
  let here := same (Msg.gamePubkey message) (gamePubkey props) in
  if msg_is message "dice_rolled" && here then
    match Msg.dice message with
    | Some d => if (length d =? 2)%nat then update (setDice (Some (dice_of d))) else ret tt
    | None => ret tt
    end
  else if msg_is message "move" && here then
    if same (Msg.player message) (myPubkey props) then ret tt
    else
      match Msg.boardPoints message with
      | Some b => update (setBoardPoints b)
      | None => ret tt
      end
  else if msg_is message "move_request" then
    match Msg.boardPoints message, Msg.dice message, Msg.transactionData message with
    | Some b, Some d, Some bytes =>
        update (setPendingMove
                  (Some (mkPendingMove b (dice_of d)
                           (default 0%Z (Msg.moveIndex message)) (Some bytes))))
    | _, _, _ => ret tt
    end
  else if msg_is message "move_signed" then
    on_move_signed props pendingMove_seen env message
  else if msg_is message "turn_changed" then
    on_turn_changed props message
  else if msg_is message "finish_request" && here then
    match Msg.transactionData message with
    | Some bytes =>
        if truthy (Msg.winnerPubkey message) then
          update (setPendingFinish
                    (Some (mkPendingFinish (default "" (Msg.winnerPubkey message)) bytes)))
        else ret tt
    | None => ret tt
    end
  else if msg_is message "finish_signed" && here then
    on_finish_signed props env message
  else if msg_is message "game_finished" && here then
    update (setWinnerBanner
              (Some (if truthy (Msg.winnerPubkey message)
                     then default "" (Msg.winnerPubkey message) else "Unknown")));;
    update (setIsMyTurn false);;
    emit ScheduleBack
  else ret tt.

(** [handleCellClick(index)] *)
Definition handleCellClick (index : nat) : M unit :=
  cap ← snapshot;
  if negb (isMyTurn cap) || negb (bool_decide (is_Some (dice cap))) || isProcessingMove cap
  then ret tt
  else update (setSelectedCell (Some index)).

(** The entry guard of [confirmMove]:
    [!isMyTurn || !dice || selectedCell === null || isProcessingMove]. *)
Definition confirmMove_returns_early (cap : State) : bool :=
  negb (isMyTurn cap) || negb (bool_decide (is_Some (dice cap))) ||
  negb (bool_decide (is_Some (selectedCell cap))) || isProcessingMove cap.

(** [newBoardPoints[selectedCell] += change] on a copy of the board, for a
    cell of the board.  For a cell past the end the source stores [NaN] at
    that index, lengthening the array; a board of integers has no such
    value, so that case is not represented (the board is returned as it
    is) and the properties of the new board are stated for cells of the
    board only. *)
Definition moved (board : list Z) (cell : nat) : list Z :=
  match board !! cell with
  | Some v => <[cell := (v + (if (0 <=? v)%Z then -1 else 1))%Z]> board
  | None => board
  end.

(** [confirmMove()] *)
Definition confirmMove (props : Props) (env : Env) : M unit :=
  cap ← snapshot;
  if confirmMove_returns_early cap then ret tt
  else
    match dice cap, selectedCell cap with
    | Some d, Some cell =>
        update (setIsProcessingMove true);;
        finally
          (try_catch
             (require (provider env) "Provider not initialized";;
              myKeypair ← from_option (currentKeypair env) "Keypair not available";
              let newBoardPoints := moved (boardPoints cap) cell in
              moves ← from_option (server_moves env) "Failed to get game";
              let moveIndex := (Z.of_nat moves + 1)%Z in
              tx ← createMoveTransaction env newBoardPoints d;
              tx ← liftE (partialSign myKeypair tx);
              '(tx, serializedTx) ← liftE (serialize (mkCfg false false) tx);
              let moveRequest :=
                Msg.mk "move_request" (Some (gamePubkey props)) (Some (myPubkey props))
                       (Some moveIndex) None (Some newBoardPoints)
                       (Some (dice_values d)) (Some serializedTx) None None None in
              call env "sendMoveRequest" (GameAndMessage (gamePubkey props) moveRequest);;
              update (setPendingMove (Some (mkPendingMove newBoardPoints d moveIndex None)));;
              emit (LogMove moveIndex (myPubkey props) newBoardPoints d);;
              require (logMove_ok env) "Failed to log move")
             (fun _ => emit (Alert "Failed to make move. Please try again.")))
          (update (setIsProcessingMove false);;
           update (setSelectedCell None))
    | _, _ => ret tt
    end.

(** [confirmWin()] *)
Definition confirmWin (props : Props) (env : Env) : M unit :=
  cap ← snapshot;
  if negb (isMyTurn cap) || isProcessingFinish cap then ret tt
  else
    update (setIsProcessingFinish true);;
    try_catch
      (tx ← createFinishTransaction env (myPubkey props);
       myKeypair ← from_option (currentKeypair env) "Keypair not found";
       tx ← liftE (partialSign myKeypair tx);
       '(tx, serializedTx) ← liftE (serialize (mkCfg false false) tx);
       let finishRequest :=
         Msg.mk "finish_request" (Some (gamePubkey props)) (Some (myPubkey props))
                None None None None (Some serializedTx) None
                (Some (myPubkey props)) None in
       call env "sendFinishRequest" (GameAndMessage (gamePubkey props) finishRequest);;
       update (setPendingFinish (Some (mkPendingFinish (myPubkey props) serializedTx)));;
       update (setIsProcessingFinish false))
      (fun _ =>
         emit (Alert "Failed to confirm win. Please try again.");;
         update (setIsProcessingFinish false)).

(** [if (!tx.recentBlockhash) { ...; tx.recentBlockhash = blockhash }] *)
Definition ensure_recentBlockhash (env : Env) (tx : Transaction) : M Transaction :=
  match recentBlockhash tx with
  | Some _ => ret tx
  | None =>
      require (provider env) "Provider not initialized";;
      ret (mkTx (instruction tx) (feePayer tx) (Some (latestBlockhash env))
                (signatures tx))
  end.

(** [handlePendingMoveSignature()] *)
Definition handlePendingMoveSignature (props : Props) (env : Env) : M unit :=
  cap ← snapshot;
  match pendingMove cap with
  | Some pm =>
      match pm_transactionData pm with
      | Some bytes =>
          try_catch
            (myKeypair ← from_option (currentKeypair env) "Keypair not available";
             tx ← liftE (Transaction_from bytes);
             tx ← ensure_recentBlockhash env tx;
             tx ← liftE (partialSign myKeypair tx);
             '(tx, serializedTx) ← liftE (serialize (mkCfg true false) tx);
             let signedMove :=
               Msg.mk "move_signed" (Some (gamePubkey props)) (Some (myPubkey props))
                      (Some (pm_moveIndex pm)) None (Some (pm_boardPoints pm))
                      (Some (dice_values (pm_dice pm))) (Some serializedTx)
                      None None None in
             call env "sendMoveSigned" (GameAndMessage (gamePubkey props) signedMove);;
             update (setPendingMove None))
            (fun _ => emit (Alert "Failed to sign move. Please try again."))
      | None => ret tt
      end
  | None => ret tt
  end.

(** [handlePendingFinishSignature()] *)
Definition handlePendingFinishSignature (props : Props) (env : Env) : M unit :=
  cap ← snapshot;
  match pendingFinish cap with
  | Some pf =>
      try_catch
        (myKeypair ← from_option (currentKeypair env) "Keypair not available";
         tx ← liftE (Transaction_from (pf_transactionData pf));
         tx ← ensure_recentBlockhash env tx;
         tx ← liftE (partialSign myKeypair tx);
         '(tx, serializedTx) ← liftE (serialize (mkCfg true false) tx);
         let signedMessage :=
           Msg.mk "finish_signed" (Some (gamePubkey props)) (Some (myPubkey props))
                  None None None None (Some serializedTx) None
                  (Some (pf_winnerPubkey pf)) None in
         call env "sendFinishSigned" (GameAndMessage (gamePubkey props) signedMessage);;
         update (setPendingFinish None))
        (fun _ => emit (Alert "Failed to sign finish. Please try again."))
  | None => ret tt
  end.

(** The effect
    [useEffect(() => { if (!isMyTurn && pendingFinish) handlePendingFinishSignature(); })]. *)
Definition autoSignPendingFinish (props : Props) (env : Env) : M unit :=
  cap ← snapshot;
  if negb (isMyTurn cap) && bool_decide (is_Some (pendingFinish cap))
  then handlePendingFinishSignature props env
  else ret tt.

(** The [wsClient] methods the finish flow calls: [confirmWin],
    [handlePendingFinishSignature], [submitFinishTransaction]. *)
Definition finish_flow_calls : list string :=
  ["sendFinishRequest"; "sendFinishSigned"; "sendGameFinished"].

(** The [wsClient] methods the move flow calls: [confirmMove],
    [handlePendingMoveSignature], [submitSignedTransactionToBlockchain]. *)
Definition move_flow_calls : list string :=
  ["sendMoveRequest"; "sendMoveSigned"; "sendTurnCompleted"].

(** Effects that hand a transaction to the ledger. *)
Definition submissions (l : list Effect) : list TxBytes :=
  omap (fun e => match e with SendRawTransaction b => Some b | _ => None end) l.

(** Effects that put a message on the socket. *)
Definition sent (l : list Effect) : list WSMessage :=
  omap (fun e => match e with WsSend m => Some m | _ => None end) l.

(** A [turn_completed] message announcing a turn other than [t]. *)
Definition announces_other_turn (t : Z) (w : WSMessage) : Prop :=
  Msg.type w = "turn_completed" /\
  exists nt, Msg.newTurn w = Some nt /\ nt <> t.

(** Both participants of the session have signed. *)
Definition signed_by_both (b : TxBytes) (p1 p2 : Pubkey) : bool :=
  match b with
  | Encoded tx => signed_by tx p1 && signed_by tx p2
  | Malformed => false
  end.

End Engine.

(** ** Sample data used to run the models *)
Module Sample.

Import Relay.

(** A parser for three inputs; everything else is a syntax error. *)
Definition JSON_parse (data : string) : option JSONValue :=
  if String.eqb data "null" then Some JNull
  else if String.eqb data "42" then Some JScalar
  else if String.eqb data "{}" then Some (JObject (mkMessage None None None None ""))
  else None.

Definition games0 : gmap string GameRow := {[ "S1" := mkGameRow "P1" "P2" ]}.

(** Connections 1 and 2 are bound to S1, connection 3 to S2, connection 4
    is bound to S1 but closing, connection 9 is open and unsubscribed. *)
Definition srv0 : Server :=
  mkServer [(1, OPEN); (2, OPEN); (3, OPEN); (4, CLOSING); (9, OPEN)]
           (<[1 := mkSubscription "S1" "P1"]>
             (<[2 := mkSubscription "S1" "P2"]>
               (<[3 := mkSubscription "S2" "P3"]>
                 (<[4 := mkSubscription "S1" "P1"]> ∅))))
           games0.

Definition move_request0 : Message :=
  mkMessage (Some "move_request") (Some "S1") (Some "P1") None "seq=1 dice=[3,5]".

Definition move_request_unknown : Message :=
  mkMessage (Some "move_request") (Some "S7") (Some "P1") None "seq=1".

Definition legacy0 : list LegacyRelay.WsClient :=
  [ LegacyRelay.mkWsClient 1 OPEN (Some "S1") (Some "P1");
    LegacyRelay.mkWsClient 2 OPEN (Some "S1") (Some "P2") ].

End Sample.

Module EngineSample.

Import Web3 WsClient Engine.

(** The engine of participant P1 in session S1. *)
Definition props1 : Props := mkProps "S1" "P1".

(** The engine of participant P2 in session S1. *)
Definition props2 : Props := mkProps "S1" "P2".

Definition env_of (kp : Keypair) (moves : nat) : Env :=
  mkEnv true (Some kp) true (fun _ => true) (Some ("P1", "P2")) (Some moves) "bh" true.

Definition board1 : list Z := moved INITIAL_BOARD 0.

Definition move_ix : TransactionInstruction :=
  mkIx ["P1"; "P2"] (MakeMove (boardPointsBuffer board1) [3; 5]%Z).

(** A move transaction signed by P1 only: the slot of P2 is [null]. *)
Definition move_tx_half : Transaction :=
  mkTx move_ix (Some "P1") (Some "bh")
       [mkSig "P1" (Some (SigOf "P1")); mkSig "P2" None].

(** The same transaction after P2 has signed as well. *)
Definition move_tx_full : Transaction :=
  mkTx move_ix (Some "P1") (Some "bh")
       [mkSig "P1" (Some (SigOf "P1")); mkSig "P2" (Some (SigOf "P2"))].

(** A finish transaction claiming the win for P1, signed by P1 only. *)
Definition finish_tx_half : Transaction :=
  mkTx (mkIx ["P1"; "P2"] (FinishGame "P1")) (Some "P1") (Some "bh")
       [mkSig "P1" (Some (SigOf "P1")); mkSig "P2" None].

(** The finish transaction after P2 has signed as well. *)
Definition finish_tx_full : Transaction :=
  mkTx (mkIx ["P1"; "P2"] (FinishGame "P1")) (Some "P1") (Some "bh")
       [mkSig "P1" (Some (SigOf "P1")); mkSig "P2" (Some (SigOf "P2"))].

Definition move_signed_msg (from : string) (seq : Z) (tx : Transaction) : WSMessage :=
  Msg.mk "move_signed" (Some "S1") (Some from) (Some seq) None (Some board1)
         (Some [Some 3; Some 5]%Z) (Some (Encoded tx)) None None None.

Definition finish_signed_msg (from : string) (tx : Transaction) : WSMessage :=
  Msg.mk "finish_signed" (Some "S1") (Some from) None None None None
         (Some (Encoded tx)) None (Some "P1") None.

Definition finish_request_msg (from : string) (tx : Transaction) : WSMessage :=
  Msg.mk "finish_request" (Some "S1") (Some from) None None None None
         (Some (Encoded tx)) None (Some "P1") None.

(** A [move_signed] without transaction data. *)
Definition move_signed_bare (from : string) : WSMessage :=
  Msg.mk "move_signed" (Some "S1") (Some from) (Some 1%Z) None None None None
         None None None.

Definition turn_changed_msg (nt : Z) : WSMessage :=
  Msg.mk "turn_changed" (Some "S1") None None None None None None (Some nt) None None.

Definition gameInfo0 : GameInfo := mkGameInfo "P1" "P2".

Definition pending6 : PendingMove :=
  mkPendingMove board1 (Some 3%Z, Some 5%Z) 6 None.

(** P1 on its turn with dice rolled and cell 0 selected; nothing pending. *)
Definition st_turn : State :=
  mkState INITIAL_BOARD (Some (Some 3%Z, Some 5%Z)) 1 true false false false
          (Some 0%nat) None None None (Some gameInfo0).

(** P1 after it proposed sequence number 6 and selected cell 23: still on
    its turn, the proposal pending. *)
Definition st_proposer : State :=
  mkState INITIAL_BOARD (Some (Some 3%Z, Some 5%Z)) 1 true false false false
          (Some 23%nat) (Some pending6) None None (Some gameInfo0).

(** P1 in the middle of [confirmMove]. *)
Definition st_in_flight : State := setIsProcessingMove true st_turn.

(** P2 while it is the turn of P1, holding the finish request of P1. *)
Definition st_reviewer : State :=
  mkState INITIAL_BOARD None 1 false false false false None None
          (Some (mkPendingFinish "P1" (Encoded finish_tx_half))) None (Some gameInfo0).

End EngineSample.

(** * Messages and transactions of one move round *)
Module Round.
Import Web3 WsClient Engine.

(** The two signature slots of a co-signed transaction, fee payer first. *)
Definition slots (p1 p2 : Pubkey) (a b : option Signature) : list SignaturePubkeyPair :=
  [mkSig p1 a; mkSig p2 b].

(** The signature of [k] when [b] holds, else an empty slot. *)
Definition sig_when (b : bool) (k : Pubkey) : option Signature :=
  if b then Some (SigOf k) else None.

(** The slots after the participants in [who] have signed. *)
Definition signed_slots (p1 p2 : Pubkey) (who : list Pubkey) : list SignaturePubkeyPair :=
  slots p1 p2 (sig_when (bool_decide (p1 ∈ who)) p1) (sig_when (bool_decide (p2 ∈ who)) p2).

(** The move transaction built by [createMoveTransaction], with the given
    slots. *)
Definition move_tx (p1 p2 : Pubkey) (bh : string) (board : list Z) (d : Dice)
    (sigs : list SignaturePubkeyPair) : Transaction :=
  mkTx (mkIx [p1; p2] (MakeMove (boardPointsBuffer board) (diceBuffer d)))
       (Some p1) (Some bh) sigs.

(** The [move_request] built by [confirmMove]. *)
Definition move_request (props : Props) (seq : Z) (board : list Z) (d : Dice)
    (tx : Transaction) : WSMessage :=
  Msg.mk "move_request" (Some (gamePubkey props)) (Some (myPubkey props)) (Some seq)
         None (Some board) (Some (dice_values d)) (Some (Encoded tx)) None None None.

(** The [move_signed] built by [handlePendingMoveSignature]. *)
Definition move_signed (props : Props) (seq : Z) (board : list Z) (d : Dice)
    (tx : Transaction) : WSMessage :=
  Msg.mk "move_signed" (Some (gamePubkey props)) (Some (myPubkey props)) (Some seq)
         None (Some board) (Some (dice_values d)) (Some (Encoded tx)) None None None.

(** The two participants, in either order. *)
Definition participants (p1 p2 me other : Pubkey) : Prop :=
  p1 <> p2 /\ ((me = p1 /\ other = p2) \/ (me = p2 /\ other = p1)).

(** A board of 24 cells, each holding between -30 and 30 checkers. *)
Definition board_ok (b : list Z) : Prop :=
  length b = 24%nat /\ Forall (fun v => (-30 <= v <= 30)%Z) b.

End Round.

(** * The connection held by [WebSocketClient] *)
Module WsConn.

Import WsClient.

(** [WebSocket.readyState] *)
Inductive ReadyState := CONNECTING | OPEN | CLOSING | CLOSED.

#[global] Instance ReadyState_eq_dec : EqDecision ReadyState.
Proof. solve_decision. Defined.

(** Sockets are named by their order of creation; a message handler is a
    function value, compared by identity. *)
Definition SocketId := nat.
Definition MessageHandler := nat.

(** The fields of [class WebSocketClient], with the sockets it has created
    ([sockets !! s] is the [readyState] of socket [s]). *)
Record Client := mkClient {
  sockets : list ReadyState;
  ws : option SocketId;
  messageHandlers : list MessageHandler;
  reconnectAttempts : nat
}.

Definition maxReconnectAttempts : nat := 5.
Definition reconnectDelay : Z := 1000.

(** [new WebSocketClient()] *)
Definition new_WebSocketClient : Client := mkClient [] None [] 0.

Inductive Effect :=
| Send (s : SocketId) (m : WSMessage)
| Close (s : SocketId)
| SetTimeout (delayMs : Z)
| Invoke (h : MessageHandler) (m : WSMessage).

(** [this.ws?.readyState === WebSocket.OPEN] *)
Definition isConnected (c : Client) : bool :=
  match ws c with
  | Some s => bool_decide (sockets c !! s = Some OPEN)
  | None => false
  end.

(** [connect()]; [ctor_ok] tells whether [new WebSocket(WS_URL)] returns
    (it throws on a malformed URL, which the [catch] only logs). *)
Definition connect (ctor_ok : bool) (c : Client) : Client * list Effect :=
  if isConnected c then (c, [])
  else if ctor_ok then
    (mkClient (sockets c ++ [CONNECTING]) (Some (length (sockets c)))
              (messageHandlers c) (reconnectAttempts c), [])
  else (c, []).

(** [attemptReconnect()] *)
Definition attemptReconnect (c : Client) : Client * list Effect :=
  if (maxReconnectAttempts <=? reconnectAttempts c)%nat then (c, [])
  else
    let attempts := S (reconnectAttempts c) in
    (mkClient (sockets c) (ws c) (messageHandlers c) attempts,
     [SetTimeout (reconnectDelay * Z.of_nat attempts)]).

(** The [onopen] callback installed by [connect]. *)
Definition onopen (c : Client) : Client * list Effect :=
  (mkClient (sockets c) (ws c) (messageHandlers c) 0, []).

(** The [onclose] callback installed by [connect]. *)
Definition onclose (c : Client) : Client * list Effect :=
  attemptReconnect (mkClient (sockets c) None (messageHandlers c) (reconnectAttempts c)).

(** The [onmessage] callback installed by [connect]: [data] is the parsed
    frame, [None] when [JSON.parse] throws.  An exception of one handler is
    caught inside the [forEach] body. *)
Definition onmessage (data : option WSMessage) (c : Client) : Client * list Effect :=
  match data with
  | Some message => (c, (fun h => Invoke h message) <$> messageHandlers c)
  | None => (c, [])
  end.

(** The callback given to [setTimeout] by [attemptReconnect]. *)
Definition reconnect_timer (ctor_ok : bool) (c : Client) : Client * list Effect :=
  connect ctor_ok c.

(** [onMessage(handler)] *)
Definition onMessage (handler : MessageHandler) (c : Client) : Client * list Effect :=
  (mkClient (sockets c) (ws c) (messageHandlers c ++ [handler]) (reconnectAttempts c), []).

(** [offMessage(handler)] *)
Definition offMessage (handler : MessageHandler) (c : Client) : Client * list Effect :=
  (mkClient (sockets c) (ws c) (filter (fun h => h <> handler) (messageHandlers c))
            (reconnectAttempts c), []).

(** [WebSocket.close()]: a socket that is connecting or open starts closing. *)
Definition closing (st : ReadyState) : ReadyState :=
  match st with
  | CONNECTING | OPEN => CLOSING
  | _ => st
  end.

(** [disconnect()] *)
Definition disconnect (c : Client) : Client * list Effect :=
  match ws c with
  | Some s =>
      (mkClient (alter closing s (sockets c)) None [] (reconnectAttempts c), [Close s])
  | None => (mkClient (sockets c) None [] (reconnectAttempts c), [])
  end.

(** A sending method of the class, run on this client: the frames go to
    [this.ws]. *)
Definition send (method : Method) (a : Args) (c : Client) : Client * list Effect :=
  match ws c with
  | Some s => (c, Send s <$> method (isConnected c) a)
  | None => (c, [])
  end.

(** What happens to a client: calls of its public methods, and the events
    of the sockets and timers it created.  The browser sets a socket's
    [readyState] before it dispatches [open] or [close]. *)
Inductive Event :=
| CallConnect (ctor_ok : bool)
| CallDisconnect
| CallOnMessage (h : MessageHandler)
| CallOffMessage (h : MessageHandler)
| CallSubscribe (gamePubkey playerPubkey : string)
| CallSendChat (gamePubkey message : string)
| CallSendMoveRequest (gamePubkey : string) (message : WSMessage)
| CallSendMoveSigned (gamePubkey : string) (message : WSMessage)
| CallSendTurnCompleted (gamePubkey playerPubkey : string) (newTurn : Z)
| SocketOpened (s : SocketId)
| SocketClosed (s : SocketId)
| SocketMessage (s : SocketId) (data : option WSMessage)
| TimerFired (ctor_ok : bool).

Definition set_readyState (s : SocketId) (st : ReadyState) (c : Client) : Client :=
  mkClient (<[s := st]> (sockets c)) (ws c) (messageHandlers c) (reconnectAttempts c).

Definition step (e : Event) (c : Client) : Client * list Effect :=
  match e with
  | CallConnect ok => connect ok c
  | CallDisconnect => disconnect c
  | CallOnMessage h => onMessage h c
  | CallOffMessage h => offMessage h c
  | CallSubscribe g p => send subscribe (GameAndPlayer g p) c
  | CallSendChat g t => send sendChat (GameAndText g t) c
  | CallSendMoveRequest g m => send sendMoveRequest (GameAndMessage g m) c
  | CallSendMoveSigned g m => send sendMoveSigned (GameAndMessage g m) c
  | CallSendTurnCompleted g p nt => send sendTurnCompleted (GameAndTurn g p nt) c
  | SocketOpened s => onopen (set_readyState s OPEN c)
  | SocketClosed s => onclose (set_readyState s CLOSED c)
  | SocketMessage _ data => onmessage data c
  | TimerFired ok => reconnect_timer ok c
  end.

Fixpoint steps (evs : list Event) (c : Client) : Client * list Effect :=
  match evs with
  | [] => (c, [])
  | e :: rest =>
      let '(c1, out1) := step e c in
      let '(c2, out2) := steps rest c1 in
      (c2, (out1 ++ out2)%list)
  end.

(** The delays of the timers set in a run. *)
Definition timeouts (out : list Effect) : list Z :=
  omap (fun e => match e with SetTimeout d => Some d | _ => None end) out.

(** The frames sent in a run. *)
Definition frames (out : list Effect) : list WSMessage :=
  omap (fun e => match e with Send _ m => Some m | _ => None end) out.

(** The handlers invoked in a run, in order. *)
Definition invoked (out : list Effect) : list MessageHandler :=
  omap (fun e => match e with Invoke h _ => Some h | _ => None end) out.

(** [n] connection attempts in a row that each end in [close], the first on
    socket [s]; each close is followed by the timer it set. *)
Definition failures (s : SocketId) (n : nat) : list Event :=
  k ← seq s n; [SocketClosed k; TimerFired true].

(** The mount effect of [GameScreen], up to the registration of its
    handler. *)
Definition mount (gamePubkey myPubkey : string) (h : MessageHandler) : list Event :=
  [CallConnect true; CallSubscribe gamePubkey myPubkey; CallOnMessage h].

(** What every state of a client satisfies. *)
Definition conn_inv (c : Client) : Prop :=
  (reconnectAttempts c <= maxReconnectAttempts)%nat /\
  (forall s, ws c = Some s -> (s < length (sockets c))%nat).

(** What every step emits. *)
Definition out_ok (c : Client) (out : list Effect) : Prop :=
  (forall d, SetTimeout d ∈ out ->
     exists k, (1 <= k <= maxReconnectAttempts)%nat /\ d = (reconnectDelay * Z.of_nat k)%Z) /\
  (forall s m, Send s m ∈ out -> ws c = Some s /\ sockets c !! s = Some OPEN).

(** The sending methods of the class. *)
Definition senders : list Method :=
  [subscribe; sendChat; sendMoveRequest; sendMoveSigned; sendTurnCompleted].

End WsConn.

(** * Reading the game account: [getGameState] *)
Module GameService.

(** The fields [getGameState] returns; [potLamports] is the number whose
    decimal digits the string holds, [currentTurn] is [undefined] ([None])
    when the byte is past the end of the data. *)
Record GameState := mkGameState {
  status : string;
  player1 : string;
  player2 : string;
  potLamports : Z;
  currentTurn : option Z
}.

(** [data.slice(a, b)] on a [Buffer] *)
Definition slice (data : list Z) (a b : nat) : list Z := take (b - a) (drop a data).

(** [new BN(bytes, "le")] *)
Fixpoint BN_le (bytes : list Z) : Z :=
  match bytes with
  | [] => 0
  | b :: rest => b + 256 * BN_le rest
  end.

(** The 32 bytes of a [PublicKey] built from at most 32 bytes: the number
    they spell, left-padded with zeros. *)
Definition toBytes (bytes : list Z) : list Z :=
  (replicate (32 - length bytes) 0%Z ++ bytes)%list.

(** [statusMap[statusByte] || "Unknown"] *)
Definition statusMap (statusByte : option Z) : string :=
  match statusByte with
  | Some 0%Z => "WaitingForPlayer2"
  | Some 1%Z => "Active"
  | Some 2%Z => "Finished"
  | _ => "Unknown"
  end.

Section Decode.

(** [bs58.encode] of the 32 bytes of a key. *)
Variable bs58_encode : list Z -> string.

(** [new PublicKey(bytes).toBase58()]: the constructor rejects more than 32
    bytes. *)
Definition PublicKey_toBase58 (bytes : list Z) : Exn string :=
  if (32 <? length bytes)%nat then Throw "Invalid public key input"
  else Ok (bs58_encode (toBytes bytes)).

(** The body of the [try] block once [accountInfo] is there. *)
Definition parse (data : list Z) : Exn (option GameState) :=
  if (length data <? 8)%nat then Ok None
  else
    let offset := 8%nat in
    player1 ← PublicKey_toBase58 (slice data offset (offset + 32));
    let offset := (offset + 32)%nat in
    player2 ← PublicKey_toBase58 (slice data offset (offset + 32));
    let offset := (offset + 32)%nat in
    let offset := (offset + 8)%nat in
    let offset := (offset + 8)%nat in
    let offset := (offset + 8)%nat in
    let potLamports := BN_le (slice data offset (offset + 8)) in
    let offset := (offset + 8)%nat in
    let offset := (offset + 74)%nat in
    let currentTurn := data !! offset in
    let offset := (offset + 1)%nat in
    let statusByte := data !! offset in
    Ok (Some (mkGameState (statusMap statusByte) player1 player2 potLamports currentTurn)).

(** [getGameState(gamePubkey)]: [gamePubkey_valid] tells whether
    [new PublicKey(gamePubkey)] accepts the string (it runs before the
    [try]); [accountInfo] is the outcome of [connection.getAccountInfo]. *)
Definition getGameState (gamePubkey_valid : bool)
    (accountInfo : Exn (option (list Z))) : Exn (option GameState) :=
  if gamePubkey_valid then
    match (info ← accountInfo;
           match info with
           | None => Ok None
           | Some data => parse data
           end) with
    | Ok r => Ok r
    | Throw _ => Ok None
    end
  else Throw "Invalid public key input".

End Decode.

(** The byte offsets [getGameState] reads. *)
Definition read_offsets : list nat := (seq 8 64 ++ seq 96 8 ++ [178; 179])%list%nat.

(** A [Buffer] holds bytes. *)
Definition is_buffer (data : list Z) : Prop := Forall (fun b => (0 <= b < 256)%Z) data.

End GameService.

(** * The HTTP API of the full server *)
Module Api.

(** Row of the [games] table; [game_pubkey] is [UNIQUE], so the table is a
    map from that column. *)
Record Game := mkGame {
  player1 : string;
  player2 : string;
  status : string;
  created_at : Z;
  updated_at : Z
}.

(** Row of the [moves] table; the two JSON columns hold the arrays
    themselves. *)
Record MoveRow := mkMoveRow {
  mv_game_pubkey : string;
  move_index : Z;
  mv_player : string;
  board_points : list Z;
  mv_dice : list Z;
  mv_created_at : Z
}.

(** The database, with the connections and subscriptions of the WebSocket
    part of the same process. *)
Record State := mkState {
  games : gmap string Game;
  moves : list MoveRow;
  clients : list (Relay.Socket * Relay.ReadyState);
  clientSubscriptions : gmap Relay.Socket Relay.Subscription
}.

(** A request with its route parameter and the body fields the handler
    reads: strings, a number and arrays of numbers, [None] when the
    property is absent. *)
Inductive Request :=
| PostGames (gamePubkey player1 player2 : option string)
| GetGame (gamePubkey : string)
| PatchStatus (gamePubkey : string) (status : option string)
| PostMove (gamePubkey : string) (moveIndex : option Z) (player : option string)
           (boardPoints dice : option (list Z)).

Inductive Body :=
| ErrorBody (error : string)
| Registered (gamePubkey : string)
| GameData (game : Game) (moves : list MoveRow)
| StatusUpdated (gamePubkey status : string)
| MoveLogged (moveIndex : Z).

Record Response := mkResponse {
  statusCode : nat;
  json : Body
}.

(** What the HTTP handlers push to WebSocket clients. *)
Inductive Push :=
| MoveMessage (gamePubkey : string) (moveIndex : Z) (player : string)
              (boardPoints dice : list Z) (createdAt : Z).

(** The WebSocket part of the state, as the relay sees it: its lookups
    select [player1, player2] from [games]. *)
Definition relay_view (st : State) : Relay.Server :=
  Relay.mkServer (clients st) (clientSubscriptions st)
                 ((fun g => Relay.mkGameRow (player1 g) (player2 g)) <$> games st).

(** [!moveIndex] for a number: absent or zero. *)
Definition truthy_number (n : option Z) : bool :=
  match n with
  | Some v => negb (v =? 0)%Z
  | None => false
  end.

(** [!boardPoints] for an array: absent. *)
Definition truthy_array (a : option (list Z)) : bool :=
  match a with Some _ => true | None => false end.

(** [app.post("/api/games")] *)
Definition post_games (now : Z) (st : State) (gamePubkey p1 p2 : option string)
    : State * Response * list (Relay.Socket * Push) :=
  if negb (truthy gamePubkey) || negb (truthy p1) || negb (truthy p2) then
    (st, mkResponse 400 (ErrorBody "Missing required fields: gamePubkey, player1, player2"), [])
  else
    let g := default "" gamePubkey in
    match games st !! g with
    | Some _ => (st, mkResponse 409 (ErrorBody "Game already exists"), [])
    | None =>
        (mkState (<[g := mkGame (default "" p1) (default "" p2) "waiting" now now]>
                    (games st))
                 (moves st) (clients st) (clientSubscriptions st),
         mkResponse 200 (Registered g), [])
    end.

(** Insertion into a list ordered by [move_index]. *)
Fixpoint insert_by_index (m : MoveRow) (l : list MoveRow) : list MoveRow :=
  match l with
  | [] => [m]
  | x :: r =>
      if (move_index m <=? move_index x)%Z then m :: x :: r
      else x :: insert_by_index m r
  end.

(** [SELECT * FROM moves WHERE game_pubkey = ? ORDER BY move_index ASC];
    rows with equal [move_index] come in insertion order here. *)
Definition movesStmt_all (st : State) (g : string) : list MoveRow :=
  foldr insert_by_index [] (filter (fun m => mv_game_pubkey m = g) (moves st)).

(** [app.get("/api/games/:gamePubkey")] *)
Definition get_game (st : State) (g : string)
    : State * Response * list (Relay.Socket * Push) :=
  match games st !! g with
  | None => (st, mkResponse 404 (ErrorBody "Game not found"), [])
  | Some game => (st, mkResponse 200 (GameData game (movesStmt_all st g)), [])
  end.

(** [app.patch("/api/games/:gamePubkey/status")] *)
Definition patch_status (now : Z) (st : State) (g : string) (status : option string)
    : State * Response * list (Relay.Socket * Push) :=
  if negb (truthy status) then
    (st, mkResponse 400 (ErrorBody "Missing required field: status"), [])
  else
    match games st !! g with
    | None => (st, mkResponse 404 (ErrorBody "Game not found"), [])
    | Some game =>
        let s := default "" status in
        (mkState (<[g := mkGame (player1 game) (player2 game) s (created_at game) now]>
                    (games st))
                 (moves st) (clients st) (clientSubscriptions st),
         mkResponse 200 (StatusUpdated g s), [])
    end.

(** [UPDATE games SET updated_at = ? WHERE game_pubkey = ?] *)
Definition touch (now : Z) (g : string) (gs : gmap string Game) : gmap string Game :=
  match gs !! g with
  | Some game =>
      <[g := mkGame (player1 game) (player2 game) (status game) (created_at game) now]> gs
  | None => gs
  end.

(** The [wss.clients.forEach] loop of the HTTP handlers. *)
Definition push_to_game (st : State) (g : string) (payload : Push)
    : list (Relay.Socket * Push) :=
  (fun c => (c.1, payload)) <$>
    filter (fun c => Relay.receives (relay_view st) (Some g) c = true) (clients st).

(** [app.post("/api/games/:gamePubkey/move")] *)
Definition post_move (now : Z) (st : State) (g : string) (moveIndex : option Z)
    (player : option string) (boardPoints dice : option (list Z))
    : State * Response * list (Relay.Socket * Push) :=
  if negb (truthy_number moveIndex) || negb (truthy player) ||
     negb (truthy_array boardPoints) || negb (truthy_array dice) then
    (st, mkResponse 400
           (ErrorBody "Missing required fields: moveIndex, player, boardPoints, dice"), [])
  else
    let i := default 0%Z moveIndex in
    let p := default "" player in
    let b := default [] boardPoints in
    let d := default [] dice in
    let st' := mkState (touch now g (games st))
                       (moves st ++ [mkMoveRow g i p b d now])
                       (clients st) (clientSubscriptions st) in
    (st', mkResponse 200 (MoveLogged i), push_to_game st g (MoveMessage g i p b d now)).

(** One request, served at time [now]. *)
Definition serve (now : Z) (st : State) (r : Request)
    : State * Response * list (Relay.Socket * Push) :=
  match r with
  | PostGames g p1 p2 => post_games now st g p1 p2
  | GetGame g => get_game st g
  | PatchStatus g s => patch_status now st g s
  | PostMove g i p b d => post_move now st g i p b d
  end.

(** A frame on a WebSocket connection of the same process. *)
Definition on_ws_message (st : State) (ws : Relay.Socket) (m : Relay.Message)
    : State * Relay.Sends :=
  let '(srv, out) := Relay.handle (relay_view st) ws m in
  (mkState (games st) (moves st) (Relay.clients srv) (Relay.clientSubscriptions srv), out).

(** Requests served one after the other, each with its time. *)
Fixpoint serve_all (st : State) (rs : list (Z * Request)) : State :=
  match rs with
  | [] => st
  | (now, r) :: rest => serve_all (serve now st r).1.1 rest
  end.

(** [(gameData.moves?.length || 0) + 1], the index [confirmMove] gives its
    move after [getGame]. *)
Definition next_moveIndex (st : State) (g : string) : option Z :=
  match (get_game st g).1.2 with
  | mkResponse 200 (GameData _ ms) => Some (Z.of_nat (length ms) + 1)%Z
  | _ => None
  end.

End Api.

(** * The wallet of the client: [anchorClient.ts] *)
Module AnchorClient.

Import Web3.

(** The two module variables.  A provider is told by the keypair of its
    wallet ([provider.wallet.payer]). *)
Record Globals := mkGlobals {
  provider : option Keypair;
  currentKeypair : option Keypair
}.

(** Both start as [null]. *)
Definition initial : Globals := mkGlobals None None.

(** What [localStorage.getItem("playerSecretKey")] holds: nothing, text
    that is not JSON, JSON that is not an array of 64 entries, 64 numbers
    that [Keypair.fromSecretKey] rejects, or a secret key. *)
Inductive Stored :=
| NoItem
| NotJSON
| NotSecretKey
| RejectedKey
| SecretKey (k : Keypair).

(** [loadKeypairFromStorage()]: every failure is caught and gives [null]. *)
Definition loadKeypairFromStorage (stored : Stored) : option Keypair :=
  match stored with
  | SecretKey k => Some k
  | _ => None
  end.

(** [import.meta.env.VITE_PLAYER1_SECRET]: falsy, or text that
    [JSON.parse] or [Keypair.fromSecretKey] rejects, or a secret key. *)
Inductive EnvSecret :=
| EnvUnset
| EnvNotJSON
| EnvRejectedKey
| EnvKey (k : Keypair).

(** The assignments at the end of [initAnchorClient]: the provider gets a
    wallet made from [devKeypair]. *)
Definition install (devKeypair : Keypair) : Globals * Exn Keypair :=
  (mkGlobals (Some devKeypair) (Some devKeypair), Ok devKeypair).

(** [initAnchorClient] past its early return. *)
Definition initialise (stored : Stored) (env : EnvSecret) (keypair : option Keypair)
    (m : Globals) : Globals * Exn Keypair :=
  match keypair with
  | Some k => install k
  | None =>
      match loadKeypairFromStorage stored with
      | Some k => install k
      | None =>
          match env with
          | EnvUnset => (m, Throw "No keypair provided. Please login first.")
          | EnvNotJSON => (m, Throw "SyntaxError")
          | EnvRejectedKey => (m, Throw "bad secret key size")
          | EnvKey k => install k
          end
      end
  end.

(** [initAnchorClient(keypair?)].  [identical] is the outcome of
    [keypair === currentKeypair], a comparison of objects; the result is the
    keypair of the returned provider's wallet. *)
Definition initAnchorClient (identical : bool) (stored : Stored) (env : EnvSecret)
    (keypair : option Keypair) (m : Globals) : Globals * Exn Keypair :=
  match provider m with
  | Some p => if identical then (m, Ok p) else initialise stored env keypair m
  | None => initialise stored env keypair m
  end.

(** [getProvider()] and [getCurrentKeypair()] *)
Definition getProvider (m : Globals) : option Keypair := provider m.
Definition getCurrentKeypair (m : Globals) : option Keypair := currentKeypair m.

(** The keypair the initialisation settles on: the argument, else the
    stored key, else the key of the environment. *)
Definition chosen (stored : Stored) (env : EnvSecret) (keypair : option Keypair)
    : option Keypair :=
  match keypair, loadKeypairFromStorage stored, env with
  | Some k, _, _ => Some k
  | None, Some k, _ => Some k
  | None, None, EnvKey k => Some k
  | None, None, _ => None
  end.

End AnchorClient.

(** * Properties *)

(** ** Relay *)
Section RelayFacts.

Import Relay.

Lemma elem_of_broadcast (srv : Server) (g : option string) (payload : Outgoing)
    (c : Socket) (x : Outgoing) :
  (c, x) ∈ broadcast srv g payload <->
  x = payload /\ exists r, (c, r) ∈ clients srv /\ receives srv g (c, r) = true.
Proof.
  unfold broadcast. rewrite list_elem_of_fmap. split.
  - intros [[c' r] [Heq Hin]]. simpl in Heq. injection Heq as -> ->.
    apply list_elem_of_filter in Hin as [Hrec Hin]. eauto.
  - intros [-> [r [Hin Hrec]]]. exists (c, r). split; [reflexivity|].
    apply list_elem_of_filter. split; assumption.
Qed.

Lemma receives_spec (srv : Server) (g : string) (c : Socket) (r : ReadyState) :
  receives srv (Some g) (c, r) = true <-> r = OPEN /\ bound_to srv c g.
Proof.
  unfold receives, bound_to. simpl. split.
  - intros H. apply andb_true_iff in H as [Hr Hs].
    split; [destruct r; simpl in Hr; congruence|].
    destruct (clientSubscriptions srv !! c) as [s|]; [|discriminate].
    apply bool_decide_eq_true in Hs. injection Hs as Hs. eauto.
  - intros [-> [s [Hs <-]]]. rewrite Hs. simpl.
    apply bool_decide_eq_true. reflexivity.
Qed.

Lemma broadcast_spec (srv : Server) (g : string) (payload : Outgoing)
    (c : Socket) (x : Outgoing) :
  (c, x) ∈ broadcast srv (Some g) payload <->
  x = payload /\ open_in srv c /\ bound_to srv c g.
Proof.
  rewrite elem_of_broadcast. unfold open_in. split.
  - intros [-> [r [Hin Hrec]]]. apply receives_spec in Hrec as [-> Hb]. auto.
  - intros [-> [Hin Hb]]. split; [reflexivity|]. exists OPEN.
    split; [assumption|]. apply receives_spec. auto.
Qed.

Lemma handle_looks_up_game (srv : Server) (ws : Socket) (m : Message) (g : string) :
  looks_up_game m ->
  gamePubkey m = Some g ->
  handle srv ws m =
    match games srv !! g with
    | None => (srv, [(ws, ErrorReply "Game not found")])
    | Some _ => (srv, broadcast srv (Some g) (Forward m))
    end.
Proof.
  intros Hl Hg.
  assert (Hb : try_body srv ws m = forward_if_registered srv ws m).
  { destruct Hl as [H | [H | H]]; unfold try_body, type_is; rewrite H;
      repeat (rewrite bool_decide_eq_false_2 by discriminate);
      rewrite bool_decide_eq_true_2 by reflexivity; reflexivity. }
  unfold handle. rewrite Hb. unfold forward_if_registered. rewrite Hg. simpl.
  destruct (games srv !! g); reflexivity.
Qed.

(** The announcement the relay makes of a completed turn carries the
    [newTurn] of the [turn_completed] message it was sent. *)
Lemma handle_turn_completed (srv : Server) (ws : Socket) (m : Message) :
  type m = Some "turn_completed" ->
  handle srv ws m =
    (srv, broadcast srv (gamePubkey m) (TurnChanged (gamePubkey m) (newTurn m))).
Proof.
  intros H. unfold handle, try_body, type_is. rewrite H.
  repeat (rewrite bool_decide_eq_false_2 by discriminate).
  rewrite bool_decide_eq_true_2 by reflexivity. reflexivity.
Qed.

(** One copy per connection: [wss.clients] is a set. *)
Lemma broadcast_NoDup (srv : Server) (g : option string) (payload : Outgoing) :
  NoDup (clients srv).*1 -> NoDup (broadcast srv g payload).*1.
Proof.
  unfold broadcast. generalize (clients srv) as l.
  induction l as [|[c r] l IH]; intros Hnd; [constructor|].
  apply NoDup_cons in Hnd as [Hc Hl].
  rewrite filter_cons. destruct (decide (receives srv g (c, r) = true)).
  - simpl. apply NoDup_cons. split; [|apply IH, Hl].
    intros Hin. apply Hc.
    apply list_elem_of_fmap in Hin as [[c' x] [-> Hin]].
    apply list_elem_of_fmap in Hin as [[c'' r'] [Heq Hin]].
    simpl in Heq. injection Heq as -> ->.
    apply list_elem_of_filter in Hin as [_ Hin].
    apply list_elem_of_fmap. exists (c'', r'). auto.
  - apply IH, Hl.
Qed.

End RelayFacts.

(** C3: a [move_request] or [move_signed] message for a registered session
    [g] is handed, as it was parsed, to exactly the open connections whose
    subscription names [g] -- the sender's own connection included when it
    is bound to [g] -- and to no connection bound to another session; the
    relay state is left as it was. *)
Theorem C3_move_fanout (srv : Relay.Server) (ws : Relay.Socket)
    (m : Relay.Message) (g : string) :
  Relay.type m = Some "move_request" \/ Relay.type m = Some "move_signed" ->
  Relay.gamePubkey m = Some g ->
  is_Some (Relay.games srv !! g) ->
  (Relay.handle srv ws m).1 = srv /\
  (forall c x, (c, x) ∈ (Relay.handle srv ws m).2 <->
     x = Relay.Forward m /\ Relay.open_in srv c /\ Relay.bound_to srv c g) /\
  (forall c s x, Relay.clientSubscriptions srv !! c = Some s ->
     Relay.sub_gamePubkey s <> g -> (c, x) ∉ (Relay.handle srv ws m).2).
Proof.
  intros Ht Hg [row Hrow].
  assert (Hl : Relay.looks_up_game m) by (unfold Relay.looks_up_game; tauto).
  rewrite (handle_looks_up_game srv ws m g Hl Hg), Hrow. simpl.
  split; [reflexivity|]. split.
  - intros c x. apply broadcast_spec.
  - intros c s x Hs Hne Hin. apply broadcast_spec in Hin as (_ & _ & s' & Hs' & Hg').
    rewrite Hs in Hs'. injection Hs' as <-. contradiction.
Qed.

Lemma C3_move_fanout_witness :
  (Relay.handle Sample.srv0 1 Sample.move_request0).1 = Sample.srv0 /\
  (forall c x, (c, x) ∈ (Relay.handle Sample.srv0 1 Sample.move_request0).2 <->
     x = Relay.Forward Sample.move_request0 /\ Relay.open_in Sample.srv0 c /\
     Relay.bound_to Sample.srv0 c "S1") /\
  (forall c s x, Relay.clientSubscriptions Sample.srv0 !! c = Some s ->
     Relay.sub_gamePubkey s <> "S1" ->
     (c, x) ∉ (Relay.handle Sample.srv0 1 Sample.move_request0).2).
Proof.
  apply (C3_move_fanout Sample.srv0 1 Sample.move_request0 "S1").
  - left. reflexivity.
  - reflexivity.
  - exists (Relay.mkGameRow "P1" "P2"). vm_compute. reflexivity.
Defined.

(** Scenario C run on the sample relay: the message goes to connections 1
    and 2 (bound to S1, open), not to 3 (bound to S2), 4 (closing) or 9
    (unsubscribed). *)
Example C3_sample_run :
  (Relay.handle Sample.srv0 1 Sample.move_request0).2 =
    [(1, Relay.Forward Sample.move_request0); (2, Relay.Forward Sample.move_request0)].
Proof. vm_compute. reflexivity. Qed.

(** C8 as stated fails on the minimal relay: an unparseable message gets no
    reply at all there -- the [catch] only logs. *)
Lemma C8_legacy_relay_sends_no_error :
  Sample.JSON_parse "{" = None /\
  LegacyRelay.on_message Sample.JSON_parse Sample.legacy0 1 "{" = (Sample.legacy0, []) /\
  ~ Relay.replied_to (LegacyRelay.on_message Sample.JSON_parse Sample.legacy0 1 "{").2 1.
Proof.
  split; [reflexivity|]. split; [reflexivity|].
  intros [x Hx]. vm_compute in Hx. inversion Hx.
Qed.

(** C8, amended: a message that cannot be parsed is dropped by both relays:
    neither changes its state nor sends anything to a connection other than
    the originating one.  The full relay sends exactly one error reply, to
    the originating connection; the minimal relay sends nothing. *)
Theorem C8_unparseable_dropped (JSON_parse : string -> option Relay.JSONValue)
    (data : string) (ws : Relay.Socket) :
  JSON_parse data = None ->
  (forall srv,
     Relay.on_message JSON_parse srv ws data =
       (srv, [(ws, Relay.ErrorReply "Failed to process message")])) /\
  (forall srv c x, (c, x) ∈ (Relay.on_message JSON_parse srv ws data).2 ->
     c = ws /\ x = Relay.ErrorReply "Failed to process message") /\
  (forall clients,
     LegacyRelay.on_message JSON_parse clients ws data = (clients, [])).
Proof.
  intros Hp. unfold Relay.on_message, LegacyRelay.on_message, Relay.catch. rewrite Hp.
  split; [reflexivity|]. split; [|reflexivity].
  intros srv c x Hin. simpl in Hin. apply list_elem_of_singleton in Hin.
  injection Hin as -> ->. auto.
Qed.

Lemma C8_unparseable_dropped_witness :
  (forall srv,
     Relay.on_message Sample.JSON_parse srv 1 "{" =
       (srv, [(1, Relay.ErrorReply "Failed to process message")])) /\
  (forall srv c x, (c, x) ∈ (Relay.on_message Sample.JSON_parse srv 1 "{").2 ->
     c = 1 /\ x = Relay.ErrorReply "Failed to process message") /\
  (forall clients,
     LegacyRelay.on_message Sample.JSON_parse clients 1 "{" = (clients, [])).
Proof.
  apply (C8_unparseable_dropped Sample.JSON_parse "{" 1). reflexivity.
Defined.

(** C9 as stated fails: a [move_request] for the registered session S1 sent
    by connection 9, which never subscribed, is forwarded to the subscribers
    of S1, and connection 9 gets no error reply. *)
Lemma C9_unsubscribed_sender_is_forwarded :
  Relay.clientSubscriptions Sample.srv0 !! 9 = None /\
  Relay.handle Sample.srv0 9 Sample.move_request0 =
    (Sample.srv0,
     [(1, Relay.Forward Sample.move_request0); (2, Relay.Forward Sample.move_request0)]) /\
  ~ Relay.replied_to (Relay.handle Sample.srv0 9 Sample.move_request0).2 9.
Proof.
  assert (Hrun : Relay.handle Sample.srv0 9 Sample.move_request0 =
    (Sample.srv0,
     [(1, Relay.Forward Sample.move_request0); (2, Relay.Forward Sample.move_request0)]))
    by (vm_compute; reflexivity).
  split; [vm_compute; reflexivity|]. split; [exact Hrun|].
  intros [x Hx]. rewrite Hrun in Hx. simpl in Hx.
  apply elem_of_cons in Hx as [Hx | Hx]; [discriminate Hx|].
  apply elem_of_cons in Hx as [Hx | Hx]; [discriminate Hx|].
  inversion Hx.
Qed.

(** C9, amended: a [move_request], [move_signed] or [finish_signed] message
    that names a session missing from the [games] table is answered by one
    error reply to the sending connection, is forwarded to nobody and leaves
    the relay state as it was.  Whether the sender has subscribed is not
    looked at: for a registered session the outcome is the fan-out to the
    session's open subscribers, whatever connection the message arrived on. *)
Theorem C9_unknown_session_error (srv : Relay.Server) (ws : Relay.Socket)
    (m : Relay.Message) (g : string) :
  Relay.looks_up_game m ->
  Relay.gamePubkey m = Some g ->
  Relay.handle srv ws m =
    match Relay.games srv !! g with
    | None => (srv, [(ws, Relay.ErrorReply "Game not found")])
    | Some _ => (srv, Relay.broadcast srv (Some g) (Relay.Forward m))
    end.
Proof.
  intros Hl Hg. apply handle_looks_up_game; assumption.
Qed.

Lemma C9_unknown_session_error_witness :
  Relay.handle Sample.srv0 1 Sample.move_request_unknown =
    (Sample.srv0, [(1, Relay.ErrorReply "Game not found")]).
Proof.
  refine (eq_trans
    (C9_unknown_session_error Sample.srv0 1 Sample.move_request_unknown "S7" _ _) _).
  - left. reflexivity.
  - reflexivity.
  - vm_compute. reflexivity.
Defined.

(** ** Engine *)
Section EngineFacts.

Import Web3 WsClient Engine.

Lemma msg_is_type (m : WSMessage) (t u : string) :
  Msg.type m = t -> msg_is m u = String.eqb t u.
Proof. intros <-. reflexivity. Qed.

Lemma same_true (field : option string) (v : string) :
  field = Some v -> same field v = true.
Proof. intros ->. apply bool_decide_eq_true. reflexivity. Qed.

Lemma messageHandler_move_signed (props : Props) (seen : option PendingMove)
    (env : Env) (m : WSMessage) :
  Msg.type m = "move_signed" ->
  messageHandler props seen env m = on_move_signed props seen env m.
Proof.
  intros Ht. unfold messageHandler.
  rewrite !(msg_is_type m _ _ Ht). reflexivity.
Qed.

Lemma messageHandler_turn_changed (props : Props) (seen : option PendingMove)
    (env : Env) (m : WSMessage) :
  Msg.type m = "turn_changed" ->
  messageHandler props seen env m = on_turn_changed props m.
Proof.
  intros Ht. unfold messageHandler.
  rewrite !(msg_is_type m _ _ Ht). reflexivity.
Qed.

Lemma messageHandler_finish_signed (props : Props) (seen : option PendingMove)
    (env : Env) (m : WSMessage) :
  Msg.type m = "finish_signed" ->
  messageHandler props seen env m =
    if same (Msg.gamePubkey m) (gamePubkey props)
    then on_finish_signed props env m else ret tt.
Proof.
  intros Ht. unfold messageHandler.
  rewrite !(msg_is_type m _ _ Ht). simpl.
  destruct (same (Msg.gamePubkey m) (gamePubkey props)); reflexivity.
Qed.

End EngineFacts.

(** The proposer, which is not named in the message, does submit. *)
Example C2_proposer_submits :
  Engine.submissions
    (Engine.run (Engine.messageHandler EngineSample.props1 None (EngineSample.env_of "P1" 6)
                   (EngineSample.move_signed_msg "P2" 6 EngineSample.move_tx_full))
                EngineSample.st_proposer).2 = [Web3.Encoded EngineSample.move_tx_full].
Proof. vm_compute. reflexivity. Qed.

(** C1 fails on the code: the engine of P1 receives from P2 a [move_signed]
    (resp. [finish_signed]) message whose transaction has two signature
    slots, the slot of P2 being empty.  The move path looks only at the number
    of slots, the finish path at nothing, and serialization is asked not to
    verify signatures: whatever the ledger answers, the transaction handed to
    it carries the signature of P1 alone. *)
Theorem C1_single_signature_is_submitted (ledger : Web3.TxBytes -> bool) :
  let env := Engine.setLedger ledger (EngineSample.env_of "P1" 6) in
  Web3.signed_by EngineSample.move_tx_half "P1" = true /\
  Web3.signed_by EngineSample.move_tx_half "P2" = false /\
  Engine.submissions
    (Engine.run (Engine.messageHandler EngineSample.props1 None env
                   (EngineSample.move_signed_msg "P2" 6 EngineSample.move_tx_half))
                EngineSample.st_proposer).2 = [Web3.Encoded EngineSample.move_tx_half] /\
  Engine.signed_by_both (Web3.Encoded EngineSample.move_tx_half) "P1" "P2" = false /\
  Engine.submissions
    (Engine.run (Engine.messageHandler EngineSample.props1 None env
                   (EngineSample.finish_signed_msg "P2" EngineSample.finish_tx_half))
                EngineSample.st_proposer).2 = [Web3.Encoded EngineSample.finish_tx_half] /\
  Engine.signed_by_both (Web3.Encoded EngineSample.finish_tx_half) "P1" "P2" = false.
Proof.
  cbv zeta. split; [reflexivity|]. split; [reflexivity|]. split.
  - vm_compute. destruct (ledger _); reflexivity.
  - split; [reflexivity|]. split; [|reflexivity].
    vm_compute. destruct (ledger _); reflexivity.
Qed.

(** What the move path does check: a transaction with fewer than two
    signature slots is refused with an alert and never reaches the ledger. *)
Lemma move_signed_needs_two_slots (props : Engine.Props)
    (seen : option Engine.PendingMove) (env : Engine.Env) (st : Engine.State)
    (m : WsClient.WSMessage) (tx : Web3.Transaction) (b : list Z) (d : list (option Z)) :
  WsClient.Msg.type m = "move_signed" ->
  WsClient.Msg.transactionData m = Some (Web3.Encoded tx) ->
  WsClient.Msg.boardPoints m = Some b ->
  WsClient.Msg.dice m = Some d ->
  (length (Web3.signatures tx) < 2)%nat ->
  Engine.submissions (Engine.run (Engine.messageHandler props seen env m) st).2 = [].
Proof.
  intros Ht Htx Hb Hd Hlen.
  rewrite (messageHandler_move_signed props seen env m Ht).
  unfold Engine.on_move_signed. rewrite Htx, Hb, Hd.
  destruct (Engine.same _ _); [reflexivity|].
  unfold Engine.run, mbind, Engine.M_bind, Engine.bind, Engine.liftE. simpl.
  apply Nat.ltb_lt in Hlen. rewrite Hlen. reflexivity.
Qed.

(** C7 fails on the code: none of the three [wsClient] methods of the finish
    flow is a member of [WebSocketClient], while the three methods of the
    move flow are.  On its turn, the engine that claims the win builds and
    signs the finish transaction and then fails on the missing
    [sendFinishRequest]: it alerts and sends nothing.  When a fully signed
    finish comes back, the engine submits it and then fails on the missing
    [sendGameFinished]: nothing is announced and no banner is set. *)
Theorem C7_finish_methods_missing :
  Forall (fun name => WsClient.has_method WsClient.wsClient name = false)
         Engine.finish_flow_calls /\
  Forall (fun name => WsClient.has_method WsClient.wsClient name = true)
         Engine.move_flow_calls /\
  WsClient.invoke WsClient.wsClient "sendFinishRequest" true WsClient.NoArgs =
    Throw "sendFinishRequest is not a function" /\
  (Engine.run (Engine.confirmWin EngineSample.props1 (EngineSample.env_of "P1" 6))
              EngineSample.st_proposer).2 =
    [Engine.Alert "Failed to confirm win. Please try again."] /\
  Engine.run (Engine.messageHandler EngineSample.props1 None (EngineSample.env_of "P1" 6)
                (EngineSample.finish_signed_msg "P2" EngineSample.finish_tx_full))
             EngineSample.st_proposer =
    (EngineSample.st_proposer,
     [Engine.SendRawTransaction (Web3.Encoded EngineSample.finish_tx_full)]).
Proof.
  split; [|split; [|split; [|split]]].
  - repeat constructor.
  - repeat constructor.
  - reflexivity.
  - vm_compute. reflexivity.
  - vm_compute. reflexivity.
Qed.

(** C10 fails on the code, through the defect of C7: the engine of P2, not
    on its turn and holding the finish request of P1, runs the signing
    handler without any confirmation, but the call of the missing
    [sendFinishSigned] throws after the signature was added: the engine
    alerts, keeps the request pending and no [finish_signed] leaves it. *)
Theorem C10_auto_countersign_never_sent :
  Engine.isMyTurn EngineSample.st_reviewer = false /\
  is_Some (Engine.pendingFinish EngineSample.st_reviewer) /\
  Engine.run (Engine.autoSignPendingFinish EngineSample.props2 (EngineSample.env_of "P2" 6))
             EngineSample.st_reviewer =
    (EngineSample.st_reviewer, [Engine.Alert "Failed to sign finish. Please try again."]) /\
  Engine.sent
    (Engine.run (Engine.autoSignPendingFinish EngineSample.props2 (EngineSample.env_of "P2" 6))
                EngineSample.st_reviewer).2 = [].
Proof.
  split; [reflexivity|]. split; [eexists; reflexivity|].
  split; vm_compute; reflexivity.
Qed.

Section FinishFlowFacts.

Import Web3 WsClient Engine.

(** The only effect [handlePendingFinishSignature] can have is its alert:
    every path that gets past the signature ends in the missing method. *)
Lemma handlePendingFinishSignature_effects (props : Props) (env : Env) (st : State) :
  (run (handlePendingFinishSignature props env) st).2 = [] \/
  (run (handlePendingFinishSignature props env) st).2 =
    [Alert "Failed to sign finish. Please try again."].
Proof.
  unfold run, handlePendingFinishSignature, mbind, M_bind, bind, snapshot.
  destruct (pendingFinish st) as [pf|]; [|left; reflexivity].
  right. unfold try_catch, from_option, ensure_recentBlockhash, call, liftE,
    require, emit, emits, update, ret, throw, bind. simpl.
  destruct (currentKeypair env) as [kp|]; [|reflexivity]. simpl.
  destruct (Transaction_from _) as [tx|e]; [|reflexivity]. simpl.
  destruct (recentBlockhash tx) as [bh|] eqn:Hbh.
  - simpl. destruct (partialSign kp tx) as [tx1|e]; [|reflexivity]. simpl.
    destruct (serialize _ tx1) as [[tx2 ser]|e]; reflexivity.
  - destruct (provider env); [|reflexivity]. simpl.
    destruct (partialSign kp _) as [tx1|e]; [|reflexivity]. simpl.
    destruct (serialize _ tx1) as [[tx2 ser]|e]; reflexivity.
Qed.

Lemma autoSignPendingFinish_sends_nothing (props : Props) (env : Env) (st : State) :
  sent (run (autoSignPendingFinish props env) st).2 = [].
Proof.
  assert (H : (run (autoSignPendingFinish props env) st).2 = [] \/
              (run (autoSignPendingFinish props env) st).2 =
                (run (handlePendingFinishSignature props env) st).2).
  { unfold run at 1 2, autoSignPendingFinish, mbind, M_bind, bind, snapshot.
    destruct (negb (isMyTurn st) && bool_decide (is_Some (pendingFinish st))).
    - right. unfold run. destruct (handlePendingFinishSignature props env st) as [[s e] r].
      reflexivity.
    - left. reflexivity. }
  destruct H as [-> | ->]; [reflexivity|].
  destruct (handlePendingFinishSignature_effects props env st) as [-> | ->]; reflexivity.
Qed.

End FinishFlowFacts.

(** C4 as stated fails (scenario B): P1 proposes sequence number 6, selects
    another cell and confirms again while that proposal is still pending.
    The second [confirmMove] is not rejected: a [move_request] with sequence
    number 7 is put on the socket and replaces the pending move. *)
Lemma C4_second_proposal_is_sent :
  let r1 := Engine.run (Engine.confirmMove EngineSample.props1 (EngineSample.env_of "P1" 5))
                       EngineSample.st_turn in
  let r2 := Engine.run (Engine.handleCellClick 23) r1.1 in
  let r3 := Engine.run (Engine.confirmMove EngineSample.props1 (EngineSample.env_of "P1" 6))
                       r2.1 in
  Engine.pm_moveIndex <$> Engine.pendingMove r1.1 = Some 6%Z /\
  r2.1 = EngineSample.st_proposer /\
  Engine.pendingMove r2.1 = Some EngineSample.pending6 /\
  (exists req,
     Engine.sent r3.2 = [req] /\
     WsClient.Msg.type req = "move_request" /\
     WsClient.Msg.moveIndex req = Some 7%Z) /\
  Engine.pm_moveIndex <$> Engine.pendingMove r3.1 = Some 7%Z.
Proof.
  cbv zeta. split; [vm_compute; reflexivity|]. split; [vm_compute; reflexivity|].
  split; [vm_compute; reflexivity|]. split.
  - eexists. split; [vm_compute; reflexivity|]. split; reflexivity.
  - vm_compute. reflexivity.
Qed.

Section ConfirmMoveFacts.

Import Web3 WsClient Engine.

Lemma confirmMove_early (props : Props) (env : Env) (st : State) :
  confirmMove_returns_early st = true ->
  run (confirmMove props env) st = (st, []).
Proof.
  intros H. unfold run, confirmMove, mbind, M_bind, bind, snapshot.
  rewrite H. reflexivity.
Qed.

Lemma confirmMove_ignores_pendingMove (props : Props) (env : Env) (st : State)
    (pm : option PendingMove) :
  (run (confirmMove props env) (setPendingMove pm st)).2 =
  (run (confirmMove props env) st).2.
Proof.
  unfold run, confirmMove, mbind, M_bind, bind, snapshot.
  change (confirmMove_returns_early (setPendingMove pm st))
    with (confirmMove_returns_early st).
  destruct (confirmMove_returns_early st); [reflexivity|].
  cbn [dice selectedCell boardPoints setPendingMove].
  destruct (dice st) as [d|]; [|reflexivity].
  destruct (selectedCell st) as [cell|]; [|reflexivity].
  unfold finally, try_catch, update, bind, require, from_option,
    createMoveTransaction, call, liftE, emit, emits, ret, throw,
    mbind, M_bind, bind.
  destruct (provider env); [|reflexivity].
  destruct (currentKeypair env) as [kp|]; [|reflexivity].
  destruct (server_moves env) as [n|]; [|reflexivity].
  destruct (onchain_game env) as [[p1 p2]|]; [|reflexivity].
  cbn -[partialSign serialize moved].
  destruct (partialSign kp _) as [tx1|e]; [|reflexivity].
  cbn -[serialize moved].
  destruct (serialize _ tx1) as [[tx2 ser]|e]; [|reflexivity].
  cbn -[moved].
  destruct (logMove_ok env); reflexivity.
Qed.

End ConfirmMoveFacts.

(** C4, amended: the engine has one slot for a pending move, which a new
    proposal overwrites.  [confirmMove] is rejected locally -- no state
    change, nothing sent -- when it is not the engine's turn, no dice are
    rolled, no cell is selected or an earlier [confirmMove] is still being
    processed.  The pending-move slot is not consulted: whatever it holds,
    [confirmMove] has the same effects. *)
Theorem C4_confirmMove_rejected_by_guard (props : Engine.Props) (env : Engine.Env)
    (st : Engine.State) :
  Engine.confirmMove_returns_early st = true ->
  Engine.run (Engine.confirmMove props env) st = (st, []) /\
  (forall pm, Engine.confirmMove_returns_early (Engine.setPendingMove pm st) = true) /\
  (forall st' pm,
     (Engine.run (Engine.confirmMove props env) (Engine.setPendingMove pm st')).2 =
     (Engine.run (Engine.confirmMove props env) st').2).
Proof.
  intros H. split; [apply confirmMove_early; assumption|]. split.
  - intros pm. exact H.
  - intros st' pm. apply confirmMove_ignores_pendingMove.
Qed.

Lemma C4_confirmMove_rejected_by_guard_witness :
  Engine.run (Engine.confirmMove EngineSample.props1 (EngineSample.env_of "P1" 5))
             EngineSample.st_in_flight = (EngineSample.st_in_flight, []) /\
  (forall pm,
     Engine.confirmMove_returns_early (Engine.setPendingMove pm EngineSample.st_in_flight)
       = true) /\
  (forall st' pm,
     (Engine.run (Engine.confirmMove EngineSample.props1 (EngineSample.env_of "P1" 5))
                 (Engine.setPendingMove pm st')).2 =
     (Engine.run (Engine.confirmMove EngineSample.props1 (EngineSample.env_of "P1" 5)) st').2).
Proof.
  apply (C4_confirmMove_rejected_by_guard EngineSample.props1 (EngineSample.env_of "P1" 5)
           EngineSample.st_in_flight).
  reflexivity.
Defined.

(** C5 as stated fails: the engine of P1 processes the [move_signed] message
    for sequence number 6 and submits.  The same message delivered again --
    right away, or after the [turn_changed] announcement, and also when the
    ledger would turn the duplicate down -- is handed to the ledger again. *)
Lemma C5_replay_is_submitted_again :
  let m := EngineSample.move_signed_msg "P2" 6 EngineSample.move_tx_full in
  let env := EngineSample.env_of "P1" 6 in
  let handler := Engine.messageHandler EngineSample.props1 None env in
  let handler' := Engine.messageHandler EngineSample.props1 None
                    (Engine.setLedger (fun _ => false) env) in
  let r1 := Engine.run (handler m) EngineSample.st_proposer in
  let r2 := Engine.run (handler m) r1.1 in
  let r3 := Engine.run (handler (EngineSample.turn_changed_msg 2)) r2.1 in
  let r4 := Engine.run (handler' m) r3.1 in
  Engine.submissions r1.2 = [Web3.Encoded EngineSample.move_tx_full] /\
  Engine.submissions r2.2 = [Web3.Encoded EngineSample.move_tx_full] /\
  Engine.submissions r4.2 = [Web3.Encoded EngineSample.move_tx_full].
Proof. cbv zeta. repeat split; vm_compute; reflexivity. Qed.

Section MoveSignedFacts.

Import Web3 WsClient Engine.

Lemma run_liftE_Ok {A} (a : A) (k : A -> M unit) (s : State) :
  run (liftE (Ok a) ≫= k) s = run (k a) s.
Proof.
  unfold run, mbind, M_bind, bind, liftE.
  destruct (k a s) as [[s1 e1] r]. reflexivity.
Qed.

(** What [submitSignedTransactionToBlockchain] hands to the ledger depends
    neither on the state it runs in nor on what the ledger answers. *)
Lemma submitSigned_submissions (props : Props) (env : Env) (f : TxBytes -> bool)
    (tx : Transaction) (b : list Z) (d : Dice) (st st' : State) :
  submissions (run (logged (submitSignedTransactionToBlockchain props env tx b d)) st).2 =
  submissions
    (run (logged (submitSignedTransactionToBlockchain props (setLedger f env) tx b d)) st').2.
Proof.
  unfold run, logged, submitSignedTransactionToBlockchain, try_catch,
    sendRawTransaction_confirmed, refreshGameState, call, require, liftE,
    emit, emits, update, snapshot, ret, throw, mbind, M_bind, bind.
  cbn [provider ws_open ledger_confirms setLedger].
  destruct (provider env); [|reflexivity].
  destruct (serialize _ tx) as [[tx1 ser]|e]; [|reflexivity].
  cbn -[Nat.ltb].
  destruct (length (signatures tx1) <? 2)%nat; [reflexivity|].
  cbn. destruct (ledger_confirms env ser), (f ser); cbn;
    destruct (ws_open env); reflexivity.
Qed.

Lemma on_move_signed_submissions (props : Props) (seen seen' : option PendingMove)
    (env : Env) (f : TxBytes -> bool) (m : WSMessage) (st st' : State) :
  submissions (run (on_move_signed props seen env m) st).2 =
  submissions (run (on_move_signed props seen' (setLedger f env) m) st').2.
Proof.
  unfold on_move_signed.
  destruct (same _ _); [reflexivity|].
  destruct (Msg.transactionData m) as [bytes|];
    [destruct (Msg.boardPoints m) as [b|]; [destruct (Msg.dice m) as [d|]|]|].
  - destruct (Transaction_from bytes) as [tx|e]; [|reflexivity].
    rewrite !run_liftE_Ok.
    destruct (length (signatures tx) <? 2)%nat; [reflexivity|].
    apply submitSigned_submissions.
  - destruct seen, seen'; reflexivity.
  - destruct seen, seen'; reflexivity.
  - destruct seen, seen'; reflexivity.
Qed.

End MoveSignedFacts.

(** C5, amended: the engine keeps no record of the sequence numbers it has
    submitted.  What a [move_signed] message makes it hand to the ledger is
    determined by the message, the engine's identity and the wallet and chain
    it reads -- not by the engine state, the pending move the handler sees or
    the ledger's verdict -- so a replayed message is submitted exactly as its
    first delivery was, also when the ledger turns the duplicate down. *)
Theorem C5_move_signed_submission_stateless (props : Engine.Props)
    (seen seen' : option Engine.PendingMove) (env : Engine.Env)
    (ledger : Web3.TxBytes -> bool) (st st' : Engine.State) (m : WsClient.WSMessage) :
  WsClient.Msg.type m = "move_signed" ->
  Engine.submissions (Engine.run (Engine.messageHandler props seen env m) st).2 =
  Engine.submissions
    (Engine.run (Engine.messageHandler props seen' (Engine.setLedger ledger env) m) st').2 /\
  Engine.submissions
    (Engine.run (Engine.messageHandler props seen (Engine.setLedger ledger env) m)
                (Engine.run (Engine.messageHandler props seen env m) st).1).2 =
  Engine.submissions (Engine.run (Engine.messageHandler props seen env m) st).2.
Proof.
  intros Ht. rewrite !(messageHandler_move_signed props _ _ m Ht).
  split; [|symmetry]; apply on_move_signed_submissions.
Qed.

Lemma C5_move_signed_submission_stateless_witness :
  let m := EngineSample.move_signed_msg "P2" 6 EngineSample.move_tx_full in
  let env := EngineSample.env_of "P1" 6 in
  let env' := Engine.setLedger (fun _ => false) env in
  Engine.submissions
    (Engine.run (Engine.messageHandler EngineSample.props1 None env m)
                EngineSample.st_proposer).2 =
  Engine.submissions
    (Engine.run (Engine.messageHandler EngineSample.props1 None env' m)
                Engine.initialState).2 /\
  Engine.submissions
    (Engine.run (Engine.messageHandler EngineSample.props1 None env' m)
       (Engine.run (Engine.messageHandler EngineSample.props1 None env m)
                   EngineSample.st_proposer).1).2 =
  Engine.submissions
    (Engine.run (Engine.messageHandler EngineSample.props1 None env m)
                EngineSample.st_proposer).2.
Proof.
  apply (C5_move_signed_submission_stateless EngineSample.props1 None None
           (EngineSample.env_of "P1" 6) (fun _ => false)
           EngineSample.st_proposer Engine.initialState
           (EngineSample.move_signed_msg "P2" 6 EngineSample.move_tx_full)).
  reflexivity.
Defined.

Section SignedResponseFacts.

Import Web3 WsClient Engine.

Lemma same_false (field : option string) (v : string) :
  field <> Some v -> same field v = false.
Proof. intros H. apply bool_decide_eq_false. exact H. Qed.

(** What [submitSignedTransactionToBlockchain] hands to the ledger is the
    same in every engine whose provider is in the same condition. *)
Lemma submitSigned_submissions_any (props props' : Props) (env env' : Env)
    (tx : Transaction) (b : list Z) (d : Dice) (st st' : State) :
  provider env' = provider env ->
  submissions (run (logged (submitSignedTransactionToBlockchain props env tx b d)) st).2 =
  submissions (run (logged (submitSignedTransactionToBlockchain props' env' tx b d)) st').2.
Proof.
  intros Hprov.
  unfold run, logged, submitSignedTransactionToBlockchain, try_catch,
    sendRawTransaction_confirmed, refreshGameState, call, require, liftE,
    emit, emits, update, snapshot, ret, throw, mbind, M_bind, bind.
  rewrite Hprov. destruct (provider env); [|reflexivity].
  destruct (serialize _ tx) as [[tx1 ser]|e]; [|reflexivity].
  cbn -[Nat.ltb].
  destruct (length (signatures tx1) <? 2)%nat; [reflexivity|].
  cbn. destruct (ledger_confirms env ser), (ledger_confirms env' ser); cbn;
    destruct (ws_open env), (ws_open env'); reflexivity.
Qed.

(** The same for [submitFinishTransaction]. *)
Lemma submitFinish_submissions_any (props props' : Props) (env env' : Env)
    (tx : Transaction) (w : string) (st st' : State) :
  provider env' = provider env ->
  submissions (run (logged (submitFinishTransaction props env tx w)) st).2 =
  submissions (run (logged (submitFinishTransaction props' env' tx w)) st').2.
Proof.
  intros Hprov.
  unfold run, logged, submitFinishTransaction, try_catch,
    sendRawTransaction_confirmed, call, require, liftE,
    emit, emits, update, snapshot, ret, throw, mbind, M_bind, bind.
  rewrite Hprov. destruct (provider env); [|reflexivity].
  destruct (serialize _ tx) as [[tx1 ser]|e]; [|reflexivity].
  cbn. destruct (ledger_confirms env ser), (ledger_confirms env' ser); reflexivity.
Qed.

Lemma on_move_signed_any (props props' : Props) (seen seen' : option PendingMove)
    (env env' : Env) (m : WSMessage) (st st' : State) :
  provider env' = provider env -> onchain_game env' = onchain_game env ->
  Msg.playerPubkey m <> Some (myPubkey props) ->
  Msg.playerPubkey m <> Some (myPubkey props') ->
  submissions (run (on_move_signed props seen env m) st).2 =
  submissions (run (on_move_signed props' seen' env' m) st').2.
Proof.
  intros Hprov Hgame Hne Hne'. unfold on_move_signed.
  rewrite (same_false _ _ Hne), (same_false _ _ Hne'), Hgame.
  destruct (Msg.transactionData m) as [bytes|];
    [destruct (Msg.boardPoints m) as [b|]; [destruct (Msg.dice m) as [d|]|]|].
  - destruct (Transaction_from bytes) as [tx|e]; [|reflexivity].
    rewrite !run_liftE_Ok.
    destruct (length (signatures tx) <? 2)%nat; [reflexivity|].
    by apply submitSigned_submissions_any.
  - destruct seen, seen'; reflexivity.
  - destruct seen, seen'; reflexivity.
  - destruct seen, seen'; reflexivity.
Qed.

Lemma on_finish_signed_any (props props' : Props) (env env' : Env) (m : WSMessage)
    (st st' : State) :
  provider env' = provider env ->
  Msg.playerPubkey m <> Some (myPubkey props) ->
  Msg.playerPubkey m <> Some (myPubkey props') ->
  submissions (run (on_finish_signed props env m) st).2 =
  submissions (run (on_finish_signed props' env' m) st').2.
Proof.
  intros Hprov Hne Hne'. unfold on_finish_signed.
  rewrite (same_false _ _ Hne), (same_false _ _ Hne').
  destruct (Msg.transactionData m) as [bytes|]; [|reflexivity].
  destruct (truthy (Msg.winnerPubkey m)); [|reflexivity].
  destruct (Transaction_from bytes) as [tx|e]; [|reflexivity].
  rewrite !run_liftE_Ok. by apply submitFinish_submissions_any.
Qed.

(** A well-formed signed move is handed to the ledger by every engine that
    is not named in the message and has a provider. *)
Lemma on_move_signed_submits (props : Props) (seen : option PendingMove) (env : Env)
    (m : WSMessage) (st : State) (tx tx1 : Transaction) (ser : TxBytes)
    (b : list Z) (d : list (option Z)) :
  Msg.playerPubkey m <> Some (myPubkey props) ->
  Msg.transactionData m = Some (Encoded tx) ->
  Msg.boardPoints m = Some b -> Msg.dice m = Some d ->
  is_Some (feePayer tx) -> provider env = true ->
  serialize (mkCfg true false) tx = Ok (tx1, ser) ->
  (2 <= length (signatures tx))%nat -> (2 <= length (signatures tx1))%nat ->
  submissions (run (on_move_signed props seen env m) st).2 = [ser].
Proof.
  intros Hne Htx Hb Hd [fp Hfp] Hprov Hser Hlen Hlen1. unfold on_move_signed.
  rewrite (same_false _ _ Hne), Htx, Hb, Hd. cbn [Transaction_from].
  rewrite run_liftE_Ok.
  destruct (Nat.ltb_spec (length (signatures tx)) 2) as [Hlt|_]; [lia|].
  rewrite Hfp.
  unfold run, logged, submitSignedTransactionToBlockchain, try_catch,
    sendRawTransaction_confirmed, refreshGameState, call, require, liftE,
    emit, emits, update, snapshot, ret, throw, mbind, M_bind, bind.
  rewrite Hprov, Hser. cbn -[Nat.ltb].
  destruct (Nat.ltb_spec (length (signatures tx1)) 2) as [Hlt|_]; [lia|].
  cbn. destruct (ledger_confirms env ser); cbn; destruct (ws_open env); reflexivity.
Qed.

End SignedResponseFacts.




(** C6 as stated fails.  On the transaction-carrying path the submission
    itself clears the proposer's pending move and selection and stores the
    submitted dice, before any [turn_changed] arrives.  On the fallback path
    -- a [move_signed] without transaction data while the handler sees a
    pending move -- nothing is submitted and the engine flips [currentTurn]
    and [isMyTurn] by itself. *)
Lemma C6_local_updates_without_announcement :
  let env := EngineSample.env_of "P1" 6 in
  let r1 := Engine.run (Engine.messageHandler EngineSample.props1 None env
                          (EngineSample.move_signed_msg "P2" 6 EngineSample.move_tx_full))
                       EngineSample.st_proposer in
  let r2 := Engine.run (Engine.messageHandler EngineSample.props1
                          (Some EngineSample.pending6) env
                          (EngineSample.move_signed_bare "P2"))
                       EngineSample.st_proposer in
  (Engine.pendingMove EngineSample.st_proposer <> None /\
   Engine.pendingMove r1.1 = None /\ Engine.selectedCell r1.1 = None /\
   Engine.dice r1.1 = Some (Some 3%Z, Some 5%Z)) /\
  (Engine.currentTurn EngineSample.st_proposer = 1%Z /\
   Engine.isMyTurn EngineSample.st_proposer = true /\
   Engine.submissions r2.2 = [] /\
   Engine.currentTurn r2.1 = 2%Z /\ Engine.isMyTurn r2.1 = false).
Proof.
  cbv zeta. split.
  - split; [discriminate|]. repeat split; vm_compute; reflexivity.
  - repeat split; vm_compute; reflexivity.
Qed.

Section TurnFacts.

Import Web3 WsClient Engine.

Lemma toggled_turn_differs (t : Z) : (if (t =? 1)%Z then 2%Z else 1%Z) <> t.
Proof. destruct (Z.eqb_spec t 1) as [-> | Hne]; [discriminate | congruence]. Qed.

Lemma submitSigned_turn (props : Props) (env : Env) (tx : Transaction)
    (b : list Z) (d : Dice) (st : State) :
  let r := run (logged (submitSignedTransactionToBlockchain props env tx b d)) st in
  currentTurn r.1 = currentTurn st /\ isMyTurn r.1 = isMyTurn st /\
  Forall (announces_other_turn (currentTurn st)) (sent r.2).
Proof.
  cbv zeta.
  unfold run, logged, submitSignedTransactionToBlockchain, try_catch,
    sendRawTransaction_confirmed, refreshGameState, call, require, liftE,
    emit, emits, update, snapshot, ret, throw, mbind, M_bind, bind.
  destruct (provider env); [|repeat split; constructor].
  destruct (serialize _ tx) as [[tx1 ser]|e]; [|repeat split; constructor].
  cbn -[Nat.ltb].
  destruct (length (signatures tx1) <? 2)%nat; [repeat split; constructor|].
  cbn. destruct (ledger_confirms env ser); [|repeat split; constructor].
  cbn. destruct (ws_open env); cbn.
  - split; [reflexivity|]. split; [reflexivity|].
    constructor; [|constructor]. split; [reflexivity|].
    eexists. split; [reflexivity|]. apply toggled_turn_differs.
  - repeat split; constructor.
Qed.

End TurnFacts.

Section AnnouncementFacts.

Import Web3 WsClient Engine.

(** The [turn_completed] message of [submitSignedTransactionToBlockchain]. *)
Lemma submitSigned_outcome (props : Props) (env : Env) (tx : Transaction)
    (b : list Z) (d : Dice) (st : State) :
  let r := run (logged (submitSignedTransactionToBlockchain props env tx b d)) st in
  let other := if (currentTurn st =? 1)%Z then 2%Z else 1%Z in
  let announce :=
    Msg.mk "turn_completed" (Some (gamePubkey props)) (Some (myPubkey props))
           None None None None None (Some other) None None in
  let confirmed := existsb (ledger_confirms env) (submissions r.2) in
  sent r.2 = (if confirmed && ws_open env then [announce] else []) /\
  (confirmed = true ->
     r.1 = setSelectedCell None (setPendingMove None (setDice (Some d) (setBoardPoints b st)))) /\
  (confirmed = false -> r.1 = st).
Proof.
  cbv zeta.
  unfold run, logged, submitSignedTransactionToBlockchain, try_catch,
    sendRawTransaction_confirmed, refreshGameState, call, require, liftE,
    emit, emits, update, snapshot, ret, throw, mbind, M_bind, bind.
  destruct (provider env); [|cbn; repeat split; trivial; discriminate].
  destruct (serialize _ tx) as [[tx1 ser]|e]; [|cbn; repeat split; trivial; discriminate].
  cbn -[Nat.ltb].
  destruct (length (signatures tx1) <? 2)%nat; [cbn; repeat split; trivial; discriminate|].
  cbn. destruct (ledger_confirms env ser) eqn:Hconf; cbn; rewrite Hconf; cbn.
  - destruct (ws_open env); cbn; repeat split; trivial; discriminate.
  - repeat split; trivial; discriminate.
Qed.

Lemma on_move_signed_outcome (props : Props) (seen : option PendingMove) (env : Env)
    (m : WSMessage) (st : State) (bytes : TxBytes) (b : list Z) (d : list (option Z)) :
  Msg.transactionData m = Some bytes ->
  Msg.boardPoints m = Some b -> Msg.dice m = Some d ->
  let r := run (on_move_signed props seen env m) st in
  let other := if (currentTurn st =? 1)%Z then 2%Z else 1%Z in
  let announce :=
    Msg.mk "turn_completed" (Some (gamePubkey props)) (Some (myPubkey props))
           None None None None None (Some other) None None in
  let confirmed := existsb (ledger_confirms env) (submissions r.2) in
  sent r.2 = (if confirmed && ws_open env then [announce] else []) /\
  (confirmed = true ->
     r.1 = setSelectedCell None
             (setPendingMove None (setDice (Some (dice_of d)) (setBoardPoints b st)))) /\
  (confirmed = false -> r.1 = st).
Proof.
  intros Htx Hb Hd. cbv zeta. unfold on_move_signed. rewrite Htx, Hb, Hd.
  destruct (same _ _); [cbn; repeat split; trivial; discriminate|].
  destruct (Transaction_from bytes) as [tx|e]; [|cbn; repeat split; trivial; discriminate].
  rewrite run_liftE_Ok.
  destruct (length (signatures tx) <? 2)%nat; [cbn; repeat split; trivial; discriminate|].
  apply submitSigned_outcome.
Qed.

(** The fallback of the [move_signed] branch. *)
Lemma on_move_signed_fallback (props : Props) (pm : PendingMove) (env : Env)
    (m : WSMessage) (st : State) :
  Msg.transactionData m = None ->
  Msg.playerPubkey m <> Some (myPubkey props) ->
  run (on_move_signed props (Some pm) env m) st =
    (setSelectedCell None
       (setPendingMove None
          (setIsMyTurn (negb (isMyTurn st))
             (setCurrentTurn (if (currentTurn st =? 1)%Z then 2%Z else 1%Z)
                (setDice (Some (pm_dice pm)) (setBoardPoints (pm_boardPoints pm) st))))),
     [RefreshGameState]).
Proof.
  intros Htx Hne. unfold on_move_signed.
  rewrite (same_false _ _ Hne), Htx. reflexivity.
Qed.

End AnnouncementFacts.

(** C6, amended: on the transaction-carrying path, handling a [move_signed]
    message never changes the engine's turn-owner state ([currentTurn],
    [isMyTurn]).  When the ledger confirms the submission the engine by
    itself stores the submitted board and dice and clears its pending move
    and selection, and -- if its socket is open -- sends exactly one
    [turn_completed], naming itself and the turn other than its own
    [currentTurn]; with the socket closed, or without a confirmed
    submission, it sends nothing, and without a confirmed submission its
    state is as before.  On a [turn_changed] announcement every engine sets
    [currentTurn] to the announced value, derives [isMyTurn] from it when
    the game info is loaded, and clears dice, selection and pending move;
    nothing is submitted.  On the fallback path -- a [move_signed] from
    another player without transaction data, while the handler holds a
    pending move -- nothing is submitted or sent and the engine flips
    [currentTurn] and [isMyTurn] by itself, taking board and dice from that
    pending move. *)
Theorem C6_turn_state_follows_announcement (props : Engine.Props)
    (seen : option Engine.PendingMove) (env : Engine.Env) (st : Engine.State)
    (m a f : WsClient.WSMessage) (bytes : Web3.TxBytes) (b : list Z)
    (d : list (option Z)) (nt : Z) (pm : Engine.PendingMove) :
  WsClient.Msg.type m = "move_signed" ->
  WsClient.Msg.transactionData m = Some bytes ->
  WsClient.Msg.boardPoints m = Some b ->
  WsClient.Msg.dice m = Some d ->
  WsClient.Msg.type a = "turn_changed" ->
  WsClient.Msg.newTurn a = Some nt ->
  WsClient.Msg.type f = "move_signed" ->
  WsClient.Msg.transactionData f = None ->
  WsClient.Msg.playerPubkey f <> Some (Engine.myPubkey props) ->
  let r := Engine.run (Engine.messageHandler props seen env m) st in
  let q := Engine.run (Engine.messageHandler props seen env a) st in
  let u := Engine.run (Engine.messageHandler props (Some pm) env f) st in
  let other := if (Engine.currentTurn st =? 1)%Z then 2%Z else 1%Z in
  let announce :=
    WsClient.Msg.mk "turn_completed" (Some (Engine.gamePubkey props))
      (Some (Engine.myPubkey props)) None None None None None (Some other) None None in
  let confirmed := existsb (Engine.ledger_confirms env) (Engine.submissions r.2) in
  other <> Engine.currentTurn st /\
  (Engine.currentTurn r.1 = Engine.currentTurn st /\
   Engine.isMyTurn r.1 = Engine.isMyTurn st /\
   Forall (Engine.announces_other_turn (Engine.currentTurn st)) (Engine.sent r.2) /\
   Engine.sent r.2 = (if confirmed && Engine.ws_open env then [announce] else []) /\
   (confirmed = true ->
      r.1 = Engine.setSelectedCell None
              (Engine.setPendingMove None
                 (Engine.setDice (Some (Engine.dice_of d)) (Engine.setBoardPoints b st)))) /\
   (confirmed = false -> r.1 = st)) /\
  (Engine.currentTurn q.1 = nt /\
   Engine.isMyTurn q.1 =
     match Engine.gameInfo st with
     | Some gi =>
         let isPlayer1 := String.eqb (Engine.myPubkey props) (Engine.gi_player1 gi) in
         ((nt =? 1)%Z && isPlayer1) || ((nt =? 2)%Z && negb isPlayer1)
     | None => Engine.isMyTurn st
     end /\
   Engine.dice q.1 = None /\ Engine.selectedCell q.1 = None /\
   Engine.pendingMove q.1 = None /\ Engine.submissions q.2 = []) /\
  (Engine.currentTurn u.1 = other /\
   Engine.isMyTurn u.1 = negb (Engine.isMyTurn st) /\
   Engine.boardPoints u.1 = Engine.pm_boardPoints pm /\
   Engine.dice u.1 = Some (Engine.pm_dice pm) /\
   Engine.pendingMove u.1 = None /\ Engine.selectedCell u.1 = None /\
   Engine.submissions u.2 = [] /\ Engine.sent u.2 = []).
Proof.
  intros Ht Htx Hb Hd Hta Hnt Htf Hf Hne. cbv zeta.
  split; [apply toggled_turn_differs|]. split; [|split].
  - rewrite (messageHandler_move_signed props seen env m Ht).
    destruct (on_move_signed_outcome props seen env m st bytes b d Htx Hb Hd)
      as (Hsent & Hyes & Hno).
    assert (Hturn : Engine.currentTurn
                      (Engine.run (Engine.on_move_signed props seen env m) st).1 =
                    Engine.currentTurn st /\
                    Engine.isMyTurn
                      (Engine.run (Engine.on_move_signed props seen env m) st).1 =
                    Engine.isMyTurn st /\
                    Forall (Engine.announces_other_turn (Engine.currentTurn st))
                      (Engine.sent (Engine.run (Engine.on_move_signed props seen env m) st).2)).
    { unfold Engine.on_move_signed. rewrite Htx, Hb, Hd.
      destruct (Engine.same _ _); [repeat split; constructor|].
      destruct (Web3.Transaction_from bytes) as [tx|e]; [|repeat split; constructor].
      rewrite run_liftE_Ok.
      destruct (length (Web3.signatures tx) <? 2)%nat; [repeat split; constructor|].
      apply submitSigned_turn. }
    destruct Hturn as (H1 & H2 & H3).
    split; [exact H1|]. split; [exact H2|]. split; [exact H3|].
    split; [exact Hsent|]. split; [exact Hyes | exact Hno].
  - rewrite (messageHandler_turn_changed props seen env a Hta).
    unfold Engine.on_turn_changed, Engine.run, mbind, Engine.M_bind, Engine.bind,
      Engine.snapshot. rewrite Hnt.
    destruct (Engine.gameInfo st) as [gi|]; cbn; repeat split; reflexivity.
  - rewrite (messageHandler_move_signed props (Some pm) env f Htf).
    rewrite (on_move_signed_fallback props pm env f st Hf Hne).
    repeat split; reflexivity.
Qed.

Lemma C6_turn_state_follows_announcement_witness :
  let props := EngineSample.props1 in
  let env := EngineSample.env_of "P1" 6 in
  let st := EngineSample.st_proposer in
  let r := Engine.run (Engine.messageHandler props None env
                         (EngineSample.move_signed_msg "P2" 6 EngineSample.move_tx_full)) st in
  let q := Engine.run (Engine.messageHandler props None env
                         (EngineSample.turn_changed_msg 2)) st in
  let u := Engine.run (Engine.messageHandler props (Some EngineSample.pending6) env
                         (EngineSample.move_signed_bare "P2")) st in
  let other := if (Engine.currentTurn st =? 1)%Z then 2%Z else 1%Z in
  let announce :=
    WsClient.Msg.mk "turn_completed" (Some (Engine.gamePubkey props))
      (Some (Engine.myPubkey props)) None None None None None (Some other) None None in
  let confirmed := existsb (Engine.ledger_confirms env) (Engine.submissions r.2) in
  other <> Engine.currentTurn st /\
  (Engine.currentTurn r.1 = Engine.currentTurn st /\
   Engine.isMyTurn r.1 = Engine.isMyTurn st /\
   Forall (Engine.announces_other_turn (Engine.currentTurn st)) (Engine.sent r.2) /\
   Engine.sent r.2 = (if confirmed && Engine.ws_open env then [announce] else []) /\
   (confirmed = true ->
      r.1 = Engine.setSelectedCell None
              (Engine.setPendingMove None
                 (Engine.setDice (Some (Engine.dice_of [Some 3%Z; Some 5%Z]))
                    (Engine.setBoardPoints EngineSample.board1 st)))) /\
   (confirmed = false -> r.1 = st)) /\
  (Engine.currentTurn q.1 = 2%Z /\
   Engine.isMyTurn q.1 =
     match Engine.gameInfo st with
     | Some gi =>
         let isPlayer1 := String.eqb (Engine.myPubkey props) (Engine.gi_player1 gi) in
         ((2 =? 1)%Z && isPlayer1) || ((2 =? 2)%Z && negb isPlayer1)
     | None => Engine.isMyTurn st
     end /\
   Engine.dice q.1 = None /\ Engine.selectedCell q.1 = None /\
   Engine.pendingMove q.1 = None /\ Engine.submissions q.2 = []) /\
  (Engine.currentTurn u.1 = other /\
   Engine.isMyTurn u.1 = negb (Engine.isMyTurn st) /\
   Engine.boardPoints u.1 = Engine.pm_boardPoints EngineSample.pending6 /\
   Engine.dice u.1 = Some (Engine.pm_dice EngineSample.pending6) /\
   Engine.pendingMove u.1 = None /\ Engine.selectedCell u.1 = None /\
   Engine.submissions u.2 = [] /\ Engine.sent u.2 = []).
Proof.
  apply (C6_turn_state_follows_announcement EngineSample.props1 None
           (EngineSample.env_of "P1" 6) EngineSample.st_proposer
           (EngineSample.move_signed_msg "P2" 6 EngineSample.move_tx_full)
           (EngineSample.turn_changed_msg 2)
           (EngineSample.move_signed_bare "P2")
           (Web3.Encoded EngineSample.move_tx_full) EngineSample.board1
           [Some 3%Z; Some 5%Z] 2%Z EngineSample.pending6);
    try reflexivity.
  discriminate.
Defined.

(** * Further properties of the relay *)
Section RelayMore.

Import Relay.

Lemma type_is_true (m : Message) (t : string) :
  type_is m t = true <-> type m = Some t.
Proof. unfold type_is. apply bool_decide_eq_true. Qed.

Lemma elem_of_broadcast_bound (srv : Server) (g : option string) (payload : Outgoing)
    (c : Socket) (x : Outgoing) :
  (c, x) ∈ broadcast srv g payload ->
  x = payload /\ open_in srv c /\ exists g', g = Some g' /\ bound_to srv c g'.
Proof.
  intros Hin. destruct g as [g'|].
  - apply broadcast_spec in Hin as (-> & Ho & Hb). eauto.
  - apply elem_of_broadcast in Hin as (_ & r & _ & Hrec).
    unfold receives in Hrec. simpl in Hrec.
    apply andb_true_iff in Hrec as [_ Hrec].
    destruct (clientSubscriptions srv !! c); discriminate.
Qed.

Lemma forward_if_registered_cases (srv : Server) (ws : Socket) (m : Message) :
  forward_if_registered srv ws m = Ok (srv, [(ws, ErrorReply "Game not found")]) \/
  forward_if_registered srv ws m = Ok (srv, broadcast srv (gamePubkey m) (Forward m)) \/
  exists e, forward_if_registered srv ws m = Throw e.
Proof.
  unfold forward_if_registered, gameStmt_get.
  destruct (gamePubkey m) as [g|]; simpl; [|eauto].
  destruct (games srv !! g); auto.
Qed.

Lemma truthy_Some (s : option string) :
  truthy s = true -> exists v, s = Some v /\ v <> "".
Proof.
  destruct s as [v|]; simpl; [|discriminate].
  intros H. exists v. split; [reflexivity|].
  intros ->. discriminate.
Qed.

End RelayMore.

(** X1: a [subscribe] message with a non-empty game key and player key binds
    the sending connection to that game, replacing whatever binding it had;
    the sender alone is answered, with [subscribed]; no other connection's
    binding, the client set and the games table are touched. *)
Theorem relay_subscribe_binds (srv : Relay.Server) (ws : Relay.Socket)
    (m : Relay.Message) (g p : string) :
  Relay.type m = Some "subscribe" ->
  Relay.gamePubkey m = Some g -> g <> "" ->
  Relay.playerPubkey m = Some p -> p <> "" ->
  (Relay.handle srv ws m).2 = [(ws, Relay.Subscribed g p)] /\
  Relay.clientSubscriptions (Relay.handle srv ws m).1 !! ws
    = Some (Relay.mkSubscription g p) /\
  (forall g', Relay.bound_to (Relay.handle srv ws m).1 ws g' <-> g' = g) /\
  (forall c, c <> ws ->
     Relay.clientSubscriptions (Relay.handle srv ws m).1 !! c
       = Relay.clientSubscriptions srv !! c) /\
  Relay.clients (Relay.handle srv ws m).1 = Relay.clients srv /\
  Relay.games (Relay.handle srv ws m).1 = Relay.games srv.
Proof.
  intros Ht Hg Hg0 Hp Hp0.
  assert (Hr : Relay.handle srv ws m =
    (Relay.mkServer (Relay.clients srv)
       (<[ws := Relay.mkSubscription g p]> (Relay.clientSubscriptions srv))
       (Relay.games srv),
     [(ws, Relay.Subscribed g p)])).
  { unfold Relay.handle, Relay.try_body, Relay.type_is. rewrite Ht.
    rewrite bool_decide_eq_true_2 by reflexivity. rewrite Hg, Hp. simpl.
    apply String.eqb_neq in Hg0, Hp0. rewrite Hg0, Hp0. reflexivity. }
  rewrite Hr. simpl. split; [reflexivity|]. split; [apply lookup_insert_eq|].
  split; [|split; [|split; reflexivity]].
  - intros g'. unfold Relay.bound_to. simpl. rewrite lookup_insert_eq. split.
    + intros (s & Hs & <-). injection Hs as <-. reflexivity.
    + intros ->. eexists. split; reflexivity.
  - intros c Hc. apply lookup_insert_ne. congruence.
Qed.

Lemma relay_subscribe_binds_witness :
  let m := Relay.mkMessage (Some "subscribe") (Some "S2") (Some "P1") None "" in
  (Relay.handle Sample.srv0 1 m).2 = [(1, Relay.Subscribed "S2" "P1")] /\
  Relay.clientSubscriptions (Relay.handle Sample.srv0 1 m).1 !! 1
    = Some (Relay.mkSubscription "S2" "P1") /\
  (forall g', Relay.bound_to (Relay.handle Sample.srv0 1 m).1 1 g' <-> g' = "S2") /\
  (forall c, c <> 1 ->
     Relay.clientSubscriptions (Relay.handle Sample.srv0 1 m).1 !! c
       = Relay.clientSubscriptions Sample.srv0 !! c) /\
  Relay.clients (Relay.handle Sample.srv0 1 m).1 = Relay.clients Sample.srv0 /\
  Relay.games (Relay.handle Sample.srv0 1 m).1 = Relay.games Sample.srv0.
Proof.
  apply (relay_subscribe_binds Sample.srv0 1
           (Relay.mkMessage (Some "subscribe") (Some "S2") (Some "P1") None "") "S2" "P1");
    try reflexivity; discriminate.
Defined.

(** X2: whatever message arrives, the relay leaves the client set, the games
    table and the binding of every connection other than the sender as they
    were; a message that is not a [subscribe] changes nothing at all. *)
Theorem relay_handle_frame (srv : Relay.Server) (ws : Relay.Socket) (m : Relay.Message) :
  Relay.clients (Relay.handle srv ws m).1 = Relay.clients srv /\
  Relay.games (Relay.handle srv ws m).1 = Relay.games srv /\
  (forall c, c <> ws ->
     Relay.clientSubscriptions (Relay.handle srv ws m).1 !! c
       = Relay.clientSubscriptions srv !! c) /\
  (Relay.type m <> Some "subscribe" -> (Relay.handle srv ws m).1 = srv).
Proof.
  unfold Relay.handle, Relay.try_body, Relay.catch.
  destruct (Relay.type_is m "subscribe") eqn:Hsub.
  - assert (Hno : Relay.type m <> Some "subscribe" -> False).
    { intros H. apply H. apply type_is_true. exact Hsub. }
    destruct (negb (truthy (Relay.gamePubkey m)) || negb (truthy (Relay.playerPubkey m))).
    + simpl. repeat split; tauto.
    + destruct (Relay.gamePubkey m) as [g|], (Relay.playerPubkey m) as [p|]; simpl;
        (split; [reflexivity|]); (split; [reflexivity|]); (split; [|tauto]);
        intros c Hc; try reflexivity.
      apply lookup_insert_ne. congruence.
  - repeat match goal with
           | |- context [if Relay.type_is m ?t then _ else _] =>
               destruct (Relay.type_is m t)
           end;
    try (simpl; repeat split; reflexivity);
    destruct (forward_if_registered_cases srv ws m) as [-> | [-> | [e ->]]];
    simpl; repeat split; reflexivity.
Qed.

Lemma handle_recipients (srv : Relay.Server) (ws : Relay.Socket)
    (m : Relay.Message) (c : Relay.Socket) (x : Relay.Outgoing) :
  (c, x) ∈ (Relay.handle srv ws m).2 ->
  c = ws \/
  (Relay.open_in srv c /\
   exists g, Relay.gamePubkey m = Some g /\ Relay.bound_to srv c g).
Proof.
  assert (Hb : forall payload,
    (c, x) ∈ Relay.broadcast srv (Relay.gamePubkey m) payload ->
    c = ws \/ (Relay.open_in srv c /\
               exists g, Relay.gamePubkey m = Some g /\ Relay.bound_to srv c g)).
  { intros payload Hin. right.
    apply elem_of_broadcast_bound in Hin as (_ & Ho & g & Hg & Hbd). eauto. }
  assert (Hs : forall y, (c, x) ∈ [(ws, y)] -> c = ws \/
    (Relay.open_in srv c /\
     exists g, Relay.gamePubkey m = Some g /\ Relay.bound_to srv c g)).
  { intros y Hin. apply list_elem_of_singleton in Hin. injection Hin as -> _. auto. }
  assert (Hn : (c, x) ∈ @nil (Relay.Socket * Relay.Outgoing) -> c = ws \/
    (Relay.open_in srv c /\
     exists g, Relay.gamePubkey m = Some g /\ Relay.bound_to srv c g)).
  { intros Hin. inversion Hin. }
  unfold Relay.handle, Relay.try_body, Relay.catch.
  destruct (Relay.type_is m "subscribe").
  - destruct (negb (truthy (Relay.gamePubkey m)) || negb (truthy (Relay.playerPubkey m)));
      [apply Hs|].
    destruct (Relay.gamePubkey m), (Relay.playerPubkey m); simpl; eauto.
  - repeat match goal with
           | |- context [if Relay.type_is m ?t then _ else _] =>
               destruct (Relay.type_is m t)
           end; simpl; eauto;
    destruct (forward_if_registered_cases srv ws m) as [-> | [-> | [e ->]]];
    simpl; eauto.
Qed.

Lemma handle_subscribe_ok (srv : Relay.Server) (ws : Relay.Socket)
    (m : Relay.Message) (g p : string) :
  Relay.type m = Some "subscribe" ->
  Relay.gamePubkey m = Some g -> g <> "" ->
  Relay.playerPubkey m = Some p -> p <> "" ->
  Relay.handle srv ws m =
    (Relay.mkServer (Relay.clients srv)
       (<[ws := Relay.mkSubscription g p]> (Relay.clientSubscriptions srv))
       (Relay.games srv),
     [(ws, Relay.Subscribed g p)]).
Proof.
  intros Ht Hg Hg0 Hp Hp0.
  unfold Relay.handle, Relay.try_body, Relay.type_is. rewrite Ht.
  rewrite bool_decide_eq_true_2 by reflexivity. rewrite Hg, Hp. simpl.
  apply String.eqb_neq in Hg0, Hp0. rewrite Hg0, Hp0. reflexivity.
Qed.

(** X3: no message crosses sessions.  Whatever its type, everything the
    relay sends while handling a message goes either back to the sender or to
    an open connection whose subscription names the game key the message
    carries. *)
Theorem relay_never_crosses_sessions (srv : Relay.Server) (ws : Relay.Socket)
    (m : Relay.Message) (c : Relay.Socket) (x : Relay.Outgoing) :
  (c, x) ∈ (Relay.handle srv ws m).2 ->
  c = ws \/
  (Relay.open_in srv c /\
   exists g, Relay.gamePubkey m = Some g /\ Relay.bound_to srv c g).
Proof. apply handle_recipients. Qed.

Lemma relay_never_crosses_sessions_witness :
  2 = 1 \/
  (Relay.open_in Sample.srv0 2 /\
   exists g, Relay.gamePubkey Sample.move_request0 = Some g /\
             Relay.bound_to Sample.srv0 2 g).
Proof.
  apply (relay_never_crosses_sessions Sample.srv0 1 Sample.move_request0 2
           (Relay.Forward Sample.move_request0)).
  change ((2, Relay.Forward Sample.move_request0) ∈
          [(1, Relay.Forward Sample.move_request0);
           (2, Relay.Forward Sample.move_request0)]).
  apply list_elem_of_further, list_elem_of_here.
Defined.

(** X4: once a connection has closed it is unbound and receives nothing:
    whatever another connection sends afterwards, no message is addressed to
    it.  Closing twice is the same as closing once, and the bindings of the
    other connections are kept. *)
Theorem relay_closed_connection_gets_nothing (srv : Relay.Server)
    (ws ws' : Relay.Socket) (m : Relay.Message) (x : Relay.Outgoing) :
  ws' <> ws ->
  ((ws, x) ∉ (Relay.handle (Relay.on_close srv ws) ws' m).2) /\
  Relay.clientSubscriptions (Relay.on_close srv ws) !! ws = None /\
  Relay.clientSubscriptions (Relay.on_close srv ws) !! ws'
    = Relay.clientSubscriptions srv !! ws' /\
  Relay.on_close (Relay.on_close srv ws) ws = Relay.on_close srv ws.
Proof.
  intros Hne. split; [|split; [|split]].
  - intros Hin. apply handle_recipients in Hin as [Heq | [Ho _]]; [congruence|].
    unfold Relay.open_in, Relay.on_close in Ho. simpl in Ho.
    apply list_elem_of_filter in Ho as [Hc _]. simpl in Hc. congruence.
  - apply lookup_delete_eq.
  - unfold Relay.on_close. simpl. apply lookup_delete_ne. congruence.
  - unfold Relay.on_close. simpl. f_equal.
    + rewrite list_filter_filter. apply list_filter_iff. intros [c r]. simpl. tauto.
    + apply delete_delete_eq.
Qed.

Lemma relay_closed_connection_gets_nothing_witness :
  ((2, Relay.Forward Sample.move_request0)
    ∉ (Relay.handle (Relay.on_close Sample.srv0 2) 1 Sample.move_request0).2) /\
  Relay.clientSubscriptions (Relay.on_close Sample.srv0 2) !! 2 = None /\
  Relay.clientSubscriptions (Relay.on_close Sample.srv0 2) !! 1
    = Relay.clientSubscriptions Sample.srv0 !! 1 /\
  Relay.on_close (Relay.on_close Sample.srv0 2) 2 = Relay.on_close Sample.srv0 2.
Proof.
  apply (relay_closed_connection_gets_nothing Sample.srv0 2 1 Sample.move_request0
           (Relay.Forward Sample.move_request0)).
  discriminate.
Defined.

(** X5: binding and routing compose.  After an open connection has
    subscribed to a registered game, every [move_request], [move_signed] or
    [finish_signed] for that game -- from whatever connection -- is handed
    to it unchanged. *)
Theorem relay_subscriber_receives (srv : Relay.Server) (ws ws' : Relay.Socket)
    (sub m : Relay.Message) (g p : string) :
  Relay.type sub = Some "subscribe" ->
  Relay.gamePubkey sub = Some g -> g <> "" ->
  Relay.playerPubkey sub = Some p -> p <> "" ->
  Relay.open_in srv ws ->
  is_Some (Relay.games srv !! g) ->
  Relay.looks_up_game m ->
  Relay.gamePubkey m = Some g ->
  (ws, Relay.Forward m) ∈ (Relay.handle (Relay.handle srv ws sub).1 ws' m).2.
Proof.
  intros Ht Hg Hg0 Hp Hp0 Ho [row Hrow] Hl Hgm.
  rewrite (handle_subscribe_ok srv ws sub g p Ht Hg Hg0 Hp Hp0). simpl.
  rewrite (handle_looks_up_game _ ws' m g Hl Hgm). simpl. rewrite Hrow. simpl.
  apply broadcast_spec. split; [reflexivity|]. split; [exact Ho|].
  exists (Relay.mkSubscription g p). split; [apply lookup_insert_eq | reflexivity].
Qed.

Lemma relay_subscriber_receives_witness :
  (9, Relay.Forward Sample.move_request0)
    ∈ (Relay.handle
         (Relay.handle Sample.srv0 9
            (Relay.mkMessage (Some "subscribe") (Some "S1") (Some "P2") None "")).1
         1 Sample.move_request0).2.
Proof.
  apply (relay_subscriber_receives Sample.srv0 9 1
           (Relay.mkMessage (Some "subscribe") (Some "S1") (Some "P2") None "")
           Sample.move_request0 "S1" "P2"); try reflexivity; try discriminate.
  - unfold Relay.open_in. simpl.
    do 4 apply list_elem_of_further. apply list_elem_of_here.
  - exists (Relay.mkGameRow "P1" "P2"). vm_compute. reflexivity.
  - left. reflexivity.
Defined.

(** X6: in the minimal relay a chat message reaches only the sender's own
    session.  Every recipient is an open client bound to the game the
    sending connection itself is bound to -- the game key written in the
    message plays no role -- and a connection that has not subscribed
    reaches nobody.  Handling the chat changes no binding. *)
Theorem legacy_chat_stays_in_session (clients : list LegacyRelay.WsClient)
    (me : Relay.Socket) (msg : Relay.Message) (c : Relay.Socket)
    (x : LegacyRelay.Outgoing) :
  (c, x) ∈ (LegacyRelay.handle clients me msg).2 ->
  Relay.type msg = Some "chat" /\
  (LegacyRelay.handle clients me msg).1 = clients /\
  exists sender rc g,
    sender ∈ clients /\ LegacyRelay.ws sender = me /\
    LegacyRelay.client_gamePubkey sender = Some g /\ g <> "" /\
    rc ∈ clients /\ LegacyRelay.ws rc = c /\
    LegacyRelay.client_gamePubkey rc = Some g /\
    LegacyRelay.readyState rc = Relay.OPEN /\
    x = LegacyRelay.Chat (LegacyRelay.client_playerPubkey sender) (Relay.body msg).
Proof.
  unfold LegacyRelay.handle.
  destruct (Relay.type_is msg "subscribe"); [intros H; inversion H|].
  destruct (Relay.type_is msg "chat") eqn:Hchat; [|intros H; inversion H].
  apply type_is_true in Hchat.
  destruct (list_find _ clients) as [[i sender]|] eqn:Hfind; [|intros H; inversion H].
  apply list_find_Some in Hfind as (Hi & Hme & _).
  destruct (truthy (LegacyRelay.client_gamePubkey sender)) eqn:Htr;
    [|intros H; inversion H].
  apply truthy_Some in Htr as (g & Hg & Hg0). rewrite Hg. simpl.
  intros Hin. split; [exact Hchat|]. split; [reflexivity|].
  unfold LegacyRelay.broadcastToGame in Hin.
  apply list_elem_of_fmap in Hin as (rc & Heq & Hrc). injection Heq as -> ->.
  apply list_elem_of_filter in Hrc as [Hp Hrc].
  apply andb_true_iff in Hp as [Hbg Hop]. apply bool_decide_eq_true in Hbg.
  exists sender, rc, g. repeat split; try assumption.
  - apply list_elem_of_lookup. eauto.
  - destruct (LegacyRelay.readyState rc); simpl in Hop; congruence.
Qed.

Lemma legacy_chat_stays_in_session_witness :
  let msg := Relay.mkMessage (Some "chat") (Some "S9") None None "hello" in
  Relay.type msg = Some "chat" /\
  (LegacyRelay.handle Sample.legacy0 1 msg).1 = Sample.legacy0 /\
  exists sender rc g,
    sender ∈ Sample.legacy0 /\ LegacyRelay.ws sender = 1 /\
    LegacyRelay.client_gamePubkey sender = Some g /\ g <> "" /\
    rc ∈ Sample.legacy0 /\ LegacyRelay.ws rc = 2 /\
    LegacyRelay.client_gamePubkey rc = Some g /\
    LegacyRelay.readyState rc = Relay.OPEN /\
    LegacyRelay.Chat (Some "P1") "hello"
      = LegacyRelay.Chat (LegacyRelay.client_playerPubkey sender) (Relay.body msg).
Proof.
  apply (legacy_chat_stays_in_session Sample.legacy0 1
           (Relay.mkMessage (Some "chat") (Some "S9") None None "hello") 2
           (LegacyRelay.Chat (Some "P1") "hello")).
  change ((2, LegacyRelay.Chat (Some "P1") "hello") ∈
          [(1, LegacyRelay.Chat (Some "P1") "hello");
           (2, LegacyRelay.Chat (Some "P1") "hello")]).
  apply list_elem_of_further, list_elem_of_here.
Defined.

(** * Further properties of the engine *)
Section Signing.
Import Web3 WsClient Engine Round.

Variables (p1 p2 : Pubkey).
Hypothesis Hne : p1 <> p2.

Lemma dedup_two : dedup_keys [p1; p1; p2] = [p1; p2].
Proof. cbn. repeat (case_decide; cbn); congruence. Qed.

Lemma compile_fresh (data : InstructionData) (bh : string) :
  compile (mkTx (mkIx [p1; p2] data) (Some p1) (Some bh) []) =
    Ok (mkTx (mkIx [p1; p2] data) (Some p1) (Some bh) (slots p1 p2 None None)).
Proof.
  unfold compile. cbn -[dedup_keys]. rewrite dedup_two.
  rewrite bool_decide_eq_false_2 by discriminate. reflexivity.
Qed.

Lemma compile_slots (data : InstructionData) (bh : string) (a b : option Signature) :
  compile (mkTx (mkIx [p1; p2] data) (Some p1) (Some bh) (slots p1 p2 a b)) =
    Ok (mkTx (mkIx [p1; p2] data) (Some p1) (Some bh) (slots p1 p2 a b)).
Proof.
  unfold compile. cbn -[dedup_keys]. rewrite dedup_two.
  rewrite bool_decide_eq_true_2 by reflexivity. reflexivity.
Qed.

Lemma partialSign_slots (data : InstructionData) (bh : string)
    (a b : option Signature) (kp : Pubkey) :
  kp = p1 \/ kp = p2 ->
  partialSign kp (mkTx (mkIx [p1; p2] data) (Some p1) (Some bh) (slots p1 p2 a b)) =
    Ok (mkTx (mkIx [p1; p2] data) (Some p1) (Some bh)
             (slots p1 p2 (if bool_decide (kp = p1) then Some (SigOf p1) else a)
                          (if bool_decide (kp = p2) then Some (SigOf p2) else b))).
Proof.
  intros Hkp. unfold partialSign. rewrite compile_slots.
  cbn. rewrite bool_decide_eq_true_2
    by (destruct Hkp as [-> | ->]; [apply list_elem_of_here |
        apply list_elem_of_further, list_elem_of_here]).
  do 3 f_equal. unfold slots.
  destruct Hkp as [-> | ->]; cbn; repeat case_bool_decide; congruence.
Qed.

Lemma partialSign_fresh (data : InstructionData) (bh : string) (kp : Pubkey) :
  kp = p1 \/ kp = p2 ->
  partialSign kp (mkTx (mkIx [p1; p2] data) (Some p1) (Some bh) []) =
    Ok (mkTx (mkIx [p1; p2] data) (Some p1) (Some bh) (signed_slots p1 p2 [kp])).
Proof.
  intros Hkp. unfold partialSign. rewrite compile_fresh.
  cbn. rewrite bool_decide_eq_true_2
    by (destruct Hkp as [-> | ->]; [apply list_elem_of_here |
        apply list_elem_of_further, list_elem_of_here]).
  do 3 f_equal. unfold signed_slots, slots, sig_when.
  destruct Hkp as [-> | ->]; cbn; repeat case_bool_decide;
    rewrite ?list_elem_of_singleton in *; congruence.
Qed.

Lemma serialize_unverified (data : InstructionData) (bh : string)
    (a b : option Signature) (req : bool) :
  serialize (mkCfg req false) (mkTx (mkIx [p1; p2] data) (Some p1) (Some bh) (slots p1 p2 a b)) =
    Ok (mkTx (mkIx [p1; p2] data) (Some p1) (Some bh) (slots p1 p2 a b),
        Encoded (mkTx (mkIx [p1; p2] data) (Some p1) (Some bh) (slots p1 p2 a b))).
Proof. unfold serialize. rewrite compile_slots. reflexivity. Qed.

End Signing.

Section HonestRound.
Import Web3 WsClient Engine Round.

Variables (p1 p2 me other : Pubkey).
Hypothesis Hpart : participants p1 p2 me other.

Lemma me_is_participant : me = p1 \/ me = p2.
Proof. destruct Hpart as [_ [[-> _] | [-> _]]]; auto. Qed.

Lemma other_is_participant : other = p1 \/ other = p2.
Proof. destruct Hpart as [_ [[_ ->] | [_ ->]]]; auto. Qed.

Lemma me_not_other : me <> other.
Proof. destruct Hpart as [Hne [[-> ->] | [-> ->]]]; congruence. Qed.

Lemma signed_by_own (data : InstructionData) (bh : string) :
  let tx := mkTx (mkIx [p1; p2] data) (Some p1) (Some bh) (signed_slots p1 p2 [me]) in
  signed_by tx me = true /\ signed_by tx other = false /\ length (signatures tx) = 2%nat.
Proof.
  cbv zeta. unfold signed_by, signed_slots, slots, sig_when, slot_present.
  destruct Hpart as [Hne [[-> ->] | [-> ->]]]; cbn;
    repeat case_bool_decide; rewrite ?list_elem_of_singleton in *;
    try congruence; auto.
Qed.

Lemma countersign (data : InstructionData) (bh : string) :
  partialSign other (mkTx (mkIx [p1; p2] data) (Some p1) (Some bh) (signed_slots p1 p2 [me])) =
    Ok (mkTx (mkIx [p1; p2] data) (Some p1) (Some bh)
             (slots p1 p2 (Some (SigOf p1)) (Some (SigOf p2)))).
Proof.
  destruct Hpart as [Hne _].
  unfold signed_slots. rewrite (partialSign_slots p1 p2 Hne) by apply other_is_participant.
  unfold slots, sig_when.
  destruct Hpart as [_ [[-> ->] | [-> ->]]];
    repeat case_bool_decide; rewrite ?list_elem_of_singleton in *;
    try congruence; reflexivity.
Qed.

Lemma both_signed (data : InstructionData) (bh : string) :
  signed_by_both
    (Encoded (mkTx (mkIx [p1; p2] data) (Some p1) (Some bh)
                   (slots p1 p2 (Some (SigOf p1)) (Some (SigOf p2))))) p1 p2 = true.
Proof.
  destruct Hpart as [Hne _]. unfold signed_by_both, signed_by, slots, slot_present. cbn.
  repeat case_bool_decide; try congruence; reflexivity.
Qed.

End HonestRound.

Section RoundRuns.
Import Web3 WsClient Engine Round.

Variables (p1 p2 me other : Pubkey).
Hypothesis Hpart : participants p1 p2 me other.

Lemma confirmMove_run (props : Props) (env : Env) (st : State) (d : Dice)
    (cell n : nat) :
  confirmMove_returns_early st = false ->
  dice st = Some d -> selectedCell st = Some cell ->
  provider env = true -> currentKeypair env = Some me ->
  onchain_game env = Some (p1, p2) -> server_moves env = Some n ->
  let board := moved (boardPoints st) cell in
  let seq := (Z.of_nat n + 1)%Z in
  let tx := move_tx p1 p2 (latestBlockhash env) board d (signed_slots p1 p2 [me]) in
  run (confirmMove props env) st =
    (setSelectedCell None
       (setIsProcessingMove false
          (setPendingMove (Some (mkPendingMove board d seq None))
             (setIsProcessingMove true st))),
     ((if ws_open env then [WsSend (move_request props seq board d tx)] else []) ++
      [LogMove seq (myPubkey props) board d] ++
      (if logMove_ok env then [] else [Alert "Failed to make move. Please try again."]))%list).
Proof.
  intros Hearly Hd Hc Hprov Hkp Hgame Hmoves. cbv zeta.
  destruct Hpart as [Hne _].
  unfold run, confirmMove, mbind, M_bind, bind, snapshot.
  rewrite Hearly, Hd, Hc.
  unfold finally, try_catch, update, bind, require, from_option,
    createMoveTransaction, call, liftE, emit, emits, ret, throw,
    mbind, M_bind, bind, new_Transaction.
  rewrite Hprov, Hkp, Hgame, Hmoves.
  cbn -[partialSign serialize moved boardPointsBuffer diceBuffer].
  rewrite (partialSign_fresh p1 p2 Hne) by apply (me_is_participant p1 p2 me other Hpart).
  cbn -[serialize moved boardPointsBuffer diceBuffer signed_slots].
  unfold signed_slots at 1. rewrite (serialize_unverified p1 p2 Hne).
  cbn -[moved boardPointsBuffer diceBuffer signed_slots].
  destruct (ws_open env), (logMove_ok env); reflexivity.
Qed.

Lemma dice_of_values (d : Dice) : dice_of (dice_values d) = d.
Proof. destruct d as [a b]. reflexivity. Qed.

Lemma messageHandler_move_request (props propsA : Props) (seen : option PendingMove)
    (env : Env) (st : State) (seq : Z) (board : list Z) (d : Dice) (tx : Transaction) :
  run (messageHandler props seen env (move_request propsA seq board d tx)) st =
    (setPendingMove (Some (mkPendingMove board d seq (Some (Encoded tx)))) st, []).
Proof.
  unfold run, messageHandler, move_request, msg_is. cbn -[dice_of dice_values].
  rewrite dice_of_values. reflexivity.
Qed.

Lemma handlePendingMoveSignature_run (props : Props) (env : Env) (st : State)
    (data : InstructionData) (bh : string) (a b : option Signature) (kp : Pubkey)
    (board : list Z) (d : Dice) (seq : Z) :
  p1 <> p2 -> kp = p1 \/ kp = p2 ->
  pendingMove st =
    Some (mkPendingMove board d seq
            (Some (Encoded (mkTx (mkIx [p1; p2] data) (Some p1) (Some bh) (slots p1 p2 a b))))) ->
  currentKeypair env = Some kp ->
  run (handlePendingMoveSignature props env) st =
    (setPendingMove None st,
     if ws_open env then
       [WsSend (move_signed props seq board d
                  (mkTx (mkIx [p1; p2] data) (Some p1) (Some bh)
                        (slots p1 p2 (if bool_decide (kp = p1) then Some (SigOf p1) else a)
                                     (if bool_decide (kp = p2) then Some (SigOf p2) else b))))]
     else []).
Proof.
  intros Hne Hkp Hpm Hkey.
  unfold run, handlePendingMoveSignature, mbind, M_bind, bind, snapshot.
  rewrite Hpm. cbn [pm_transactionData].
  unfold try_catch, from_option, ensure_recentBlockhash, call, liftE,
    require, emit, emits, update, ret, throw, bind, mbind, M_bind, bind.
  rewrite Hkey. cbn -[partialSign serialize slots].
  rewrite (partialSign_slots p1 p2 Hne) by exact Hkp.
  cbn -[serialize slots]. rewrite (serialize_unverified p1 p2 Hne).
  cbn -[slots]. destruct (ws_open env); reflexivity.
Qed.

Lemma messageHandler_move_signed_run (props propsB : Props) (seen : option PendingMove)
    (env : Env) (st : State) (data : InstructionData) (bh : string)
    (a b : option Signature) (board : list Z) (d : Dice) (seq : Z) :
  p1 <> p2 ->
  myPubkey propsB <> myPubkey props ->
  provider env = true ->
  let tx := mkTx (mkIx [p1; p2] data) (Some p1) (Some bh) (slots p1 p2 a b) in
  run (messageHandler props seen env (move_signed propsB seq board d tx)) st =
    if ledger_confirms env (Encoded tx) then
      (setSelectedCell None (setPendingMove None (setDice (Some d) (setBoardPoints board st))),
       ([SendRawTransaction (Encoded tx)] ++
        (if ws_open env then
           [WsSend (Msg.mk "turn_completed" (Some (gamePubkey props)) (Some (myPubkey props))
                           None None None None None
                           (Some (if (currentTurn st =? 1)%Z then 2%Z else 1%Z)) None None)]
         else []) ++
        [RefreshGameState])%list)
    else
      (st, [SendRawTransaction (Encoded tx);
            Alert "Failed to submit move to blockchain. Please try again."]).
Proof.
  intros Hne Hme Hprov. cbv zeta.
  unfold run, messageHandler, move_signed, msg_is. cbn -[dice_of dice_values slots same].
  unfold on_move_signed. cbn -[dice_of dice_values slots same].
  unfold same. rewrite bool_decide_eq_false_2 by congruence.
  rewrite dice_of_values.
  unfold logged, submitSignedTransactionToBlockchain, try_catch,
    sendRawTransaction_confirmed, refreshGameState, call, require, liftE,
    emit, emits, update, snapshot, ret, throw, mbind, M_bind, bind.
  cbn -[serialize slots]. rewrite Hprov.
  rewrite (serialize_unverified p1 p2 Hne). cbn -[slots].
  destruct (ledger_confirms env _); [|reflexivity].
  cbn -[slots]. destruct (ws_open env); reflexivity.
Qed.

End RoundRuns.

Section RoundFacts.
Import Web3 WsClient Engine Round.

Lemma full_slots (p1 p2 me other : Pubkey) :
  participants p1 p2 me other ->
  slots p1 p2
    (if bool_decide (other = p1) then Some (SigOf p1)
     else sig_when (bool_decide (p1 ∈ [me])) p1)
    (if bool_decide (other = p2) then Some (SigOf p2)
     else sig_when (bool_decide (p2 ∈ [me])) p2) =
  slots p1 p2 (Some (SigOf p1)) (Some (SigOf p2)).
Proof.
  intros [Hne [[-> ->] | [-> ->]]]; unfold sig_when;
    repeat case_bool_decide; rewrite ?list_elem_of_singleton in *;
    try congruence; reflexivity.
Qed.

Lemma signed_by_slots (p1 p2 : Pubkey) (data : InstructionData) (bh : string)
    (a b : option Signature) (k : Pubkey) :
  p1 <> p2 ->
  signed_by (mkTx (mkIx [p1; p2] data) (Some p1) (Some bh) (slots p1 p2 a b)) k =
    (bool_decide (p1 = k) && bool_decide (is_Some a)) ||
    (bool_decide (p2 = k) && bool_decide (is_Some b)).
Proof.
  intros Hne. unfold signed_by, slots, slot_present. cbn.
  destruct a, b; cbn; repeat case_bool_decide; try reflexivity;
    try (exfalso; match goal with H : ¬ is_Some (Some _) |- _ => apply H; eauto end);
    try (exfalso; match goal with H : is_Some None |- _ => destruct H; discriminate end).
Qed.

Lemma confirmMove_outcome (props : Props) (env : Env) (st : State) :
  confirmMove_returns_early st = false ->
  let r := run (confirmMove props env) st in
  isProcessingMove r.1 = false /\ selectedCell r.1 = None /\
  boardPoints r.1 = boardPoints st /\ dice r.1 = dice st /\
  currentTurn r.1 = currentTurn st /\ isMyTurn r.1 = isMyTurn st /\
  submissions r.2 = [].
Proof.
  intros Hearly. cbv zeta.
  assert (Hd : exists d cell, dice st = Some d /\ selectedCell st = Some cell).
  { unfold confirmMove_returns_early in Hearly.
    apply orb_false_iff in Hearly as [Hearly _].
    apply orb_false_iff in Hearly as [Hearly Hc].
    apply orb_false_iff in Hearly as [_ Hdd].
    apply negb_false_iff, bool_decide_eq_true in Hc, Hdd.
    destruct Hc as [cell Hc], Hdd as [d Hdd]. eauto. }
  destruct Hd as (d & cell & Hd & Hc).
  unfold run, confirmMove, mbind, M_bind, bind, snapshot.
  rewrite Hearly, Hd, Hc.
  unfold finally, try_catch, update, bind, require, from_option,
    createMoveTransaction, call, liftE, emit, emits, ret, throw,
    mbind, M_bind, bind.
  destruct (provider env); [|cbn; rewrite Hd; repeat split; reflexivity].
  destruct (currentKeypair env) as [kp|]; [|cbn; rewrite Hd; repeat split; reflexivity].
  destruct (server_moves env) as [n|]; [|cbn; rewrite Hd; repeat split; reflexivity].
  destruct (onchain_game env) as [[q1 q2]|]; [|cbn; rewrite Hd; repeat split; reflexivity].
  cbn -[partialSign serialize moved].
  destruct (partialSign kp _) as [tx1|e]; [|cbn; rewrite Hd; repeat split; reflexivity].
  cbn -[serialize moved].
  destruct (serialize _ tx1) as [[tx2 ser]|e]; [|cbn; rewrite Hd; repeat split; reflexivity].
  cbn -[moved].
  destruct (ws_open env), (logMove_ok env); cbn; rewrite Hd; repeat split; reflexivity.
Qed.

End RoundFacts.



(** X8: however [confirmMove] ends once it is past its guard -- sent, or
    failed at the provider, the keypair, the server, the chain or the
    signature -- it leaves [isProcessingMove] cleared and no cell selected,
    does not touch board, dice or turn, and hands nothing to the ledger. *)
Theorem engine_confirmMove_always_unlocks (props : Engine.Props) (env : Engine.Env)
    (st : Engine.State) :
  Engine.confirmMove_returns_early st = false ->
  let r := Engine.run (Engine.confirmMove props env) st in
  Engine.isProcessingMove r.1 = false /\ Engine.selectedCell r.1 = None /\
  Engine.boardPoints r.1 = Engine.boardPoints st /\ Engine.dice r.1 = Engine.dice st /\
  Engine.currentTurn r.1 = Engine.currentTurn st /\
  Engine.isMyTurn r.1 = Engine.isMyTurn st /\
  Engine.submissions r.2 = [].
Proof. apply confirmMove_outcome. Qed.

Lemma engine_confirmMove_always_unlocks_witness :
  let env := Engine.mkEnv false None false (fun _ => false) None None "" false in
  let r := Engine.run (Engine.confirmMove EngineSample.props1 env) EngineSample.st_turn in
  Engine.isProcessingMove r.1 = false /\ Engine.selectedCell r.1 = None /\
  Engine.boardPoints r.1 = Engine.boardPoints EngineSample.st_turn /\
  Engine.dice r.1 = Engine.dice EngineSample.st_turn /\
  Engine.currentTurn r.1 = Engine.currentTurn EngineSample.st_turn /\
  Engine.isMyTurn r.1 = Engine.isMyTurn EngineSample.st_turn /\
  Engine.submissions r.2 = [].
Proof.
  apply (engine_confirmMove_always_unlocks EngineSample.props1
           (Engine.mkEnv false None false (fun _ => false) None None "" false)
           EngineSample.st_turn).
  reflexivity.
Defined.

(** X9: counter-signing adds the signer's signature and disturbs nothing
    else.  For a pending move whose transaction names the two players as
    signers, [handlePendingMoveSignature] with the keypair of one of them
    returns a [move_signed] with the same sequence number, board and dice,
    carrying the same instruction with the signer's slot filled and the other
    slot exactly as received, and clears the pending move.  With the socket
    not open the signed transaction is dropped and the pending move is
    cleared all the same. *)
Theorem engine_countersign_adds_own_signature (p1 p2 kp : Web3.Pubkey)
    (props : Engine.Props) (env : Engine.Env) (st : Engine.State)
    (data : Web3.InstructionData) (bh : string) (a b : option Web3.Signature)
    (board : list Z) (d : Engine.Dice) (seq : Z) :
  p1 <> p2 -> kp = p1 \/ kp = p2 ->
  let tx := Web3.mkTx (Web3.mkIx [p1; p2] data) (Some p1) (Some bh) (Round.slots p1 p2 a b) in
  Engine.pendingMove st = Some (Engine.mkPendingMove board d seq (Some (Web3.Encoded tx))) ->
  Engine.currentKeypair env = Some kp ->
  let r := Engine.run (Engine.handlePendingMoveSignature props env) st in
  exists tx',
    Engine.sent r.2 =
      (if Engine.ws_open env then [Round.move_signed props seq board d tx'] else []) /\
    Web3.instruction tx' = Web3.instruction tx /\
    Web3.signed_by tx' kp = true /\
    (forall k, k <> kp -> Web3.signed_by tx' k = Web3.signed_by tx k) /\
    Engine.pendingMove r.1 = None /\
    Engine.submissions r.2 = [].
Proof.
  intros Hne Hkp tx Hpm Hkey. cbv zeta. subst tx.
  rewrite (handlePendingMoveSignature_run p1 p2 props env st data bh a b kp board d seq
             Hne Hkp Hpm Hkey).
  eexists. split; [|split; [|split; [|split; [|split]]]].
  - destruct (Engine.ws_open env); reflexivity.
  - reflexivity.
  - rewrite (signed_by_slots p1 p2 _ _ _ _ kp Hne).
    destruct Hkp as [-> | ->]; repeat case_bool_decide; try congruence; cbn;
      try reflexivity;
      exfalso; match goal with H : ¬ is_Some (Some _) |- _ => apply H; eauto end.
  - intros k Hk. rewrite !(signed_by_slots p1 p2 _ _ _ _ k Hne).
    destruct Hkp as [-> | ->]; repeat case_bool_decide; try congruence; reflexivity.
  - reflexivity.
  - destruct (Engine.ws_open env); reflexivity.
Qed.

Lemma engine_countersign_adds_own_signature_witness :
  let st := Engine.setPendingMove
              (Some (Engine.mkPendingMove EngineSample.board1 (Some 3%Z, Some 5%Z) 6
                       (Some (Web3.Encoded EngineSample.move_tx_half))))
              EngineSample.st_reviewer in
  let r := Engine.run (Engine.handlePendingMoveSignature EngineSample.props2
                         (EngineSample.env_of "P2" 5)) st in
  exists tx',
    Engine.sent r.2 =
      [Round.move_signed EngineSample.props2 6 EngineSample.board1 (Some 3%Z, Some 5%Z) tx'] /\
    Web3.instruction tx' = Web3.instruction EngineSample.move_tx_half /\
    Web3.signed_by tx' "P2" = true /\
    (forall k, k <> "P2" -> Web3.signed_by tx' k = Web3.signed_by EngineSample.move_tx_half k) /\
    Engine.pendingMove r.1 = None /\
    Engine.submissions r.2 = [].
Proof.
  apply (engine_countersign_adds_own_signature "P1" "P2" "P2" EngineSample.props2
           (EngineSample.env_of "P2" 5)
           (Engine.setPendingMove
              (Some (Engine.mkPendingMove EngineSample.board1 (Some 3%Z, Some 5%Z) 6
                       (Some (Web3.Encoded EngineSample.move_tx_half))))
              EngineSample.st_reviewer)
           (Web3.MakeMove (Engine.boardPointsBuffer EngineSample.board1) [3; 5]%Z) "bh"
           (Some (Web3.SigOf "P1")) None EngineSample.board1 (Some 3%Z, Some 5%Z) 6);
    try reflexivity; [discriminate | right; reflexivity].
Defined.

Section MoreEngineFacts.
Import Web3 WsClient Engine Round.

Lemma partialSign_stranger (p1 p2 kp : Pubkey) (data : InstructionData) (bh : string)
    (a b : option Signature) :
  p1 <> p2 -> kp <> p1 -> kp <> p2 ->
  partialSign kp (mkTx (mkIx [p1; p2] data) (Some p1) (Some bh) (slots p1 p2 a b)) =
    Throw "unknown signer".
Proof.
  intros Hne H1 H2. unfold partialSign. rewrite (compile_slots p1 p2 Hne). cbn.
  rewrite bool_decide_eq_false_2; [reflexivity|].
  intros Hin. apply elem_of_cons in Hin as [-> | Hin]; [congruence|].
  apply list_elem_of_singleton in Hin. congruence.
Qed.

Lemma boardPointsBuffer_lookup (b : list Z) (i : nat) :
  (i < 24)%nat ->
  boardPointsBuffer b !! i = Some (clamp_i8 (default 0%Z (b !! i))).
Proof.
  intros Hi. unfold boardPointsBuffer. rewrite list_lookup_fmap.
  rewrite lookup_seq_lt by exact Hi. reflexivity.
Qed.

Lemma clamp_i8_range (v : Z) : (-128 <= clamp_i8 v <= 127)%Z.
Proof. unfold clamp_i8. lia. Qed.

Lemma clamp_i8_id (v : Z) : (-128 <= v <= 127)%Z -> clamp_i8 v = v.
Proof. unfold clamp_i8. lia. Qed.

Lemma moved_length (b : list Z) (cell : nat) : length (moved b cell) = length b.
Proof.
  unfold moved. destruct (b !! cell); [apply length_insert | reflexivity].
Qed.

End MoreEngineFacts.

(** X10: when counter-signing cannot be done -- no keypair is loaded, the
    transaction bytes do not decode, or the wallet is neither of the two
    required signers -- [handlePendingMoveSignature] alerts the user and
    changes nothing: the request stays pending and nothing is sent. *)
Theorem engine_countersign_failure (props : Engine.Props) (env : Engine.Env)
    (st : Engine.State) (pm : Engine.PendingMove) (bytes : Web3.TxBytes) :
  Engine.pendingMove st = Some pm ->
  Engine.pm_transactionData pm = Some bytes ->
  Engine.currentKeypair env = None \/
  bytes = Web3.Malformed \/
  (exists (kp p1 p2 : Web3.Pubkey) data bh a b,
     Engine.currentKeypair env = Some kp /\ p1 <> p2 /\ kp <> p1 /\ kp <> p2 /\
     bytes = Web3.Encoded
               (Web3.mkTx (Web3.mkIx [p1; p2] data) (Some p1) (Some bh)
                          (Round.slots p1 p2 a b))) ->
  Engine.run (Engine.handlePendingMoveSignature props env) st =
    (st, [Engine.Alert "Failed to sign move. Please try again."]).
Proof.
  intros Hpm Hb Hcase.
  unfold Engine.run, Engine.handlePendingMoveSignature, mbind, Engine.M_bind,
    Engine.bind, Engine.snapshot.
  rewrite Hpm, Hb.
  unfold Engine.try_catch, Engine.from_option, Engine.ensure_recentBlockhash,
    Engine.call, Engine.liftE, Engine.require, Engine.emit, Engine.emits,
    Engine.update, Engine.ret, Engine.throw, Engine.bind, mbind, Engine.M_bind,
    Engine.bind.
  destruct Hcase as [Hk | [-> | (kp & p1 & p2 & data & bh & a & b & Hk & Hne & H1 & H2 & ->)]].
  - rewrite Hk. reflexivity.
  - destruct (Engine.currentKeypair env); reflexivity.
  - rewrite Hk. cbn -[Web3.partialSign Round.slots].
    rewrite (partialSign_stranger p1 p2 kp data bh a b Hne H1 H2). reflexivity.
Qed.

Lemma engine_countersign_failure_witness :
  let st := Engine.setPendingMove
              (Some (Engine.mkPendingMove EngineSample.board1 (Some 3%Z, Some 5%Z) 6
                       (Some Web3.Malformed)))
              EngineSample.st_reviewer in
  Engine.run (Engine.handlePendingMoveSignature EngineSample.props2
                (EngineSample.env_of "P2" 5)) st =
    (st, [Engine.Alert "Failed to sign move. Please try again."]).
Proof.
  apply (engine_countersign_failure EngineSample.props2 (EngineSample.env_of "P2" 5)
           (Engine.setPendingMove
              (Some (Engine.mkPendingMove EngineSample.board1 (Some 3%Z, Some 5%Z) 6
                       (Some Web3.Malformed)))
              EngineSample.st_reviewer)
           (Engine.mkPendingMove EngineSample.board1 (Some 3%Z, Some 5%Z) 6
              (Some Web3.Malformed))
           Web3.Malformed); try reflexivity.
  right. left. reflexivity.
Defined.

Section RoundChain.
Import Web3 WsClient Engine Round.

Lemma signer_answers (p1 p2 me other : Pubkey) (props : Props) (env : Env) (st : State)
    (bh : string) (board : list Z) (d : Dice) (seq : Z) :
  participants p1 p2 me other ->
  currentKeypair env = Some other ->
  run (handlePendingMoveSignature props env)
      (setPendingMove
         (Some (mkPendingMove board d seq
                  (Some (Encoded (move_tx p1 p2 bh board d (signed_slots p1 p2 [me]))))))
         st) =
    (setPendingMove None
       (setPendingMove
          (Some (mkPendingMove board d seq
                   (Some (Encoded (move_tx p1 p2 bh board d (signed_slots p1 p2 [me]))))))
          st),
     if ws_open env then
       [WsSend (move_signed props seq board d
                  (move_tx p1 p2 bh board d
                     (slots p1 p2 (Some (SigOf p1)) (Some (SigOf p2)))))]
     else []).
Proof.
  intros Hpart Hkey. pose proof Hpart as [Hne _].
  unfold move_tx, signed_slots.
  match goal with
  | |- run _ ?s = _ =>
      rewrite (handlePendingMoveSignature_run p1 p2 props env s
                 (MakeMove (boardPointsBuffer board) (diceBuffer d)) bh
                 (sig_when (bool_decide (p1 ∈ [me])) p1)
                 (sig_when (bool_decide (p2 ∈ [me])) p2)
                 other board d seq Hne (other_is_participant p1 p2 me other Hpart)
                 eq_refl Hkey)
  end.
  rewrite (full_slots p1 p2 me other Hpart). reflexivity.
Qed.

End RoundChain.



(** X12: a message about another game is ignored unless its type is
    [move_request], [move_signed] or [turn_changed]: for every other type,
    known or not, a game key different from the engine's leaves the state
    untouched and has no effect. *)
Theorem engine_ignores_other_games (props : Engine.Props)
    (seen : option Engine.PendingMove) (env : Engine.Env) (st : Engine.State)
    (m : WsClient.WSMessage) :
  WsClient.Msg.type m <> "move_request" ->
  WsClient.Msg.type m <> "move_signed" ->
  WsClient.Msg.type m <> "turn_changed" ->
  WsClient.Msg.gamePubkey m <> Some (Engine.gamePubkey props) ->
  Engine.run (Engine.messageHandler props seen env m) st = (st, []).
Proof.
  intros H1 H2 H3 Hg. unfold Engine.messageHandler, Engine.msg_is.
  apply String.eqb_neq in H1, H2, H3. rewrite H1, H2, H3.
  unfold Engine.same. rewrite bool_decide_eq_false_2 by exact Hg.
  rewrite !andb_false_r. reflexivity.
Qed.

Lemma engine_ignores_other_games_witness :
  Engine.run (Engine.messageHandler EngineSample.props1 None (EngineSample.env_of "P1" 5)
                (WsClient.Msg.mk "game_finished" (Some "S2") None None None None None None
                                 None (Some "P3") None))
             EngineSample.st_turn = (EngineSample.st_turn, []).
Proof.
  apply (engine_ignores_other_games EngineSample.props1 None (EngineSample.env_of "P1" 5)
           EngineSample.st_turn
           (WsClient.Msg.mk "game_finished" (Some "S2") None None None None None None
                            None (Some "P3") None)); discriminate.
Defined.

(** X13: a turn announcement gives the turn to at most one player.  When the
    engines of player 1 and player 2 of the same game both handle
    [turn_changed], they end with the same [currentTurn]; for turn 1 only
    player 1 has [isMyTurn], for turn 2 only player 2, and for any other
    value neither. *)
Theorem engine_turn_is_exclusive (propsA propsB : Engine.Props)
    (seenA seenB : option Engine.PendingMove) (envA envB : Engine.Env)
    (stA stB : Engine.State) (gi : Engine.GameInfo) (m : WsClient.WSMessage) (nt : Z) :
  Engine.gameInfo stA = Some gi -> Engine.gameInfo stB = Some gi ->
  Engine.myPubkey propsA = Engine.gi_player1 gi ->
  Engine.myPubkey propsB = Engine.gi_player2 gi ->
  Engine.gi_player1 gi <> Engine.gi_player2 gi ->
  WsClient.Msg.type m = "turn_changed" ->
  WsClient.Msg.newTurn m = Some nt ->
  let a := (Engine.run (Engine.messageHandler propsA seenA envA m) stA).1 in
  let b := (Engine.run (Engine.messageHandler propsB seenB envB m) stB).1 in
  Engine.currentTurn a = nt /\ Engine.currentTurn b = nt /\
  Engine.isMyTurn a = (nt =? 1)%Z /\ Engine.isMyTurn b = (nt =? 2)%Z /\
  (Engine.isMyTurn a && Engine.isMyTurn b = false).
Proof.
  intros HgA HgB HA HB Hne Ht Hnt. cbv zeta.
  rewrite !(messageHandler_turn_changed _ _ _ m Ht).
  unfold Engine.on_turn_changed, Engine.run, mbind, Engine.M_bind, Engine.bind,
    Engine.snapshot. rewrite Hnt, HgA, HgB. cbn.
  rewrite HA, HB. rewrite String.eqb_refl.
  assert (Hf : String.eqb (Engine.gi_player2 gi) (Engine.gi_player1 gi) = false)
    by (apply String.eqb_neq; congruence).
  rewrite Hf. cbn.
  destruct (Z.eqb_spec nt 1) as [-> | H1]; cbn; [repeat split; reflexivity|].
  rewrite !andb_false_r, !andb_true_r. repeat split; reflexivity.
Qed.

Lemma engine_turn_is_exclusive_witness :
  let m := EngineSample.turn_changed_msg 2 in
  let a := (Engine.run (Engine.messageHandler EngineSample.props1 None
                          (EngineSample.env_of "P1" 5) m) EngineSample.st_turn).1 in
  let b := (Engine.run (Engine.messageHandler EngineSample.props2 None
                          (EngineSample.env_of "P2" 5) m) EngineSample.st_reviewer).1 in
  Engine.currentTurn a = 2%Z /\ Engine.currentTurn b = 2%Z /\
  Engine.isMyTurn a = false /\ Engine.isMyTurn b = true /\
  (Engine.isMyTurn a && Engine.isMyTurn b = false).
Proof.
  apply (engine_turn_is_exclusive EngineSample.props1 EngineSample.props2 None None
           (EngineSample.env_of "P1" 5) (EngineSample.env_of "P2" 5)
           EngineSample.st_turn EngineSample.st_reviewer EngineSample.gameInfo0
           (EngineSample.turn_changed_msg 2) 2%Z); try reflexivity.
  discriminate.
Defined.

Section BoardFacts.
Import Engine Round.

Lemma moved_lookup (b : list Z) (cell : nat) (v : Z) :
  b !! cell = Some v ->
  moved b cell !! cell = Some (v + (if (0 <=? v)%Z then -1 else 1))%Z /\
  forall i, i <> cell -> moved b cell !! i = b !! i.
Proof.
  intros Hv. unfold moved. rewrite Hv. split.
  - apply list_lookup_insert_eq. by eapply lookup_lt_Some.
  - intros i Hi. apply list_lookup_insert_ne. congruence.
Qed.

Lemma moved_board_ok (b : list Z) (cell : nat) : board_ok b -> board_ok (moved b cell).
Proof.
  intros [Hlen Hall]. split; [by rewrite moved_length|].
  unfold moved. destruct (b !! cell) as [v|] eqn:Hv; [|exact Hall].
  apply Forall_insert; [exact Hall|].
  rewrite Forall_lookup in Hall. specialize (Hall _ _ Hv). cbn in Hall.
  destruct (Z.leb_spec 0 v); lia.
Qed.

Lemma boardPointsBuffer_length (b : list Z) : length (boardPointsBuffer b) = 24%nat.
Proof. unfold boardPointsBuffer. by rewrite length_fmap, length_seq. Qed.

Lemma boardPointsBuffer_board_ok (b : list Z) : board_ok b -> boardPointsBuffer b = b.
Proof.
  intros [Hlen Hall]. apply list_eq. intros i.
  destruct (decide (i < 24)%nat) as [Hi | Hi].
  - rewrite boardPointsBuffer_lookup by exact Hi.
    destruct (lookup_lt_is_Some_2 b i) as [v Hv]; [lia|].
    rewrite Hv. cbn. f_equal. apply clamp_i8_id.
    rewrite Forall_lookup in Hall. specialize (Hall _ _ Hv). cbn in Hall. lia.
  - rewrite !lookup_ge_None_2; [reflexivity | lia | rewrite boardPointsBuffer_length; lia].
Qed.

End BoardFacts.

(** X14: the move rule keeps the board encodable without loss.  Starting from
    a board of 24 cells with every cell between -30 and 30 (as the initial
    board is), any sequence of [confirmMove] board updates on cells 0..23
    keeps 24 cells within -30..30, and the 24 signed bytes written into the
    instruction are then exactly the board: the clamp to -128..127 never
    changes a value. *)
Theorem engine_board_encoding_lossless (b : list Z) (cells : list nat) :
  length b = 24%nat ->
  Forall (fun v => (-30 <= v <= 30)%Z) b ->
  Forall (fun c => (c < 24)%nat) cells ->
  let b' := foldl Engine.moved b cells in
  length b' = 24%nat /\ Forall (fun v => (-30 <= v <= 30)%Z) b' /\
  Engine.boardPointsBuffer b' = b'.
Proof.
  intros Hlen Hall _. cbv zeta.
  assert (Hok : Round.board_ok (foldl Engine.moved b cells)).
  { assert (H0 : Round.board_ok b) by (split; assumption). clear Hlen Hall.
    revert b H0. induction cells as [|c cells IH]; intros b H0; [exact H0|].
    cbn. apply IH. by apply moved_board_ok. }
  destruct Hok as [H1 H2]. repeat split; [exact H1 | exact H2 |].
  apply boardPointsBuffer_board_ok. by split.
Qed.

Lemma engine_board_encoding_lossless_witness :
  let b' := foldl Engine.moved Engine.INITIAL_BOARD [0; 23; 5; 0]%nat in
  length b' = 24%nat /\ Forall (fun v => (-30 <= v <= 30)%Z) b' /\
  Engine.boardPointsBuffer b' = b'.
Proof.
  apply (engine_board_encoding_lossless Engine.INITIAL_BOARD [0; 23; 5; 0]%nat).
  - reflexivity.
  - unfold Engine.INITIAL_BOARD. cbn. repeat constructor; lia.
  - repeat constructor; lia.
Defined.

(** X15: one board update changes one cell by one.  On a selected cell that
    holds [v], [confirmMove]'s new board has [v - 1] there when [v >= 0] and
    [v + 1] when [v < 0], every other cell is unchanged and the number of
    cells is the same; in particular an empty cell (0) becomes -1. *)
Theorem engine_move_changes_one_cell (b : list Z) (cell : nat) (v : Z) :
  b !! cell = Some v ->
  length (Engine.moved b cell) = length b /\
  Engine.moved b cell !! cell = Some (if (0 <=? v)%Z then v - 1 else v + 1)%Z /\
  (forall i, i <> cell -> Engine.moved b cell !! i = b !! i).
Proof.
  intros Hv. destruct (moved_lookup b cell v Hv) as [H1 H2].
  split; [apply moved_length|]. split; [|exact H2].
  rewrite H1. destruct (0 <=? v)%Z; reflexivity.
Qed.

Lemma engine_move_changes_one_cell_witness :
  length (Engine.moved Engine.INITIAL_BOARD 3) = length Engine.INITIAL_BOARD /\
  Engine.moved Engine.INITIAL_BOARD 3 !! 3%nat = Some (-1)%Z /\
  (forall i, i <> 3%nat ->
     Engine.moved Engine.INITIAL_BOARD 3 !! i = Engine.INITIAL_BOARD !! i).
Proof.
  apply (engine_move_changes_one_cell Engine.INITIAL_BOARD 3 0%Z). reflexivity.
Defined.

(** X16: the instruction always carries 24 board bytes in the signed-byte
    range, whatever board it is given: a shorter board is padded with 0, a
    longer one is cut after cell 23, and each value is clamped to
    -128..127. *)
Theorem engine_board_buffer_shape (b : list Z) :
  length (Engine.boardPointsBuffer b) = 24%nat /\
  Forall (fun v => (-128 <= v <= 127)%Z) (Engine.boardPointsBuffer b) /\
  (forall i, (length b <= i < 24)%nat -> Engine.boardPointsBuffer b !! i = Some 0%Z) /\
  Engine.boardPointsBuffer (take 24 b) = Engine.boardPointsBuffer b.
Proof.
  split; [apply boardPointsBuffer_length|]. split; [|split].
  - unfold Engine.boardPointsBuffer. apply Forall_fmap, Forall_forall.
    intros i _. cbn. apply clamp_i8_range.
  - intros i [Hlo Hhi]. rewrite boardPointsBuffer_lookup by exact Hhi.
    rewrite lookup_ge_None_2 by exact Hlo. reflexivity.
  - unfold Engine.boardPointsBuffer. apply list_fmap_ext.
    intros k i Hi. apply lookup_seq in Hi as [-> Hi].
    rewrite lookup_take_lt by lia. reflexivity.
Qed.

(** * Properties of the client connection *)
Section ConnFacts.
Import WsClient WsConn.

Local Ltac in_list := repeat first [apply list_elem_of_here | apply list_elem_of_further].

Lemma steps_app (e1 e2 : list Event) (c : Client) :
  steps (e1 ++ e2) c =
    let '(c1, o1) := steps e1 c in
    let '(c2, o2) := steps e2 c1 in (c2, (o1 ++ o2)%list).
Proof.
  revert c. induction e1 as [|e e1 IH]; intros c; cbn.
  - destruct (steps e2 c). reflexivity.
  - destruct (step e c) as [c1 o1]. rewrite IH.
    destruct (steps e1 c1) as [c2 o2]. destruct (steps e2 c2) as [c3 o3].
    by rewrite app_assoc.
Qed.

Lemma timeouts_app (o1 o2 : list Effect) :
  timeouts (o1 ++ o2) = (timeouts o1 ++ timeouts o2)%list.
Proof. apply omap_app. Qed.

Lemma frames_app (o1 o2 : list Effect) :
  frames (o1 ++ o2) = (frames o1 ++ frames o2)%list.
Proof. apply omap_app. Qed.

Lemma method_closed (f : Method) (a : Args) :
  f ∈ senders ->
  f false a = [].
Proof.
  intros Hf. repeat (apply elem_of_cons in Hf as [-> | Hf]; [by destruct a|]).
  by apply elem_of_nil in Hf.
Qed.

Lemma send_spec (f : Method) (a : Args) (c : Client) :
  f ∈ senders ->
  (send f a c).1 = c /\
  (forall e, e ∈ (send f a c).2 ->
     exists s m, e = Send s m /\ ws c = Some s /\ sockets c !! s = Some OPEN) /\
  (isConnected c = false -> (send f a c).2 = []).
Proof.
  intros Hf. unfold send, isConnected. destruct (ws c) as [s|]; cbn.
  - split; [reflexivity|]. case_bool_decide as Ho; split.
    + intros e He. apply list_elem_of_fmap in He as (m & -> & _). eauto.
    + discriminate.
    + rewrite (method_closed f a Hf). intros e He. by apply elem_of_nil in He.
    + intros _. by rewrite (method_closed f a Hf).
  - split; [reflexivity|]. split; [|reflexivity].
    intros e He. by apply elem_of_nil in He.
Qed.

Lemma attemptReconnect_spec (c : Client) :
  sockets (attemptReconnect c).1 = sockets c /\
  ws (attemptReconnect c).1 = ws c /\
  messageHandlers (attemptReconnect c).1 = messageHandlers c /\
  ((reconnectAttempts c < maxReconnectAttempts)%nat ->
     reconnectAttempts (attemptReconnect c).1 = S (reconnectAttempts c) /\
     (attemptReconnect c).2 =
       [SetTimeout (reconnectDelay * Z.of_nat (S (reconnectAttempts c)))]) /\
  ((maxReconnectAttempts <= reconnectAttempts c)%nat -> attemptReconnect c = (c, [])).
Proof.
  unfold attemptReconnect.
  destruct (Nat.leb_spec maxReconnectAttempts (reconnectAttempts c)); cbn;
    repeat split; try reflexivity; intros; lia.
Qed.

Lemma step_inv (e : Event) (c : Client) :
  conn_inv c -> conn_inv (step e c).1 /\ out_ok c (step e c).2.
Proof.
  intros [Ha Hw].
  assert (Hnil : forall c0, out_ok c0 []).
  { intros c0. split; intros; exfalso; eapply elem_of_nil; eassumption. }
  assert (Hsend : forall f a,
    f ∈ senders ->
    conn_inv (send f a c).1 /\ out_ok c (send f a c).2).
  { intros f a Hf. destruct (send_spec f a c Hf) as (-> & Hs & _).
    split; [by split|]. split.
    - intros d Hd. apply Hs in Hd as (s & m & Hd & _). discriminate.
    - intros s m Hm. apply Hs in Hm as (s' & m' & Heq & H1 & H2).
      inversion Heq; subst. by split. }
  destruct e; cbn [step].
  - unfold connect. destruct (isConnected c); [by split; [split|]|].
    destruct ctor_ok; [|by split; [split|]]. cbn. split; [|apply Hnil].
    split; [exact Ha|]. cbn. intros s [= <-]. rewrite length_app. cbn. lia.
  - unfold disconnect. destruct (ws c) as [s|]; cbn.
    + split; [by split|]. split.
      * intros d Hd. apply list_elem_of_singleton in Hd. discriminate.
      * intros s' m Hm. apply list_elem_of_singleton in Hm. discriminate.
    + split; [by split|apply Hnil].
  - cbn. split; [by split|apply Hnil].
  - cbn. split; [by split|apply Hnil].
  - apply Hsend. in_list.
  - apply Hsend. in_list.
  - apply Hsend. in_list.
  - apply Hsend. in_list.
  - apply Hsend. in_list.
  - cbn. split; [|apply Hnil]. split; cbn; [unfold maxReconnectAttempts; lia|].
    intros s' Hs'. rewrite length_insert. by apply Hw.
  - unfold onclose. cbn [set_readyState sockets ws messageHandlers reconnectAttempts].
    match goal with |- context [attemptReconnect ?x] => set (c0 := x) end.
    destruct (attemptReconnect_spec c0) as (H1 & H2 & H3 & H4 & H5).
    destruct (Nat.lt_ge_cases (reconnectAttempts c0) maxReconnectAttempts) as [Hlt | Hge].
    + destruct (H4 Hlt) as [H6 H7]. split.
      * split; [rewrite H6; lia|]. rewrite H2. subst c0. cbn. discriminate.
      * rewrite H7. split.
        -- intros d Hd. apply list_elem_of_singleton in Hd as [= ->].
           exists (S (reconnectAttempts c0)). split; [lia | reflexivity].
        -- intros s' m Hm. apply list_elem_of_singleton in Hm. discriminate.
    + rewrite (H5 Hge). split; [|apply Hnil]. split; [exact Ha|].
      subst c0. cbn. discriminate.
  - unfold onmessage. destruct data as [m|]; [|by split; [split|]].
    split; [by split|]. split.
    + intros d Hd. apply list_elem_of_fmap in Hd as (h & Hd & _). discriminate.
    + intros s' m' Hm. apply list_elem_of_fmap in Hm as (h & Hm & _). discriminate.
  - unfold reconnect_timer, connect. destruct (isConnected c); [by split; [split|]|].
    destruct ctor_ok; [|by split; [split|]]. cbn. split; [|apply Hnil].
    split; [exact Ha|]. cbn. intros s [= <-]. rewrite length_app. cbn. lia.
Qed.

End ConnFacts.

(** X17: the connection invariant.  After any sequence of method calls and
    socket or timer events on a new client, [reconnectAttempts] is at most 5
    and [this.ws] is [null] or a socket the client created; whatever happens
    next, a timer is only ever set for 1000, 2000, ..., 5000 ms, and a frame
    is only ever sent on [this.ws] while that socket is open. *)
Theorem conn_invariant (evs : list WsConn.Event) (e : WsConn.Event) :
  let c := (WsConn.steps evs WsConn.new_WebSocketClient).1 in
  WsConn.conn_inv c /\ WsConn.out_ok c (WsConn.step e c).2.
Proof.
  cbv zeta.
  assert (Hinv : forall evs c, WsConn.conn_inv c -> WsConn.conn_inv (WsConn.steps evs c).1).
  { clear. intros evs. induction evs as [|e evs IH]; intros c Hc; [exact Hc|].
    cbn. destruct (step_inv e c Hc) as [H1 _].
    destruct (WsConn.step e c) as [c1 o1]. specialize (IH c1 H1).
    destruct (WsConn.steps evs c1). exact IH. }
  assert (H0 : WsConn.conn_inv WsConn.new_WebSocketClient).
  { split; cbn; [unfold WsConn.maxReconnectAttempts; lia | discriminate]. }
  specialize (Hinv evs _ H0). split; [exact Hinv|].
  by apply step_inv.
Qed.

Section BackoffFacts.
Import WsClient WsConn.

Lemma isConnected_None (c : Client) : ws c = None -> isConnected c = false.
Proof. unfold isConnected. by intros ->. Qed.

(** One failed attempt: the socket closes and the timer reconnects. *)
Lemma failure_cycle (c : Client) (s : SocketId) :
  (reconnectAttempts c < maxReconnectAttempts)%nat ->
  steps [SocketClosed s; TimerFired true] c =
    (mkClient (<[s := CLOSED]> (sockets c) ++ [CONNECTING]) (Some (length (sockets c)))
              (messageHandlers c) (S (reconnectAttempts c)),
     [SetTimeout (reconnectDelay * Z.of_nat (S (reconnectAttempts c)))]).
Proof.
  intros Hlt. unfold steps, step, onclose, attemptReconnect, set_readyState.
  cbn [sockets ws messageHandlers reconnectAttempts].
  destruct (Nat.leb_spec maxReconnectAttempts (reconnectAttempts c)) as [Hge|_]; [lia|].
  unfold reconnect_timer, connect, isConnected.
  cbn [sockets ws messageHandlers reconnectAttempts app].
  rewrite length_insert. reflexivity.
Qed.

Lemma failures_S (s : SocketId) (n : nat) :
  failures s (S n) = ([SocketClosed s; TimerFired true] ++ failures (S s) n)%list.
Proof. reflexivity. Qed.

Lemma failures_run (n : nat) (c : Client) (s : SocketId) :
  ws c = Some s -> length (sockets c) = S s ->
  (reconnectAttempts c + n <= maxReconnectAttempts)%nat ->
  let r := steps (failures s n) c in
  timeouts r.2 =
    (fun k => reconnectDelay * Z.of_nat k)%Z <$> seq (S (reconnectAttempts c)) n /\
  reconnectAttempts r.1 = (reconnectAttempts c + n)%nat /\
  ws r.1 = Some (s + n)%nat /\
  length (sockets r.1) = S (s + n) /\
  messageHandlers r.1 = messageHandlers c /\
  (n <> 0%nat -> sockets r.1 !! (s + n)%nat = Some CONNECTING).
Proof.
  revert c s. induction n as [|n IH]; intros c s Hws Hlen Hle; cbv zeta.
  - cbn. rewrite !Nat.add_0_r. repeat split; try done.
  - rewrite failures_S, steps_app, failure_cycle by lia.
    match goal with |- context [steps (failures (S s) n) ?c1] => set (c' := c1) end.
    specialize (IH c' (S s)). cbv zeta in IH.
    destruct (steps (failures (S s) n) c') as [c2 o2] eqn:Hrun.
    destruct IH as (H1 & H2 & H3 & H4 & H5 & H6).
    + subst c'. cbn. by rewrite Hlen.
    + subst c'. cbn. rewrite length_app, length_insert. cbn. lia.
    + subst c'. cbn. lia.
    + cbn [fst snd] in *. rewrite timeouts_app, H1. subst c'. cbn.
      rewrite H2, H3, H4, H5. cbn.
      replace (s + S n)%nat with (S s + n)%nat by lia.
      repeat split; try done; try lia.
      intros _. destruct n as [|n'].
      * cbn in Hrun. inversion Hrun; subst. cbn. rewrite Nat.add_0_r.
        rewrite lookup_app_r; rewrite length_insert, Hlen; [|lia].
        by rewrite Nat.sub_diag.
      * apply H6. lia.
Qed.

End BackoffFacts.

(** X18: linear back-off.  When the current socket and each of the next
    [n - 1] replacement sockets close before opening, and the counter stays
    within its limit, the client sets exactly one timer per failure, with
    delays 1000 * (a + 1), ..., 1000 * (a + n) ms where [a] is the counter
    at the start; it ends on a fresh connecting socket with the counter at
    [a + n] and its handlers untouched. *)
Theorem conn_reconnect_backoff (c : WsConn.Client) (s : WsConn.SocketId) (n : nat) :
  WsConn.ws c = Some s -> length (WsConn.sockets c) = S s ->
  (WsConn.reconnectAttempts c + n <= 5)%nat ->
  let r := WsConn.steps (WsConn.failures s n) c in
  WsConn.timeouts r.2 =
    (fun k => 1000 * Z.of_nat k)%Z <$> seq (S (WsConn.reconnectAttempts c)) n /\
  WsConn.reconnectAttempts r.1 = (WsConn.reconnectAttempts c + n)%nat /\
  WsConn.ws r.1 = Some (s + n)%nat /\
  WsConn.messageHandlers r.1 = WsConn.messageHandlers c /\
  (n <> 0%nat -> WsConn.sockets r.1 !! (s + n)%nat = Some WsConn.CONNECTING).
Proof.
  intros Hws Hlen Hle.
  destruct (failures_run n c s Hws Hlen Hle) as (H1 & H2 & H3 & _ & H5 & H6).
  cbv zeta. repeat split; assumption.
Qed.

Lemma conn_reconnect_backoff_witness :
  let c := (WsConn.connect true WsConn.new_WebSocketClient).1 in
  let r := WsConn.steps (WsConn.failures 0 5) c in
  WsConn.timeouts r.2 = [1000; 2000; 3000; 4000; 5000]%Z /\
  WsConn.reconnectAttempts r.1 = 5%nat /\
  WsConn.ws r.1 = Some 5%nat /\
  WsConn.messageHandlers r.1 = [] /\
  (5 <> 0 -> WsConn.sockets r.1 !! 5%nat = Some WsConn.CONNECTING)%nat.
Proof.
  apply (conn_reconnect_backoff (WsConn.connect true WsConn.new_WebSocketClient).1 0 5);
    [reflexivity | reflexivity | cbn; lia].
Defined.

(** X19: the client gives up after five attempts.  With the counter at 5 a
    close sets no timer and leaves the client without a socket; after that
    no sending method sends anything; the [open] event of a socket is what
    resets the counter. *)
Theorem conn_gives_up (c : WsConn.Client) (s : WsConn.SocketId) :
  WsConn.reconnectAttempts c = 5%nat ->
  let r := WsConn.step (WsConn.SocketClosed s) c in
  r.2 = [] /\ WsConn.ws r.1 = None /\ WsConn.reconnectAttempts r.1 = 5%nat /\
  WsConn.isConnected r.1 = false /\
  (forall f a, f ∈ WsConn.senders -> (WsConn.send f a r.1).2 = []) /\
  (forall s', WsConn.reconnectAttempts (WsConn.step (WsConn.SocketOpened s') r.1).1 = 0%nat).
Proof.
  intros Ha. cbv zeta. cbn. unfold WsConn.onclose, WsConn.attemptReconnect. cbn.
  rewrite Ha. cbn. repeat split; reflexivity.
Qed.

Lemma conn_gives_up_witness :
  let c := (WsConn.steps (WsConn.failures 0 5)
              (WsConn.connect true WsConn.new_WebSocketClient).1).1 in
  let r := WsConn.step (WsConn.SocketClosed 5) c in
  r.2 = [] /\ WsConn.ws r.1 = None /\ WsConn.reconnectAttempts r.1 = 5%nat /\
  WsConn.isConnected r.1 = false /\
  (forall f a, f ∈ WsConn.senders -> (WsConn.send f a r.1).2 = []) /\
  (forall s', WsConn.reconnectAttempts (WsConn.step (WsConn.SocketOpened s') r.1).1 = 0%nat).
Proof.
  apply (conn_gives_up (WsConn.steps (WsConn.failures 0 5)
              (WsConn.connect true WsConn.new_WebSocketClient).1).1 5).
  reflexivity.
Defined.

(** X20: [disconnect()] does not stop the reconnection.  The socket it
    closes still carries the [onclose] callback, so when its close event
    arrives a timer is set (while the counter is below 5), and when that
    timer fires the client opens a new socket -- with no message handler,
    since [disconnect] cleared them. *)
Theorem conn_disconnect_reconnects (c : WsConn.Client) (s : WsConn.SocketId) :
  WsConn.ws c = Some s -> (s < length (WsConn.sockets c))%nat ->
  (WsConn.reconnectAttempts c < 5)%nat ->
  let r := WsConn.steps [WsConn.CallDisconnect; WsConn.SocketClosed s;
                         WsConn.TimerFired true] c in
  r.2 = [WsConn.Close s;
         WsConn.SetTimeout (1000 * Z.of_nat (S (WsConn.reconnectAttempts c)))] /\
  WsConn.ws r.1 = Some (length (WsConn.sockets c)) /\
  WsConn.sockets r.1 !! length (WsConn.sockets c) = Some WsConn.CONNECTING /\
  WsConn.sockets r.1 !! s = Some WsConn.CLOSED /\
  WsConn.messageHandlers r.1 = [].
Proof.
  intros Hws Hs Hlt. cbv zeta.
  unfold WsConn.steps, WsConn.step, WsConn.disconnect. rewrite Hws.
  unfold WsConn.onclose, WsConn.attemptReconnect, WsConn.set_readyState.
  cbn [WsConn.sockets WsConn.ws WsConn.messageHandlers WsConn.reconnectAttempts].
  destruct (Nat.leb_spec WsConn.maxReconnectAttempts (WsConn.reconnectAttempts c)) as [Hge|_];
    [unfold WsConn.maxReconnectAttempts in Hge; lia|].
  unfold WsConn.reconnect_timer, WsConn.connect, WsConn.isConnected.
  cbn [WsConn.sockets WsConn.ws WsConn.messageHandlers WsConn.reconnectAttempts app fst snd].
  rewrite length_insert, length_alter. repeat split.
  - rewrite lookup_app_r; rewrite length_insert, length_alter; [|lia].
    by rewrite Nat.sub_diag.
  - rewrite lookup_app_l by (rewrite length_insert, length_alter; lia).
    apply list_lookup_insert_eq. by rewrite length_alter.
Qed.

Lemma conn_disconnect_reconnects_witness :
  let c := (WsConn.steps [WsConn.CallConnect true; WsConn.SocketOpened 0;
                          WsConn.CallOnMessage 7] WsConn.new_WebSocketClient).1 in
  let r := WsConn.steps [WsConn.CallDisconnect; WsConn.SocketClosed 0;
                         WsConn.TimerFired true] c in
  r.2 = [WsConn.Close 0%nat; WsConn.SetTimeout 1000%Z] /\
  WsConn.ws r.1 = Some 1%nat /\
  WsConn.sockets r.1 !! 1%nat = Some WsConn.CONNECTING /\
  WsConn.sockets r.1 !! 0%nat = Some WsConn.CLOSED /\
  WsConn.messageHandlers r.1 = [].
Proof.
  apply (conn_disconnect_reconnects
           (WsConn.steps [WsConn.CallConnect true; WsConn.SocketOpened 0;
                          WsConn.CallOnMessage 7] WsConn.new_WebSocketClient).1 0);
    [reflexivity | cbn; lia | cbn; lia].
Defined.

(** X21: the subscription sent on mount depends on the socket being open
    already.  [GameScreen]'s mount effect calls [connect()] and then
    [subscribe(...)] at once: if the client was connected the one frame sent
    is the subscription; if it was not, the new socket is still connecting,
    so nothing is sent -- and nothing is sent later when that socket opens. *)
Theorem conn_mount_subscription (c : WsConn.Client) (g p : string)
    (h : WsConn.MessageHandler) :
  let r := WsConn.steps (WsConn.mount g p h) c in
  WsConn.frames r.2 =
    (if WsConn.isConnected c
     then [WsClient.Msg.mk "subscribe" (Some g) (Some p) None None None None None None
                           None None]
     else []) /\
  (WsConn.isConnected c = false ->
   forall s, WsConn.ws r.1 = Some s ->
     WsConn.frames (WsConn.steps (WsConn.mount g p h ++ [WsConn.SocketOpened s]) c).2 = []).
Proof.
  cbv zeta. unfold WsConn.mount.
  assert (Hfresh : forall c0 : WsConn.Client,
            WsConn.isConnected
              (WsConn.mkClient (WsConn.sockets c0 ++ [WsConn.CONNECTING])
                 (Some (length (WsConn.sockets c0))) (WsConn.messageHandlers c0)
                 (WsConn.reconnectAttempts c0)) = false).
  { intros c0. unfold WsConn.isConnected. cbn.
    rewrite lookup_app_r by lia. rewrite Nat.sub_diag. reflexivity. }
  destruct (WsConn.isConnected c) eqn:Hc.
  - split; [|discriminate]. cbn. unfold WsConn.connect. rewrite Hc. cbn.
    unfold WsConn.send. unfold WsConn.isConnected in Hc.
    destruct (WsConn.ws c) as [s|] eqn:Hws; [|discriminate].
    unfold WsConn.isConnected. rewrite Hws, Hc. reflexivity.
  - cbn -[WsConn.isConnected]. unfold WsConn.connect. rewrite Hc.
    cbn -[WsConn.isConnected]. unfold WsConn.send.
    cbn -[WsConn.isConnected]. rewrite Hfresh. cbn -[WsConn.isConnected].
    split; [reflexivity|]. intros _ s _. reflexivity.
Qed.

(** X22: registering a handler and removing it again restores the client,
    provided the handler was not registered before; while it is registered
    it is invoked once for every parsed message, after the handlers that
    were registered earlier. *)
Theorem conn_handler_round_trip (c : WsConn.Client) (h : WsConn.MessageHandler)
    (m : WsClient.WSMessage) :
  h ∉ WsConn.messageHandlers c ->
  WsConn.steps [WsConn.CallOnMessage h; WsConn.CallOffMessage h] c = (c, []) /\
  (WsConn.steps [WsConn.CallOnMessage h; WsConn.SocketMessage 0 (Some m)] c).2 =
    ((WsConn.onmessage (Some m) c).2 ++ [WsConn.Invoke h m])%list.
Proof.
  intros Hh. split.
  - cbn. unfold WsConn.offMessage. cbn. rewrite filter_app. cbn.
    rewrite decide_False by (intros H; by apply H). rewrite app_nil_r.
    assert (Hf : filter (fun h0 => h0 <> h) (WsConn.messageHandlers c) =
                 WsConn.messageHandlers c).
    { clear -Hh. induction (WsConn.messageHandlers c) as [|x l IH]; [reflexivity|].
      apply not_elem_of_cons in Hh as [Hx Hl].
      rewrite filter_cons, decide_True by congruence. by rewrite IH. }
    rewrite Hf. by destruct c.
  - cbn. rewrite fmap_app, app_nil_r. reflexivity.
Qed.

Lemma conn_handler_round_trip_witness :
  WsConn.steps [WsConn.CallOnMessage 2; WsConn.CallOffMessage 2]
               (WsConn.mkClient [WsConn.OPEN] (Some 0%nat) [1%nat] 0) =
    (WsConn.mkClient [WsConn.OPEN] (Some 0%nat) [1%nat] 0, []) /\
  (WsConn.steps [WsConn.CallOnMessage 2;
                 WsConn.SocketMessage 0 (Some (WsClient.empty "chat"))]
                (WsConn.mkClient [WsConn.OPEN] (Some 0%nat) [1%nat] 0)).2 =
    ((WsConn.onmessage (Some (WsClient.empty "chat"))
        (WsConn.mkClient [WsConn.OPEN] (Some 0%nat) [1%nat] 0)).2 ++
     [WsConn.Invoke 2 (WsClient.empty "chat")])%list.
Proof.
  apply (conn_handler_round_trip (WsConn.mkClient [WsConn.OPEN] (Some 0%nat) [1%nat] 0)
           2%nat (WsClient.empty "chat")).
  intros H. apply list_elem_of_singleton in H. discriminate.
Defined.

(** * Properties of the account decoder *)
Section DecodeFacts.
Import GameService.

Variable bs58_encode : list Z -> string.

Lemma length_slice_le (data : list Z) (a b : nat) : (length (slice data a b) <= b - a)%nat.
Proof. unfold slice. rewrite length_take. lia. Qed.

Lemma PublicKey_of_slice (data : list Z) (a : nat) :
  PublicKey_toBase58 bs58_encode (slice data a (a + 32)) =
    Ok (bs58_encode (toBytes (slice data a (a + 32)))).
Proof.
  unfold PublicKey_toBase58.
  pose proof (length_slice_le data a (a + 32)) as Hl.
  destruct (Nat.ltb_spec 32 (length (slice data a (a + 32)))); [lia | reflexivity].
Qed.

Lemma parse_long (data : list Z) :
  (8 <= length data)%nat ->
  parse bs58_encode data =
    Ok (Some (mkGameState (statusMap (data !! 179%nat))
                (bs58_encode (toBytes (slice data 8 40)))
                (bs58_encode (toBytes (slice data 40 72)))
                (BN_le (slice data 96 104)) (data !! 178%nat))).
Proof.
  intros Hl. unfold parse.
  destruct (Nat.ltb_spec (length data) 8); [lia|].
  cbv zeta. rewrite !PublicKey_of_slice. reflexivity.
Qed.

Lemma slice_ext (d1 d2 : list Z) (a b : nat) :
  (forall i, (a <= i < b)%nat -> d1 !! i = d2 !! i) ->
  slice d1 a b = slice d2 a b.
Proof.
  intros H. unfold slice.
  apply list_eq. intros i. rewrite !lookup_take, !lookup_drop.
  destruct (decide (i < b - a)%nat) as [Hi|Hi]; [|reflexivity].
  apply H. lia.
Qed.

Lemma BN_le_bound (bytes : list Z) :
  Forall (fun b => (0 <= b < 256)%Z) bytes ->
  (0 <= BN_le bytes < 256 ^ Z.of_nat (length bytes))%Z.
Proof.
  induction 1 as [|b l Hb Hl IH]; [cbn; lia|].
  cbn [BN_le length]. rewrite Nat2Z.inj_succ, Z.pow_succ_r by lia. lia.
Qed.

Lemma is_buffer_slice (data : list Z) (a b : nat) :
  is_buffer data -> is_buffer (slice data a b).
Proof. intros H. unfold slice. by apply Forall_take, Forall_drop. Qed.

End DecodeFacts.

(** X23: [getGameState] fails only on its argument.  Given a well-formed
    game key it always resolves: a rejected account lookup, a missing
    account and account data shorter than 8 bytes all give [null], and every
    other account -- whatever its bytes -- gives a game state. *)
Theorem getGameState_null_cases (bs58_encode : list Z -> string)
    (accountInfo : Exn (option (list Z))) :
  exists r, GameService.getGameState bs58_encode true accountInfo = Ok r /\
    (r = None <->
     match accountInfo with
     | Ok (Some data) => (length data < 8)%nat
     | _ => True
     end).
Proof.
  unfold GameService.getGameState.
  destruct accountInfo as [[data|]|e]; cbn.
  - destruct (Nat.lt_ge_cases (length data) 8) as [Hlt|Hge].
    + exists None. unfold GameService.parse.
      destruct (Nat.ltb_spec (length data) 8); [|lia]. by split.
    + rewrite (parse_long bs58_encode data Hge). eexists. split; [reflexivity|].
      split; [discriminate | lia].
  - exists None. by split.
  - exists None. by split.
Qed.

(** X24: the decoder reads fixed offsets only.  Two accounts of at least 8
    bytes that agree on bytes 8..71 (the two players), 96..103 (the pot),
    178 (the turn) and 179 (the status) decode to the same game state,
    whatever the other bytes and the lengths are. *)
Theorem getGameState_reads_fixed_offsets (bs58_encode : list Z -> string)
    (d1 d2 : list Z) :
  (8 <= length d1)%nat -> (8 <= length d2)%nat ->
  (forall i, i ∈ GameService.read_offsets -> d1 !! i = d2 !! i) ->
  GameService.getGameState bs58_encode true (Ok (Some d1)) =
  GameService.getGameState bs58_encode true (Ok (Some d2)).
Proof.
  intros H1 H2 Hag. unfold GameService.getGameState. cbn.
  rewrite !parse_long by assumption.
  assert (Hin : forall i, (8 <= i < 72 \/ 96 <= i < 104 \/ i = 178 \/ i = 179)%nat ->
                  d1 !! i = d2 !! i).
  { intros i Hi. apply Hag. unfold GameService.read_offsets.
    rewrite !elem_of_app, !elem_of_seq, elem_of_cons, list_elem_of_singleton. lia. }
  rewrite (slice_ext d1 d2 8 40), (slice_ext d1 d2 40 72), (slice_ext d1 d2 96 104),
    (Hin 178%nat), (Hin 179%nat); try reflexivity; try lia; intros i Hi; apply Hin; lia.
Qed.

Lemma getGameState_reads_fixed_offsets_witness :
  GameService.getGameState (fun _ => "k") true (Ok (Some (replicate 180 0%Z))) =
  GameService.getGameState (fun _ => "k") true
    (Ok (Some (replicate 8 7%Z ++ replicate 172 0%Z ++ [9%Z]))%list).
Proof.
  apply (getGameState_reads_fixed_offsets (fun _ => "k") (replicate 180 0%Z)
           (replicate 8 7%Z ++ replicate 172 0%Z ++ [9%Z])%list).
  - cbn. lia.
  - cbn. lia.
  - intros i Hi. unfold GameService.read_offsets in Hi. cbn in Hi.
    repeat (apply elem_of_cons in Hi as [-> | Hi]; [reflexivity|]).
    by apply elem_of_nil in Hi.
Defined.

(** X25: a truncated account is decoded, not rejected.  Account data of 8 to
    178 bytes yields a game state whose status is "Unknown" and whose
    [currentTurn] is [undefined]; with at least 8 bytes the status is
    "Unknown" exactly when byte 179 is missing or is not 0, 1 or 2, and for
    byte data the pot is a number below 2^64. *)
Theorem getGameState_truncated (bs58_encode : list Z -> string) (data : list Z) :
  (8 <= length data)%nat -> GameService.is_buffer data ->
  exists gs, GameService.getGameState bs58_encode true (Ok (Some data)) = Ok (Some gs) /\
    (0 <= GameService.potLamports gs < 2 ^ 64)%Z /\
    (GameService.status gs = "Unknown" <->
       ~ (data !! 179%nat = Some 0%Z \/ data !! 179%nat = Some 1%Z \/
          data !! 179%nat = Some 2%Z)) /\
    ((length data <= 178)%nat ->
       GameService.status gs = "Unknown" /\ GameService.currentTurn gs = None).
Proof.
  intros Hl Hbuf. unfold GameService.getGameState. cbn.
  rewrite (parse_long bs58_encode data Hl). eexists. split; [reflexivity|].
  cbn [GameService.potLamports GameService.status GameService.currentTurn].
  split; [|split].
  - pose proof (BN_le_bound _ (is_buffer_slice data 96 104 Hbuf)) as Hb.
    pose proof (length_slice_le data 96 104) as Hlen.
    assert (256 ^ Z.of_nat (length (GameService.slice data 96 104)) <= 256 ^ 8)%Z
      by (apply Z.pow_le_mono_r; lia).
    change (2 ^ 64)%Z with (256 ^ 8)%Z. lia.
  - destruct (data !! 179%nat) as [z|];
      [destruct z as [|p|p]; [|destruct p as [p|[p|p|]|]|]|];
      cbn; (split; [first [discriminate | intros _ [H | [H | H]]; discriminate]
                   | first [reflexivity | intros H; exfalso; apply H; tauto]]).
  - intros Hshort. rewrite !lookup_ge_None_2 by lia. by split.
Qed.

Lemma getGameState_truncated_witness :
  exists gs,
    GameService.getGameState (fun _ => "k") true (Ok (Some (replicate 100 1%Z))) =
      Ok (Some gs) /\
    (0 <= GameService.potLamports gs < 2 ^ 64)%Z /\
    (GameService.status gs = "Unknown" <->
       ~ (replicate 100 1%Z !! 179%nat = Some 0%Z \/
          replicate 100 1%Z !! 179%nat = Some 1%Z \/
          replicate 100 1%Z !! 179%nat = Some 2%Z)) /\
    ((length (replicate 100 1%Z) <= 178)%nat ->
       GameService.status gs = "Unknown" /\ GameService.currentTurn gs = None).
Proof.
  apply (getGameState_truncated (fun _ => "k") (replicate 100 1%Z)).
  - cbn. lia.
  - unfold GameService.is_buffer. apply Forall_replicate. lia.
Defined.

(** * Properties of the HTTP API *)
Section ApiFacts.
Import Api.

Lemma truthy_nonempty (s : string) : s <> "" -> truthy (Some s) = true.
Proof.
  intros H. unfold truthy. apply negb_true_iff, String.eqb_neq. exact H.
Qed.

Lemma length_insert_by_index (m : MoveRow) (l : list MoveRow) :
  length (insert_by_index m l) = S (length l).
Proof.
  induction l as [|x l IH]; [reflexivity|]. cbn.
  destruct (move_index m <=? move_index x)%Z; cbn; [reflexivity | by rewrite IH].
Qed.

Lemma length_movesStmt_all (st : State) (g : string) :
  length (movesStmt_all st g) =
    length (filter (fun m => mv_game_pubkey m = g) (moves st)).
Proof.
  unfold movesStmt_all.
  induction (filter (fun m => mv_game_pubkey m = g) (moves st)) as [|x l IH];
    [reflexivity|].
  cbn. by rewrite length_insert_by_index, IH.
Qed.

Lemma post_games_ok (now : Z) (st : State) (g p1 p2 : string) :
  g <> "" -> p1 <> "" -> p2 <> "" -> games st !! g = None ->
  post_games now st (Some g) (Some p1) (Some p2) =
    (mkState (<[g := mkGame p1 p2 "waiting" now now]> (games st)) (moves st)
             (clients st) (clientSubscriptions st),
     mkResponse 200 (Registered g), []).
Proof.
  intros Hg H1 H2 Hnone. unfold post_games.
  rewrite !truthy_nonempty by assumption. cbn. by rewrite Hnone.
Qed.

Lemma post_games_dup (now : Z) (st : State) (g p1 p2 : string) (game : Game) :
  g <> "" -> p1 <> "" -> p2 <> "" -> games st !! g = Some game ->
  post_games now st (Some g) (Some p1) (Some p2) =
    (st, mkResponse 409 (ErrorBody "Game already exists"), []).
Proof.
  intros Hg H1 H2 Hsome. unfold post_games.
  rewrite !truthy_nonempty by assumption. cbn. by rewrite Hsome.
Qed.

(** No request removes a game or changes its players or creation time. *)
Lemma serve_keeps_game (now : Z) (st : State) (r : Request) (g : string) (game : Game) :
  games st !! g = Some game ->
  exists game', games (serve now st r).1.1 !! g = Some game' /\
    player1 game' = player1 game /\ player2 game' = player2 game /\
    created_at game' = created_at game.
Proof.
  intros Hg. destruct r as [k p1 p2 | k | k s | k i p b d]; cbn [serve].
  - unfold post_games.
    destruct (negb (truthy k) || negb (truthy p1) || negb (truthy p2)); cbn; [eauto|].
    destruct (games st !! default "" k) eqn:Hk; cbn; [eauto|].
    rewrite lookup_insert_ne by congruence. eauto.
  - unfold get_game. destruct (games st !! k); cbn; eauto.
  - unfold patch_status. destruct (negb (truthy s)); cbn; [eauto|].
    destruct (games st !! k) as [gk|] eqn:Hk; cbn; [|eauto].
    destruct (decide (k = g)) as [->|Hne].
    + rewrite lookup_insert_eq. rewrite Hg in Hk. inversion Hk; subst. eauto.
    + rewrite lookup_insert_ne by exact Hne. eauto.
  - unfold post_move.
    destruct (negb (truthy_number i) || negb (truthy p) || negb (truthy_array b) ||
              negb (truthy_array d)); cbn; [eauto|].
    unfold touch. destruct (games st !! k) as [gk|] eqn:Hk; [|eauto].
    destruct (decide (k = g)) as [->|Hne].
    + rewrite lookup_insert_eq. rewrite Hg in Hk. inversion Hk; subst. eauto.
    + rewrite lookup_insert_ne by exact Hne. eauto.
Qed.

End ApiFacts.

(** X26: a game is registered once.  The first [POST /api/games] for a key,
    with non-empty fields, answers 200 and stores the two players with
    status "waiting"; a later registration of the same key, with whatever
    players, answers 409 and leaves the stored game and everything else
    unchanged. *)
Theorem api_register_once (now now' : Z) (st : Api.State) (g p1 p2 q1 q2 : string) :
  g <> "" -> p1 <> "" -> p2 <> "" -> q1 <> "" -> q2 <> "" ->
  Api.games st !! g = None ->
  let r1 := Api.serve now st (Api.PostGames (Some g) (Some p1) (Some p2)) in
  let r2 := Api.serve now' r1.1.1 (Api.PostGames (Some g) (Some q1) (Some q2)) in
  r1.1.2 = Api.mkResponse 200 (Api.Registered g) /\
  Api.games r1.1.1 !! g = Some (Api.mkGame p1 p2 "waiting" now now) /\
  r2 = (r1.1.1, Api.mkResponse 409 (Api.ErrorBody "Game already exists"), []) /\
  (Api.serve now' r1.1.1 (Api.GetGame g)).1.2 =
    Api.mkResponse 200 (Api.GameData (Api.mkGame p1 p2 "waiting" now now)
                                     (Api.movesStmt_all st g)).
Proof.
  intros Hg H1 H2 H3 H4 Hnone. cbv zeta. cbn [Api.serve].
  rewrite (post_games_ok now st g p1 p2 Hg H1 H2 Hnone). cbn [fst snd].
  split; [reflexivity|]. split; [cbn; apply lookup_insert_eq|]. split.
  - eapply post_games_dup; try assumption. cbn. apply lookup_insert_eq.
  - unfold Api.get_game. cbn. rewrite lookup_insert_eq. reflexivity.
Qed.

Lemma api_register_once_witness :
  let st := Api.mkState ∅ [] [] ∅ in
  let r1 := Api.serve 10 st (Api.PostGames (Some "S1") (Some "P1") (Some "P2")) in
  let r2 := Api.serve 20 r1.1.1 (Api.PostGames (Some "S1") (Some "P3") (Some "P4")) in
  r1.1.2 = Api.mkResponse 200 (Api.Registered "S1") /\
  Api.games r1.1.1 !! "S1" = Some (Api.mkGame "P1" "P2" "waiting" 10 10) /\
  r2 = (r1.1.1, Api.mkResponse 409 (Api.ErrorBody "Game already exists"), []) /\
  (Api.serve 20 r1.1.1 (Api.GetGame "S1")).1.2 =
    Api.mkResponse 200 (Api.GameData (Api.mkGame "P1" "P2" "waiting" 10 10)
                                     (Api.movesStmt_all st "S1")).
Proof.
  apply (api_register_once 10 20 (Api.mkState ∅ [] [] ∅) "S1" "P1" "P2" "P3" "P4");
    try discriminate.
  reflexivity.
Defined.

(** X27: registered games are permanent.  Whatever requests are served, a
    registered game stays registered, with the players and the creation time
    it was registered with. *)
Theorem api_players_never_change (st : Api.State) (rs : list (Z * Api.Request))
    (g : string) (game : Api.Game) :
  Api.games st !! g = Some game ->
  exists game', Api.games (Api.serve_all st rs) !! g = Some game' /\
    Api.player1 game' = Api.player1 game /\ Api.player2 game' = Api.player2 game /\
    Api.created_at game' = Api.created_at game.
Proof.
  revert st game. induction rs as [|[now r] rs IH]; intros st game Hg; cbn.
  - eauto.
  - destruct (serve_keeps_game now st r g game Hg) as (g1 & Hg1 & Ha & Hb & Hc).
    destruct (IH _ _ Hg1) as (g2 & Hg2 & Ha2 & Hb2 & Hc2).
    exists g2. repeat split; congruence.
Qed.

Lemma api_players_never_change_witness :
  exists game',
    Api.games (Api.serve_all
                 (Api.mkState {["S1" := Api.mkGame "P1" "P2" "waiting" 10 10]} [] [] ∅)
                 [(20%Z, Api.PatchStatus "S1" (Some "active"));
                  (30%Z, Api.PostGames (Some "S1") (Some "P3") (Some "P4"));
                  (40%Z, Api.PostMove "S1" (Some 1%Z) (Some "P3") (Some []) (Some []))])
      !! "S1" = Some game' /\
    Api.player1 game' = "P1" /\ Api.player2 game' = "P2" /\ Api.created_at game' = 10%Z.
Proof.
  apply (api_players_never_change
           (Api.mkState {["S1" := Api.mkGame "P1" "P2" "waiting" 10 10]} [] [] ∅)
           [(20%Z, Api.PatchStatus "S1" (Some "active"));
            (30%Z, Api.PostGames (Some "S1") (Some "P3") (Some "P4"));
            (40%Z, Api.PostMove "S1" (Some 1%Z) (Some "P3") (Some []) (Some []))]
           "S1" (Api.mkGame "P1" "P2" "waiting" 10 10)).
  apply lookup_singleton_eq.
Defined.

Section ApiRelayFacts.
Import Api.

Lemma relay_view_lookup (st : State) (g : string) :
  Relay.games (relay_view st) !! g =
    (fun x => Relay.mkGameRow (player1 x) (player2 x)) <$> games st !! g.
Proof. unfold relay_view. cbn. apply lookup_fmap. Qed.

Lemma handle_lookup_branch (srv : Relay.Server) (ws : Relay.Socket) (m : Relay.Message) :
  Relay.looks_up_game m ->
  Relay.handle srv ws m =
    match Relay.forward_if_registered srv ws m with
    | Ok r => r
    | Throw _ => Relay.catch srv ws
    end.
Proof.
  intros Hm. unfold Relay.handle, Relay.try_body, Relay.type_is.
  destruct Hm as [Hm | [Hm | Hm]]; rewrite Hm;
    repeat (rewrite bool_decide_eq_false_2 by discriminate);
    rewrite bool_decide_eq_true_2 by reflexivity; reflexivity.
Qed.

Lemma filter_moves_app (l : list MoveRow) (m : MoveRow) (g : string) :
  filter (fun x => mv_game_pubkey x = g) (l ++ [m])%list =
    (filter (fun x => mv_game_pubkey x = g) l ++
     (if decide (mv_game_pubkey m = g) then [m] else []))%list.
Proof.
  rewrite filter_app. f_equal.
Qed.

Lemma touch_is_Some (now : Z) (g k : string) (gs : gmap string Game) :
  is_Some (touch now g gs !! k) <-> is_Some (gs !! k).
Proof.
  unfold touch. destruct (gs !! g) as [x|] eqn:Hx; [|reflexivity].
  destruct (decide (g = k)) as [->|Hne].
  - rewrite lookup_insert_eq, Hx. split; eauto.
  - by rewrite lookup_insert_ne.
Qed.

End ApiRelayFacts.

(** X28: registration is what makes a game routable.  For a frame of type
    [move_request], [move_signed] or [finish_signed] that names game [g]:
    while [g] is not in the [games] table the sender alone gets "Game not
    found"; once [POST /api/games] has registered [g], the same frame is
    forwarded to the open connections subscribed to [g] and no error is
    sent, and the two tables stay as the registration left them. *)
Theorem api_registration_makes_routable (now : Z) (st : Api.State) (g p1 p2 : string)
    (ws : Relay.Socket) (m : Relay.Message) :
  g <> "" -> p1 <> "" -> p2 <> "" ->
  Api.games st !! g = None ->
  Relay.looks_up_game m -> Relay.gamePubkey m = Some g ->
  let st1 := (Api.serve now st (Api.PostGames (Some g) (Some p1) (Some p2))).1.1 in
  (Api.on_ws_message st ws m).2 = [(ws, Relay.ErrorReply "Game not found")] /\
  (Api.on_ws_message st1 ws m).2 =
    Relay.broadcast (Api.relay_view st) (Some g) (Relay.Forward m) /\
  Api.games (Api.on_ws_message st1 ws m).1 = Api.games st1 /\
  Api.moves (Api.on_ws_message st1 ws m).1 = Api.moves st.
Proof.
  intros Hg H1 H2 Hnone Hm Hgm. cbv zeta. cbn [Api.serve].
  rewrite (post_games_ok now st g p1 p2 Hg H1 H2 Hnone). cbn [fst snd].
  unfold Api.on_ws_message. rewrite !(handle_lookup_branch _ ws m Hm).
  unfold Relay.forward_if_registered, Relay.gameStmt_get. rewrite Hgm. cbn [mbind Exn_bind].
  rewrite !relay_view_lookup. cbn [Api.games]. rewrite Hnone, lookup_insert_eq. cbn.
  repeat split; reflexivity.
Qed.

Lemma api_registration_makes_routable_witness :
  let st := Api.mkState ∅ [] [(1%nat, Relay.OPEN); (2%nat, Relay.OPEN)]
              {[1%nat := Relay.mkSubscription "S1" "P1";
                2%nat := Relay.mkSubscription "S1" "P2"]} in
  let m := Relay.mkMessage (Some "move_request") (Some "S1") (Some "P1") None "tx" in
  let st1 := (Api.serve 10 st (Api.PostGames (Some "S1") (Some "P1") (Some "P2"))).1.1 in
  (Api.on_ws_message st 1%nat m).2 = [(1%nat, Relay.ErrorReply "Game not found")] /\
  (Api.on_ws_message st1 1%nat m).2 =
    Relay.broadcast (Api.relay_view st) (Some "S1") (Relay.Forward m) /\
  Api.games (Api.on_ws_message st1 1%nat m).1 = Api.games st1 /\
  Api.moves (Api.on_ws_message st1 1%nat m).1 = Api.moves st.
Proof.
  apply (api_registration_makes_routable 10
           (Api.mkState ∅ [] [(1%nat, Relay.OPEN); (2%nat, Relay.OPEN)]
              {[1%nat := Relay.mkSubscription "S1" "P1";
                2%nat := Relay.mkSubscription "S1" "P2"]})
           "S1" "P1" "P2" 1%nat
           (Relay.mkMessage (Some "move_request") (Some "S1") (Some "P1") None "tx"));
    try discriminate; try reflexivity.
  left. reflexivity.
Defined.

(** X29: the move log.  [POST .../move] with a non-zero index, a non-empty
    player and both arrays is accepted whether or not the game is registered
    and whether or not that index was logged before: it appends one row, so
    the history of that game grows by exactly one and the index the client
    computes for its next move ([moves.length + 1]) advances by one, while
    the histories of other games and the set of registered games stay as
    they were.  Index 0 is rejected with 400 and changes nothing. *)
Theorem api_move_log (now : Z) (st : Api.State) (g player : string) (i : Z)
    (b d : list Z) :
  i <> 0%Z -> player <> "" ->
  let r := Api.serve now st (Api.PostMove g (Some i) (Some player) (Some b) (Some d)) in
  r.1.2 = Api.mkResponse 200 (Api.MoveLogged i) /\
  length (Api.movesStmt_all r.1.1 g) = S (length (Api.movesStmt_all st g)) /\
  Api.next_moveIndex r.1.1 g = (fun n => n + 1)%Z <$> Api.next_moveIndex st g /\
  (forall g', g' <> g -> Api.movesStmt_all r.1.1 g' = Api.movesStmt_all st g') /\
  (forall k, is_Some (Api.games r.1.1 !! k) <-> is_Some (Api.games st !! k)) /\
  Api.serve now st (Api.PostMove g (Some 0%Z) (Some player) (Some b) (Some d)) =
    (st, Api.mkResponse 400
           (Api.ErrorBody "Missing required fields: moveIndex, player, boardPoints, dice"),
     []).
Proof.
  intros Hi Hp. cbv zeta. cbn [Api.serve]. unfold Api.post_move.
  rewrite (truthy_nonempty player Hp).
  assert (Hti : Api.truthy_number (Some i) = true)
    by (cbn; apply negb_true_iff, Z.eqb_neq; exact Hi).
  rewrite Hti. cbn -[Api.movesStmt_all Api.next_moveIndex Api.touch Api.push_to_game].
  assert (Hlen : length (Api.movesStmt_all
                   (Api.mkState (Api.touch now g (Api.games st))
                      (Api.moves st ++ [Api.mkMoveRow g i player b d now])
                      (Api.clients st) (Api.clientSubscriptions st)) g) =
                 S (length (Api.movesStmt_all st g))).
  { rewrite !length_movesStmt_all. cbn [Api.moves]. rewrite filter_moves_app.
    cbn [Api.mv_game_pubkey]. rewrite decide_True by reflexivity.
    rewrite length_app. cbn. lia. }
  split; [reflexivity|]. split; [exact Hlen|]. split; [|split; [|split; [|reflexivity]]].
  - unfold Api.next_moveIndex, Api.get_game. cbn [Api.games].
    pose proof (touch_is_Some now g g (Api.games st)) as Hsome.
    destruct (Api.games st !! g) as [game|] eqn:Hg.
    + destruct (proj2 Hsome (mk_is_Some _ _ eq_refl)) as [game' Hg'].
      rewrite Hg'. cbn [fst snd fmap option_fmap option_map Api.statusCode Api.json].
      rewrite Hlen. f_equal. lia.
    + destruct (Api.touch now g (Api.games st) !! g) as [game'|] eqn:Hg'; [|reflexivity].
      destruct (proj1 Hsome (mk_is_Some _ _ eq_refl)) as [? ?]. discriminate.
  - intros g' Hne. unfold Api.movesStmt_all. cbn [Api.moves].
    rewrite filter_moves_app. cbn [Api.mv_game_pubkey].
    rewrite decide_False by congruence. by rewrite app_nil_r.
  - intros k. apply touch_is_Some.
Qed.

Lemma api_move_log_witness :
  let st := Api.mkState {["S1" := Api.mkGame "P1" "P2" "waiting" 10 10]}
              [Api.mkMoveRow "S1" 1 "P1" [] [] 15] [] ∅ in
  let r := Api.serve 20 st (Api.PostMove "S1" (Some 1%Z) (Some "P2") (Some [1%Z])
                                         (Some [3%Z; 5%Z])) in
  r.1.2 = Api.mkResponse 200 (Api.MoveLogged 1) /\
  length (Api.movesStmt_all r.1.1 "S1") = S (length (Api.movesStmt_all st "S1")) /\
  Api.next_moveIndex r.1.1 "S1" = (fun n => n + 1)%Z <$> Api.next_moveIndex st "S1" /\
  (forall g', g' <> "S1" -> Api.movesStmt_all r.1.1 g' = Api.movesStmt_all st g') /\
  (forall k, is_Some (Api.games r.1.1 !! k) <-> is_Some (Api.games st !! k)) /\
  Api.serve 20 st (Api.PostMove "S1" (Some 0%Z) (Some "P2") (Some [1%Z])
                               (Some [3%Z; 5%Z])) =
    (st, Api.mkResponse 400
           (Api.ErrorBody "Missing required fields: moveIndex, player, boardPoints, dice"),
     []).
Proof.
  apply (api_move_log 20
           (Api.mkState {["S1" := Api.mkGame "P1" "P2" "waiting" 10 10]}
              [Api.mkMoveRow "S1" 1 "P1" [] [] 15] [] ∅)
           "S1" "P2" 1%Z [1%Z] [3%Z; 5%Z]); discriminate.
Defined.

(** * Properties of the wallet initialisation *)
Section AnchorFacts.
Import Web3 AnchorClient.

Lemma initialise_spec (stored : Stored) (env : EnvSecret) (keypair : option Keypair)
    (m : Globals) :
  match chosen stored env keypair with
  | Some k => initialise stored env keypair m = (mkGlobals (Some k) (Some k), Ok k)
  | None => exists e, initialise stored env keypair m = (m, Throw e)
  end.
Proof.
  unfold chosen, initialise, install.
  destruct keypair as [k|]; [reflexivity|].
  destruct (loadKeypairFromStorage stored) as [k|]; [reflexivity|].
  destruct env; eauto.
Qed.

End AnchorFacts.

(** X30: the wallet follows one keypair.  Starting from the state in which
    the provider's wallet and [currentKeypair] agree (as they do initially,
    both [null]), a call of [initAnchorClient] either throws and changes
    nothing -- exactly when no keypair is passed, none can be loaded from
    storage and the environment gives none -- or returns a provider whose
    wallet is the chosen keypair (argument before storage before
    environment) and leaves that keypair in both variables.  The early
    return for an identical keypair gives the same state and the same wallet
    as initialising again. *)
Theorem anchor_init_keeps_wallet_and_keypair (identical : bool)
    (stored : AnchorClient.Stored) (env : AnchorClient.EnvSecret)
    (keypair : option Web3.Keypair) (m : AnchorClient.Globals) :
  AnchorClient.provider m = AnchorClient.currentKeypair m ->
  (identical = true -> is_Some keypair /\ keypair = AnchorClient.currentKeypair m) ->
  let r := AnchorClient.initAnchorClient identical stored env keypair m in
  AnchorClient.provider r.1 = AnchorClient.currentKeypair r.1 /\
  match AnchorClient.chosen stored env keypair with
  | Some k => r = (AnchorClient.mkGlobals (Some k) (Some k), Ok k)
  | None => r.1 = m /\ exists e, r.2 = Throw e
  end.
Proof.
  intros Hinv Hid. cbv zeta.
  pose proof (initialise_spec stored env keypair m) as Hspec.
  unfold AnchorClient.initAnchorClient.
  destruct (AnchorClient.provider m) as [p|] eqn:Hp.
  - destruct identical.
    + destruct (Hid eq_refl) as [[k Hk] Hcur]. subst keypair.
      cbn. split; [congruence|].
      assert (p = k) by congruence. subst p. destruct m as [pr cur]. cbn in *.
      congruence.
    + destruct (AnchorClient.chosen stored env keypair) as [k|].
      * rewrite Hspec. by split.
      * destruct Hspec as [e ->]. cbn. split; [congruence|]. eauto.
  - destruct (AnchorClient.chosen stored env keypair) as [k|].
    + rewrite Hspec. by split.
    + destruct Hspec as [e ->]. cbn. split; [congruence|]. eauto.
Qed.

Lemma anchor_init_keeps_wallet_and_keypair_witness :
  let m := AnchorClient.mkGlobals (Some "P1") (Some "P1") in
  let r := AnchorClient.initAnchorClient false (AnchorClient.SecretKey "P2")
             AnchorClient.EnvUnset None m in
  AnchorClient.provider r.1 = AnchorClient.currentKeypair r.1 /\
  match AnchorClient.chosen (AnchorClient.SecretKey "P2") AnchorClient.EnvUnset None with
  | Some k => r = (AnchorClient.mkGlobals (Some k) (Some k), Ok k)
  | None => r.1 = m /\ exists e, r.2 = Throw e
  end.
Proof.
  apply (anchor_init_keeps_wallet_and_keypair false (AnchorClient.SecretKey "P2")
           AnchorClient.EnvUnset None (AnchorClient.mkGlobals (Some "P1") (Some "P1"))).
  - reflexivity.
  - discriminate.
Defined.
